(** * E.M.S.U: the storage layer and the routes built on it

    A shallow embedding of [shared/schema.ts] (tables, enums),
    [server/storage.ts] (class [DatabaseStorage]) and
    [server/routes.ts] (the Express handlers).

    Tables are lists of rows in heap order; a [select] without
    [orderBy] yields the matching rows in that order, and
    [const [x] = await ...] takes the first of them.  A nullable
    column is an [option]; [eq] against a parameter is SQL equality,
    which never holds on NULL. *)

From Stdlib Require Import List String ZArith Bool Lia.
From Stdlib Require Import Permutation Sorted.
Import ListNotations.
Local Open Scope string_scope.
Local Open Scope Z_scope.
Local Open Scope list_scope.

Set Implicit Arguments.

(** ** Column types *)

Definition varchar := string.
(** [timestamp]: milliseconds since the epoch. *)
Definition timestamp := Z.
(** [decimal(p, 2)]: the number of hundredths, so 88.50 is 8850. *)
Definition decimal := Z.

(** ** Enums of [shared/schema.ts] *)

Definition userRoleEnum : list string :=
  ["student"; "teacher"; "parent"; "principal"; "proprietor"].
Definition termEnum : list string := ["first"; "second"; "third"].
Definition gradeStatusEnum : list string := ["draft"; "published"].
Definition feeStatusEnum : list string := ["pending"; "partial"; "paid"].
Definition attendanceStatusEnum : list string := ["present"; "absent"; "late"].

(** Input conversion of an enum column: the label has to be one of the
    enum's. *)
Definition enum_ok (labels : list string) (v : string) : bool :=
  existsb (String.eqb v) labels.

(** ** Rows *)

Module User.
Record t := mk {
  id : varchar;
  email : varchar;
  password : varchar;
  firstName : option varchar;
  lastName : option varchar;
  profileImageUrl : option varchar;
  role : string;
  isActive : option bool;
  createdAt : option timestamp;
  updatedAt : option timestamp }.
End User.

Module School.
Record t := mk {
  id : varchar;
  name : varchar;
  address : option string;
  phone : option varchar;
  email : option varchar;
  proprietorId : option varchar;
  principalId : option varchar;
  createdAt : option timestamp;
  updatedAt : option timestamp }.
End School.

Module AcademicSession.
Record t := mk {
  id : varchar;
  name : varchar;
  startDate : timestamp;
  endDate : timestamp;
  schoolId : option varchar;
  isActive : option bool;
  createdAt : option timestamp }.
End AcademicSession.

Module Class.
Record t := mk {
  id : varchar;
  name : varchar;
  level : varchar;
  schoolId : option varchar;
  classTeacherId : option varchar;
  capacity : option Z;
  createdAt : option timestamp }.
End Class.

Module Subject.
Record t := mk {
  id : varchar;
  name : varchar;
  code : varchar;
  description : option string;
  schoolId : option varchar;
  createdAt : option timestamp }.
End Subject.

Module Student.
Record t := mk {
  id : varchar;
  userId : option varchar;
  studentId : varchar;
  classId : option varchar;
  schoolId : option varchar;
  dateOfBirth : option timestamp;
  admissionDate : option timestamp;
  parentId : option varchar;
  createdAt : option timestamp }.
End Student.

Module Teacher.
Record t := mk {
  id : varchar;
  userId : option varchar;
  teacherId : varchar;
  schoolId : option varchar;
  department : option varchar;
  qualification : option varchar;
  hireDate : option timestamp;
  createdAt : option timestamp }.
End Teacher.

Module Grade.
Record t := mk {
  id : varchar;
  studentId : option varchar;
  subjectId : option varchar;
  teacherId : option varchar;
  academicSessionId : option varchar;
  term : string;
  assessmentType : varchar;
  score : option decimal;
  maxScore : option decimal;
  status : option string;
  gradedAt : option timestamp;
  createdAt : option timestamp }.
End Grade.

Module Attendance.
Record t := mk {
  id : varchar;
  studentId : option varchar;
  classId : option varchar;
  date : timestamp;
  status : string;
  remarks : option string;
  recordedBy : option varchar;
  createdAt : option timestamp }.
End Attendance.

Module Assignment.
Record t := mk {
  id : varchar;
  title : varchar;
  description : option string;
  subjectId : option varchar;
  classId : option varchar;
  teacherId : option varchar;
  dueDate : option timestamp;
  maxScore : option decimal;
  createdAt : option timestamp }.
End Assignment.

Module Message.
Record t := mk {
  id : varchar;
  senderId : option varchar;
  recipientId : option varchar;
  subject : option varchar;
  content : string;
  isRead : option bool;
  createdAt : option timestamp }.
End Message.

Module FeePayment.
Record t := mk {
  id : varchar;
  studentId : option varchar;
  feeStructureId : option varchar;
  amountPaid : decimal;
  paymentMethod : option varchar;
  transactionRef : option varchar;
  status : option string;
  paidAt : option timestamp;
  createdAt : option timestamp }.
End FeePayment.

Module Announcement.
Record t := mk {
  id : varchar;
  title : varchar;
  content : string;
  authorId : option varchar;
  schoolId : option varchar;
  (** [targetRole]: "null means all roles" (schema.ts). *)
  targetRole : option string;
  priority : option varchar;
  isActive : option bool;
  createdAt : option timestamp }.
End Announcement.

Module ReportCard.
Record t := mk {
  id : varchar;
  studentId : option varchar;
  academicSessionId : option varchar;
  term : string;
  totalScore : option decimal;
  totalPossible : option decimal;
  average : option decimal;
  position : option Z;
  classSize : option Z;
  teacherComment : option string;
  principalComment : option string;
  nextTermBegins : option timestamp;
  isPublished : option bool;
  generatedAt : option timestamp }.
End ReportCard.

(** ** The store: [db] *)

Record DB := mkDB {
  users : list User.t;
  schools : list School.t;
  academicSessions : list AcademicSession.t;
  classes : list Class.t;
  subjects : list Subject.t;
  students : list Student.t;
  teachers : list Teacher.t;
  grades : list Grade.t;
  attendance : list Attendance.t;
  assignments : list Assignment.t;
  messages : list Message.t;
  feePayments : list FeePayment.t;
  announcements : list Announcement.t;
  reportCards : list ReportCard.t }.

Definition empty_db : DB := mkDB [] [] [] [] [] [] [] [] [] [] [] [] [] [].

(** ** Query primitives (drizzle-orm) *)

(** [eq(column, value)] on a nullable column. *)
Definition sql_eq (col : option varchar) (v : varchar) : bool :=
  match col with
  | Some x => String.eqb x v
  | None => false
  end.

(** [eq(column, true)] / [eq(column, false)] on a nullable boolean. *)
Definition sql_eq_bool (col : option bool) (v : bool) : bool :=
  match col with
  | Some x => Bool.eqb x v
  | None => false
  end.

(** [eq(left, right)] between two nullable columns. *)
Definition sql_eq_cols (a b : option varchar) : bool :=
  match a, b with
  | Some x, Some y => String.eqb x y
  | _, _ => false
  end.

(** [from(l).innerJoin(r, on)]: the pairs that satisfy [on]. *)
Definition innerJoin (A B : Type) (l : list A) (r : list B)
    (on : A -> B -> bool) : list (A * B) :=
  flat_map (fun a => map (pair a) (filter (on a) r)) l.

(** [const [x] = await query]: the first row, [undefined] when there
    is none. *)
Definition first_row (A : Type) (rows : list A) : option A :=
  match rows with
  | x :: _ => Some x
  | [] => None
  end.

(** Stable insertion sort; [before a b] says that [a] may precede [b]
    in the result.  SQL leaves the order of rows with equal keys open:
    the sort makes one admissible choice, and what is stated about an
    ordered read is its rows and that they are sorted. *)
Fixpoint insert_by (A : Type) (before : A -> A -> bool) (x : A)
    (l : list A) : list A :=
  match l with
  | [] => [x]
  | y :: l' => if before x y then x :: y :: l'
               else y :: insert_by before x l'
  end.

Definition orderBy (A : Type) (before : A -> A -> bool) (rows : list A)
    : list A :=
  fold_right (insert_by before) [] rows.

(** [db.update(table).set(...).where(hit)]: a row that matches is
    written as a new row version; when no row matches the table is left
    as it is.  Where a later read without [orderBy] meets the new
    versions is left open by SQL: here they come behind the rows that
    were not touched, as on a freshly filled PostgreSQL table, and what
    is stated about an update is stated up to the order of the rows. *)
Definition update_where (A : Type) (hit : A -> bool) (set : A -> A)
    (rows : list A) : list A :=
  filter (fun a => negb (hit a)) rows ++ map set (filter hit rows).

(** PostgreSQL sorts NULL as larger than every value: last under
    [asc], first under [desc]. *)
Definition null_largest_leb (A : Type) (leb : A -> A -> bool)
    (a b : option A) : bool :=
  match a, b with
  | _, None => true
  | None, Some _ => false
  | Some x, Some y => leb x y
  end.

Definition ts_leb : option timestamp -> option timestamp -> bool :=
  null_largest_leb Z.leb.

Definition asc (A K : Type) (leb : K -> K -> bool) (key : A -> K)
    (a b : A) : bool := leb (key a) (key b).

Definition desc (A K : Type) (leb : K -> K -> bool) (key : A -> K)
    (a b : A) : bool := leb (key b) (key a).

(** ** School operations *)

(** [DatabaseStorage.getSchoolByUser] *)
Definition getSchoolByUser (db : DB) (userId : varchar)
    : option School.t :=
  match first_row
          (filter (fun s => sql_eq (School.proprietorId s) userId)
                  db.(schools)) with
  | Some school => Some school
  | None =>
    match first_row
            (filter (fun s => sql_eq (School.principalId s) userId)
                    db.(schools)) with
    | Some principalSchool => Some principalSchool
    | None =>
      match first_row
              (filter (fun ts => sql_eq (Teacher.userId (fst ts)) userId)
                 (innerJoin db.(teachers) db.(schools)
                    (fun t s => sql_eq (Teacher.schoolId t) (School.id s))))
      with
      | Some teacher => Some (snd teacher)
      | None =>
        match first_row
                (filter (fun ss => sql_eq (Student.userId (fst ss)) userId)
                   (innerJoin db.(students) db.(schools)
                      (fun st s =>
                         sql_eq (Student.schoolId st) (School.id s))))
        with
        | Some student => Some (snd student)
        | None => None
        end
      end
    end
  end.

(** The four relations between an identity and a school, as the data
    model states them. *)
Definition proprietor_of (db : DB) (u : varchar) (s : School.t) : Prop :=
  In s db.(schools) /\ School.proprietorId s = Some u.

Definition principal_of (db : DB) (u : varchar) (s : School.t) : Prop :=
  In s db.(schools) /\ School.principalId s = Some u.

Definition teacher_of (db : DB) (u : varchar) (s : School.t) : Prop :=
  In s db.(schools) /\
  exists t, In t db.(teachers) /\ Teacher.userId t = Some u /\
            Teacher.schoolId t = Some (School.id s).

Definition student_of (db : DB) (u : varchar) (s : School.t) : Prop :=
  In s db.(schools) /\
  exists st, In st db.(students) /\ Student.userId st = Some u /\
             Student.schoolId st = Some (School.id s).

(** ** Promises *)

Inductive Error :=
| TypeError (msg : string)
| ZodError
| DrizzleError (msg : string)
| PgError (msg : string).

(** The outcome of awaiting an async call. *)
Inductive Promise (A : Type) :=
| Resolved (a : A)
| Rejected (e : Error).

Arguments Rejected {A} e.

Definition bind (A B : Type) (p : Promise A) (k : A -> Promise B)
    : Promise B :=
  match p with
  | Resolved a => k a
  | Rejected e => Rejected e
  end.

Notation "'await' x <- p ;; k" := (bind p (fun x => k))
  (at level 61, x pattern, p at next level, right associativity).

(** [if (cond) ... else throw] *)
Definition require (cond : bool) (e : Error) : Promise unit :=
  if cond then Resolved tt else Rejected e.

(** JavaScript truthiness of an optional string: [undefined] and the
    empty string are falsy. *)
Definition truthy (v : option string) : bool :=
  match v with
  | Some s => negb (String.eqb s "")
  | None => false
  end.

(** The value an [if (v)] branch sees: [Some] exactly when [v] is
    truthy. *)
Definition if_truthy (v : option string) : option string :=
  if truthy v then v else None.

(** [array.includes(v)] *)
Definition includes (l : list string) (v : string) : bool :=
  existsb (String.eqb v) l.

(** ** Constraints the database enforces on a write *)

(** The primary key [k] is not taken yet. *)
Definition pk_free (A : Type) (id : A -> varchar) (rows : list A)
    (k : varchar) : bool :=
  negb (existsb (fun r => String.eqb (id r) k) rows).

(** [references(() => table.id)]: NULL, or the key of a row. *)
Definition fk_ok (A : Type) (id : A -> varchar) (rows : list A)
    (k : option varchar) : bool :=
  match k with
  | None => true
  | Some v => existsb (fun r => String.eqb (id r) v) rows
  end.

Definition opt_enum_ok (labels : list string) (v : option string) : bool :=
  match v with
  | None => true
  | Some s => enum_ok labels s
  end.

(** [decimal(precision, 2)]: the digits have to fit. *)
Definition decimal_fits (precision : Z) (v : option decimal) : bool :=
  match v with
  | None => true
  | Some x => Z.abs x <? 10 ^ precision
  end.

(** A field of an insert object whose column has a default: left out
    ([undefined]), and the database fills in the default, or given,
    possibly as [null], and stored as given. *)
Inductive Defaulted (A : Type) :=
| Omitted
| Given (v : option A).

Arguments Omitted {A}.

Definition column_value (A : Type) (v : Defaulted A) (d : A) : option A :=
  match v with
  | Omitted => Some d
  | Given x => x
  end.

Definition given_enum_ok (labels : list string) (v : Defaulted string)
    : bool :=
  match v with
  | Omitted => true
  | Given x => opt_enum_ok labels x
  end.

(** What the database draws for a new row: [gen_random_uuid()] for
    the key and [now()] for the [defaultNow()] columns. *)
Record Fresh := mkFresh {
  gen_random_uuid : varchar;
  now : timestamp }.

(** ** User, student and teacher operations *)

Definition getUser (db : DB) (id : varchar) : option User.t :=
  first_row (filter (fun u => String.eqb (User.id u) id) db.(users)).

Definition getStudentByUserId (db : DB) (userId : varchar)
    : option Student.t :=
  first_row (filter (fun s => sql_eq (Student.userId s) userId)
                    db.(students)).

Definition getTeacherByUserId (db : DB) (userId : varchar)
    : option Teacher.t :=
  first_row (filter (fun t => sql_eq (Teacher.userId t) userId)
                    db.(teachers)).

Definition getTeachersBySchool (db : DB) (schoolId : varchar)
    : list Teacher.t :=
  orderBy (asc String.leb Teacher.teacherId)
    (filter (fun t => sql_eq (Teacher.schoolId t) schoolId) db.(teachers)).

Definition getClassesBySchool (db : DB) (schoolId : varchar)
    : list Class.t :=
  orderBy (asc String.leb Class.name)
    (filter (fun c => sql_eq (Class.schoolId c) schoolId) db.(classes)).

Definition getSubjectsBySchool (db : DB) (schoolId : varchar)
    : list Subject.t :=
  orderBy (asc String.leb Subject.name)
    (filter (fun s => sql_eq (Subject.schoolId s) schoolId) db.(subjects)).

(** ** Grade operations *)

(** [DatabaseStorage.getGradesByStudent]; the parameter [term] is
    converted to the enum [term] by the database, which rejects the
    query when it is not a label. *)
Definition getGradesByStudent (db : DB) (studentId : varchar)
    (term : option string) : Promise (list Grade.t) :=
  match if_truthy term with
  | Some t =>
    await _ <- require (enum_ok termEnum t)
                 (PgError "invalid input value for enum term") ;;
    Resolved
      (orderBy (desc ts_leb Grade.createdAt)
         (filter (fun g => sql_eq (Grade.studentId g) studentId
                           && String.eqb (Grade.term g) t)
                 db.(grades)))
  | None =>
    Resolved
      (orderBy (desc ts_leb Grade.createdAt)
         (filter (fun g => sql_eq (Grade.studentId g) studentId)
                 db.(grades)))
  end.

Module InsertGrade.
Record t := mk {
  studentId : option varchar;
  subjectId : option varchar;
  teacherId : option varchar;
  academicSessionId : option varchar;
  term : string;
  assessmentType : varchar;
  score : option decimal;
  maxScore : option decimal;
  status : Defaulted string;
  gradedAt : option timestamp }.
End InsertGrade.

Definition set_grades (db : DB) (rows : list Grade.t) : DB :=
  mkDB db.(users) db.(schools) db.(academicSessions) db.(classes)
       db.(subjects) db.(students) db.(teachers) rows db.(attendance)
       db.(assignments) db.(messages) db.(feePayments) db.(announcements)
       db.(reportCards).

(** [DatabaseStorage.createGrade] *)
Definition createGrade (db : DB) (fr : Fresh) (grade : InsertGrade.t)
    : Promise (DB * Grade.t) :=
  await _ <- require (enum_ok termEnum (InsertGrade.term grade)
                      && given_enum_ok gradeStatusEnum
                           (InsertGrade.status grade))
               (PgError "invalid input value for enum") ;;
  await _ <- require (decimal_fits 5 (InsertGrade.score grade)
                      && decimal_fits 5 (InsertGrade.maxScore grade))
               (PgError "numeric field overflow") ;;
  await _ <- require (pk_free Grade.id db.(grades) fr.(gen_random_uuid))
               (PgError "duplicate key value") ;;
  await _ <- require
               (fk_ok Student.id db.(students) (InsertGrade.studentId grade)
                && fk_ok Subject.id db.(subjects)
                     (InsertGrade.subjectId grade)
                && fk_ok Teacher.id db.(teachers)
                     (InsertGrade.teacherId grade)
                && fk_ok AcademicSession.id db.(academicSessions)
                     (InsertGrade.academicSessionId grade))
               (PgError "violates foreign key constraint") ;;
  let newGrade :=
    Grade.mk fr.(gen_random_uuid)
      (InsertGrade.studentId grade) (InsertGrade.subjectId grade)
      (InsertGrade.teacherId grade) (InsertGrade.academicSessionId grade)
      (InsertGrade.term grade) (InsertGrade.assessmentType grade)
      (InsertGrade.score grade) (InsertGrade.maxScore grade)
      (column_value (InsertGrade.status grade) "draft")
      (InsertGrade.gradedAt grade) (Some fr.(now)) in
  Resolved (set_grades db (db.(grades) ++ [newGrade]), newGrade).

(** ** Attendance, assignment, message and fee reads *)

(** [DatabaseStorage.getAttendanceByStudent]: both branches run the
    same query. *)
Definition getAttendanceByStudent (db : DB) (studentId : varchar)
    (startDate endDate : option timestamp) : list Attendance.t :=
  match startDate, endDate with
  | Some _, Some _ =>
    orderBy (desc Z.leb Attendance.date)
      (filter (fun a => sql_eq (Attendance.studentId a) studentId)
              db.(attendance))
  | _, _ =>
    orderBy (desc Z.leb Attendance.date)
      (filter (fun a => sql_eq (Attendance.studentId a) studentId)
              db.(attendance))
  end.

(** [DatabaseStorage.getAssignmentsByStudent] *)
Definition getAssignmentsByStudent (db : DB) (studentId : varchar)
    : list Assignment.t :=
  orderBy (desc ts_leb Assignment.dueDate)
    (map fst
       (filter (fun p => sql_eq_cols (Assignment.classId (fst p))
                                     (Student.classId (snd p)))
          (innerJoin db.(assignments) db.(students)
             (fun _ st => String.eqb (Student.id st) studentId)))).

Definition getMessagesByUser (db : DB) (userId : varchar)
    : list Message.t :=
  orderBy (desc ts_leb Message.createdAt)
    (filter (fun m => sql_eq (Message.recipientId m) userId) db.(messages)).

Definition getFeePaymentsByStudent (db : DB) (studentId : varchar)
    : list FeePayment.t :=
  orderBy (desc ts_leb FeePayment.createdAt)
    (filter (fun p => sql_eq (FeePayment.studentId p) studentId)
            db.(feePayments)).

(** ** Announcement operations *)

(** [DatabaseStorage.getAnnouncementsBySchool] *)
Definition getAnnouncementsBySchool (db : DB) (schoolId : varchar)
    (role : option string) : Promise (list Announcement.t) :=
  match if_truthy role with
  | Some r =>
    await _ <- require (enum_ok userRoleEnum r)
                 (PgError "invalid input value for enum user_role") ;;
    Resolved
      (orderBy (desc ts_leb Announcement.createdAt)
         (filter (fun a => sql_eq (Announcement.schoolId a) schoolId
                           && sql_eq (Announcement.targetRole a) r
                           && sql_eq_bool (Announcement.isActive a) true)
                 db.(announcements)))
  | None =>
    Resolved
      (orderBy (desc ts_leb Announcement.createdAt)
         (filter (fun a => sql_eq (Announcement.schoolId a) schoolId
                           && sql_eq_bool (Announcement.isActive a) true)
                 db.(announcements)))
  end.

Module InsertAnnouncement.
Record t := mk {
  title : varchar;
  content : string;
  authorId : option varchar;
  schoolId : option varchar;
  targetRole : option string;
  priority : Defaulted varchar;
  isActive : Defaulted bool }.
End InsertAnnouncement.

Definition set_announcements (db : DB) (rows : list Announcement.t) : DB :=
  mkDB db.(users) db.(schools) db.(academicSessions) db.(classes)
       db.(subjects) db.(students) db.(teachers) db.(grades)
       db.(attendance) db.(assignments) db.(messages) db.(feePayments)
       rows db.(reportCards).

(** [DatabaseStorage.createAnnouncement] *)
Definition createAnnouncement (db : DB) (fr : Fresh)
    (announcement : InsertAnnouncement.t) : Promise (DB * Announcement.t) :=
  await _ <- require (opt_enum_ok userRoleEnum
                        (InsertAnnouncement.targetRole announcement))
               (PgError "invalid input value for enum user_role") ;;
  await _ <- require (pk_free Announcement.id db.(announcements)
                        fr.(gen_random_uuid))
               (PgError "duplicate key value") ;;
  await _ <- require
               (fk_ok User.id db.(users)
                  (InsertAnnouncement.authorId announcement)
                && fk_ok School.id db.(schools)
                     (InsertAnnouncement.schoolId announcement))
               (PgError "violates foreign key constraint") ;;
  let newAnnouncement :=
    Announcement.mk fr.(gen_random_uuid)
      (InsertAnnouncement.title announcement)
      (InsertAnnouncement.content announcement)
      (InsertAnnouncement.authorId announcement)
      (InsertAnnouncement.schoolId announcement)
      (InsertAnnouncement.targetRole announcement)
      (column_value (InsertAnnouncement.priority announcement) "normal")
      (column_value (InsertAnnouncement.isActive announcement) true)
      (Some fr.(now)) in
  Resolved (set_announcements db (db.(announcements) ++ [newAnnouncement]),
            newAnnouncement).

(** ** Report card operations *)

Definition getReportCardsByStudent (db : DB) (studentId : varchar)
    : list ReportCard.t :=
  orderBy (desc ts_leb ReportCard.generatedAt)
    (filter (fun r => sql_eq (ReportCard.studentId r) studentId)
            db.(reportCards)).

Definition set_reportCards (db : DB) (rows : list ReportCard.t) : DB :=
  mkDB db.(users) db.(schools) db.(academicSessions) db.(classes)
       db.(subjects) db.(students) db.(teachers) db.(grades)
       db.(attendance) db.(assignments) db.(messages) db.(feePayments)
       db.(announcements) rows.

(** [DatabaseStorage.generateReportCard]:
    "This would typically calculate grades and generate report card.
     For now, return a basic implementation". *)
Definition generateReportCard (db : DB) (fr : Fresh) (studentId : varchar)
    (term : string) (academicSessionId : varchar)
    : Promise (DB * ReportCard.t) :=
  await _ <- require (enum_ok termEnum term)
               (PgError "invalid input value for enum term") ;;
  await _ <- require (pk_free ReportCard.id db.(reportCards)
                        fr.(gen_random_uuid))
               (PgError "duplicate key value") ;;
  await _ <- require
               (fk_ok Student.id db.(students) (Some studentId)
                && fk_ok AcademicSession.id db.(academicSessions)
                     (Some academicSessionId))
               (PgError "violates foreign key constraint") ;;
  let newReportCard :=
    ReportCard.mk fr.(gen_random_uuid) (Some studentId)
      (Some academicSessionId) term
      (Some 0) (Some 0) (Some 0) (Some 0) (Some 0)
      None None None (Some false) (Some fr.(now)) in
  Resolved (set_reportCards db (db.(reportCards) ++ [newReportCard]),
            newReportCard).

(** ** Attendance writes *)

(** The [date] of an attendance object at run time: the route hands
    over the request body as it came, where a date is a string. *)
Inductive JsDate :=
| DateMissing
| DateString (s : string)
| DateObject (ms : timestamp).

Module InsertAttendance.
Record t := mk {
  studentId : option varchar;
  classId : option varchar;
  date : JsDate;
  status : option string;
  remarks : option string;
  recordedBy : option varchar }.
End InsertAttendance.

Definition set_attendance (db : DB) (rows : list Attendance.t) : DB :=
  mkDB db.(users) db.(schools) db.(academicSessions) db.(classes)
       db.(subjects) db.(students) db.(teachers) db.(grades) rows
       db.(assignments) db.(messages) db.(feePayments) db.(announcements)
       db.(reportCards).

(** What an identifier passed to [db.insert] denotes at run time. *)
Inductive JsValue :=
| TableObject (name : string)
| PlainObject.

(** [target[Table.Symbol.Columns]]: only a table has columns. *)
Definition table_columns (target : JsValue) : option string :=
  match target with
  | TableObject name => Some name
  | PlainObject => None
  end.

(** [db.insert(attendance).values(v).returning()] on the table. *)
Definition insert_attendance_row (db : DB) (fr : Fresh)
    (v : InsertAttendance.t) : Promise (DB * Attendance.t) :=
  match InsertAttendance.date v, InsertAttendance.status v with
  | DateObject ms, Some st =>
    await _ <- require (enum_ok attendanceStatusEnum st)
                 (PgError "invalid input value for enum attendance_status") ;;
    await _ <- require (pk_free Attendance.id db.(attendance)
                          fr.(gen_random_uuid))
                 (PgError "duplicate key value") ;;
    await _ <- require
                 (fk_ok Student.id db.(students) (InsertAttendance.studentId v)
                  && fk_ok Class.id db.(classes) (InsertAttendance.classId v)
                  && fk_ok User.id db.(users) (InsertAttendance.recordedBy v))
                 (PgError "violates foreign key constraint") ;;
    let newAttendance :=
      Attendance.mk fr.(gen_random_uuid) (InsertAttendance.studentId v)
        (InsertAttendance.classId v) ms st (InsertAttendance.remarks v)
        (InsertAttendance.recordedBy v) (Some fr.(now)) in
    Resolved (set_attendance db (db.(attendance) ++ [newAttendance]),
              newAttendance)
  | DateString _, Some _ =>
    Rejected (TypeError "value.toISOString is not a function")
  | _, _ => Rejected (PgError "violates not-null constraint")
  end.

(** [db.insert(target).values(v).returning()] for a [target] that is
    meant to be the attendance table. *)
Definition db_insert_attendance (target : JsValue) (db : DB) (fr : Fresh)
    (v : InsertAttendance.t) : Promise (DB * Attendance.t) :=
  match table_columns target with
  | Some name =>
    if String.eqb name "attendance" then insert_attendance_row db fr v
    else Rejected (PgError "column of another relation")
  | None => Rejected (TypeError "Cannot read properties of undefined")
  end.

(** [DatabaseStorage.createAttendance].  The parameter is named
    [attendance] like the imported table, so within the body both
    [db.insert(attendance)] and [.values(attendance)] name the
    parameter: the target of the insert is the row object. *)
Definition createAttendance (db : DB) (fr : Fresh)
    (attendance : InsertAttendance.t) : Promise (DB * Attendance.t) :=
  db_insert_attendance PlainObject db fr attendance.

(** [Partial<InsertAttendance>]: [Some v] for a field that is set. *)
Module PartialAttendance.
Record t := mk {
  studentId : option (option varchar);
  classId : option (option varchar);
  date : option timestamp;
  status : option string;
  remarks : option (option string);
  recordedBy : option (option varchar) }.
End PartialAttendance.

Definition is_set (A : Type) (v : option A) : bool :=
  match v with Some _ => true | None => false end.

Definition set_field (A : Type) (v : option A) (old : A) : A :=
  match v with Some x => x | None => old end.

Definition apply_partial (p : PartialAttendance.t) (a : Attendance.t)
    : Attendance.t :=
  Attendance.mk (Attendance.id a)
    (set_field (PartialAttendance.studentId p) (Attendance.studentId a))
    (set_field (PartialAttendance.classId p) (Attendance.classId a))
    (set_field (PartialAttendance.date p) (Attendance.date a))
    (set_field (PartialAttendance.status p) (Attendance.status a))
    (set_field (PartialAttendance.remarks p) (Attendance.remarks a))
    (set_field (PartialAttendance.recordedBy p) (Attendance.recordedBy a))
    (Attendance.createdAt a).

(** [DatabaseStorage.updateAttendance]; here the parameter is
    [attendanceData] and [attendance] is the table. *)
Definition updateAttendance (db : DB) (id : varchar)
    (attendanceData : PartialAttendance.t)
    : Promise (DB * option Attendance.t) :=
  await _ <- require
               (is_set (PartialAttendance.studentId attendanceData)
                || is_set (PartialAttendance.classId attendanceData)
                || is_set (PartialAttendance.date attendanceData)
                || is_set (PartialAttendance.status attendanceData)
                || is_set (PartialAttendance.remarks attendanceData)
                || is_set (PartialAttendance.recordedBy attendanceData))
               (DrizzleError "No values to set") ;;
  await _ <- require (opt_enum_ok attendanceStatusEnum
                        (PartialAttendance.status attendanceData))
               (PgError "invalid input value for enum attendance_status") ;;
  let hit := fun a => String.eqb (Attendance.id a) id in
  let updated := map (apply_partial attendanceData)
                     (filter hit db.(attendance)) in
  await _ <- require
               (forallb
                  (fun a =>
                     fk_ok Student.id db.(students) (Attendance.studentId a)
                     && fk_ok Class.id db.(classes) (Attendance.classId a)
                     && fk_ok User.id db.(users) (Attendance.recordedBy a))
                  updated)
               (PgError "violates foreign key constraint") ;;
  Resolved (set_attendance db
              (update_where hit (apply_partial attendanceData)
                 db.(attendance)),
            first_row updated).

(** ** Writes and the stores they lead to *)

(** The writes of [DatabaseStorage].  Those that are not spelled out
    above ([createUser], [createStudent], [createTeacher],
    [updateGrade], [createMessage], ...) name tables other than
    [attendance]; [WOtherTables db'] stands for any of them: the
    tables of [db'] with the attendance rows left as they were. *)
Inductive Write :=
| WCreateGrade (fr : Fresh) (grade : InsertGrade.t)
| WCreateAnnouncement (fr : Fresh) (announcement : InsertAnnouncement.t)
| WGenerateReportCard (fr : Fresh) (studentId : varchar) (term : string)
    (academicSessionId : varchar)
| WCreateAttendance (fr : Fresh) (attendance : InsertAttendance.t)
| WUpdateAttendance (id : varchar) (attendanceData : PartialAttendance.t)
| WOtherTables (db' : DB).

(** The store after a call, whether it resolved or not. *)
Definition store_after (A : Type) (db : DB) (p : Promise (DB * A)) : DB :=
  match p with
  | Resolved (db', _) => db'
  | Rejected _ => db
  end.

Definition apply_write (db : DB) (w : Write) : DB :=
  match w with
  | WCreateGrade fr grade => store_after db (createGrade db fr grade)
  | WCreateAnnouncement fr a => store_after db (createAnnouncement db fr a)
  | WGenerateReportCard fr s t a =>
    store_after db (generateReportCard db fr s t a)
  | WCreateAttendance fr a => store_after db (createAttendance db fr a)
  | WUpdateAttendance id p => store_after db (updateAttendance db id p)
  | WOtherTables db' => set_attendance db' db.(attendance)
  end.

Inductive reachable : DB -> Prop :=
| reachable_empty : reachable empty_db
| reachable_write (db : DB) (w : Write) :
    reachable db -> reachable (apply_write db w).


(** ** The routes of [server/routes.ts] *)

Record Claims := mkClaims { sub : varchar }.

(** [req.user], set by the authentication middleware before a handler
    runs ([isAuthenticated] lets no request through without it).  The
    handlers read [id], [email] and [role] from it and, in some routes,
    [claims.sub]; [claims] is [None] for a user object without that
    field, such as a row of [users]. *)
Module ReqUser.
Record t := mk {
  id : varchar;
  email : varchar;
  role : string;
  claims : option Claims }.
End ReqUser.

Module Dashboard.
Record t := mk {
  user : User.t;
  school : option School.t;
  student : option Student.t;
  grades : option (list Grade.t);
  attendance : option (list Attendance.t);
  assignments : option (list Assignment.t);
  messages : option (list Message.t);
  feePayments : option (list FeePayment.t);
  teacher : option Teacher.t;
  classes : option (list Class.t);
  subjects : option (list Subject.t);
  teachers : option (list Teacher.t);
  announcements : option (list Announcement.t) }.

(** [{ user, school }] *)
Definition base (u : User.t) (s : option School.t) : t :=
  mk u s None None None None None None None None None None None.
End Dashboard.

Inductive Json :=
| JMessage (message : string)
| JDashboard (dashboardData : Dashboard.t)
| JGrade (grade : Grade.t)
| JAnnouncement (announcement : Announcement.t)
| JAttendance (attendance : Attendance.t)
| JReportCards (reportCards : list ReportCard.t).

(** [res.status(status).json(json)] *)
Record Response := mkResponse {
  status : Z;
  json : Json }.

(** The storage methods a handler calls, in order. *)
Inductive StorageCall :=
| CallGetUser (id : varchar)
| CallGetSchoolByUser (userId : varchar)
| CallGetStudentByUserId (userId : varchar)
| CallGetTeacherByUserId (userId : varchar)
| CallGetGradesByStudent (studentId : varchar) (term : option string)
| CallGetAttendanceByStudent (studentId : varchar)
| CallGetAssignmentsByStudent (studentId : varchar)
| CallGetMessagesByUser (userId : varchar)
| CallGetFeePaymentsByStudent (studentId : varchar)
| CallGetClassesBySchool (schoolId : varchar)
| CallGetSubjectsBySchool (schoolId : varchar)
| CallGetTeachersBySchool (schoolId : varchar)
| CallGetAnnouncementsBySchool (schoolId : varchar) (role : option string).


(** [GET /api/dashboard] *)
Definition get_dashboard (db : DB) (user : ReqUser.t)
    : list StorageCall * Response :=
  let userId := ReqUser.id user in
  match getUser db userId with
  | None => ([CallGetUser userId], mkResponse 404 (JMessage "User not found"))
  | Some u =>
    let school := getSchoolByUser db userId in
    let dashboardData := Dashboard.base u school in
    let calls := [CallGetUser userId; CallGetSchoolByUser userId] in
    if String.eqb (User.role u) "student" then
      let calls := calls ++ [CallGetStudentByUserId userId] in
      match getStudentByUserId db userId with
      | Some student =>
        let sid := Student.id student in
        let calls := calls ++ [CallGetGradesByStudent sid (Some "first")] in
        match getGradesByStudent db sid (Some "first") with
        | Rejected _ =>
          (calls,
           mkResponse 500 (JMessage "Failed to fetch dashboard data"))
        | Resolved grades =>
          (calls ++ [CallGetAttendanceByStudent sid;
                     CallGetAssignmentsByStudent sid;
                     CallGetMessagesByUser userId;
                     CallGetFeePaymentsByStudent sid],
           mkResponse 200
             (JDashboard
                (Dashboard.mk u school (Some student) (Some grades)
                   (Some (getAttendanceByStudent db sid None None))
                   (Some (getAssignmentsByStudent db sid))
                   (Some (getMessagesByUser db userId))
                   (Some (getFeePaymentsByStudent db sid))
                   None None None None None)))
        end
      | None => (calls, mkResponse 200 (JDashboard dashboardData))
      end
    else if String.eqb (User.role u) "teacher" then
      let calls := calls ++ [CallGetTeacherByUserId userId] in
      match getTeacherByUserId db userId, school with
      | Some teacher, Some sch =>
        let scid := School.id sch in
        (calls ++ [CallGetClassesBySchool scid; CallGetSubjectsBySchool scid;
                   CallGetMessagesByUser userId],
         mkResponse 200
           (JDashboard
              (Dashboard.mk u school None None None None
                 (Some (getMessagesByUser db userId)) None
                 (Some teacher)
                 (Some (getClassesBySchool db scid))
                 (Some (getSubjectsBySchool db scid))
                 None None)))
      | _, _ => (calls, mkResponse 200 (JDashboard dashboardData))
      end
    else if String.eqb (User.role u) "principal"
            || String.eqb (User.role u) "proprietor" then
      match school with
      | Some sch =>
        let scid := School.id sch in
        let calls := calls ++ [CallGetClassesBySchool scid;
                               CallGetTeachersBySchool scid;
                               CallGetSubjectsBySchool scid;
                               CallGetAnnouncementsBySchool scid None] in
        match getAnnouncementsBySchool db scid None with
        | Rejected _ =>
          (calls,
           mkResponse 500 (JMessage "Failed to fetch dashboard data"))
        | Resolved announcements =>
          (calls,
           mkResponse 200
             (JDashboard
                (Dashboard.mk u school None None None None None None None
                   (Some (getClassesBySchool db scid))
                   (Some (getSubjectsBySchool db scid))
                   (Some (getTeachersBySchool db scid))
                   (Some announcements))))
        end
      | None => (calls, mkResponse 200 (JDashboard dashboardData))
      end
    else (calls, mkResponse 200 (JDashboard dashboardData))
  end.

(** [GET /api/report-cards]; [studentId] is [req.query.studentId]. *)
Definition get_report_cards (db : DB) (user : ReqUser.t)
    (studentId : option string) : Response :=
  let targetStudentId :=
    if String.eqb (ReqUser.role user) "student" then
      option_map Student.id (getStudentByUserId db (ReqUser.id user))
    else studentId in
  match if_truthy targetStudentId with
  | None => mkResponse 400 (JMessage "Student ID required")
  | Some target =>
    mkResponse 200 (JReportCards (getReportCardsByStudent db target))
  end.

(** [POST /api/attendance]: the body is spread as it came and
    [recordedBy] set to the caller. *)
Definition post_attendance (db : DB) (fr : Fresh) (user : ReqUser.t)
    (attendanceData : InsertAttendance.t) : DB * Response :=
  if negb (includes ["teacher"; "principal"] (ReqUser.role user)) then
    (db, mkResponse 403 (JMessage "Unauthorized"))
  else
    match createAttendance db fr
            (InsertAttendance.mk
               (InsertAttendance.studentId attendanceData)
               (InsertAttendance.classId attendanceData)
               (InsertAttendance.date attendanceData)
               (InsertAttendance.status attendanceData)
               (InsertAttendance.remarks attendanceData)
               (Some (ReqUser.id user))) with
    | Resolved (db', attendance) =>
      (db', mkResponse 201 (JAttendance attendance))
    | Rejected _ =>
      (db, mkResponse 500 (JMessage "Failed to create attendance"))
    end.

Section ParsedRoutes.

(** The request body and the zod schemas generated from the tables
    ([insertGradeSchema.parse], [insertAnnouncementSchema.parse]);
    for the announcement the handler overrides [authorId] and
    [schoolId] before parsing. *)
Variable Body : Type.
Variable insertGradeSchema_parse : Body -> Promise InsertGrade.t.
Variable insertAnnouncementSchema_parse :
  Body -> varchar -> varchar -> Promise InsertAnnouncement.t.

(** [POST /api/grades] *)
Definition post_grades (db : DB) (fr : Fresh) (user : ReqUser.t)
    (body : Body) : DB * Response :=
  if negb (String.eqb (ReqUser.role user) "teacher") then
    (db, mkResponse 403 (JMessage "Only teachers can record grades"))
  else
    match (await gradeData <- insertGradeSchema_parse body ;;
           createGrade db fr gradeData) with
    | Resolved (db', grade) => (db', mkResponse 201 (JGrade grade))
    | Rejected _ => (db, mkResponse 500 (JMessage "Failed to create grade"))
    end.

(** [POST /api/announcements]: the identity is read from
    [req.user.claims.sub], which throws when [claims] is undefined. *)
Definition post_announcements (db : DB) (fr : Fresh) (user : ReqUser.t)
    (body : Body) : DB * Response :=
  match ReqUser.claims user with
  | None => (db, mkResponse 500 (JMessage "Failed to create announcement"))
  | Some c =>
    let userId := c.(sub) in
    match getUser db userId with
    | None =>
      (db, mkResponse 403
             (JMessage "Only principals and proprietors can create announcements"))
    | Some u =>
      if negb (includes ["principal"; "proprietor"] (User.role u)) then
        (db, mkResponse 403
               (JMessage "Only principals and proprietors can create announcements"))
      else
        match getSchoolByUser db userId with
        | None => (db, mkResponse 404 (JMessage "School not found"))
        | Some school =>
          match (await announcementData <-
                   insertAnnouncementSchema_parse body userId
                     (School.id school) ;;
                 createAnnouncement db fr announcementData) with
          | Resolved (db', announcement) =>
            (db', mkResponse 201 (JAnnouncement announcement))
          | Rejected _ =>
            (db, mkResponse 500 (JMessage "Failed to create announcement"))
          end
        end
    end
  end.

End ParsedRoutes.

(** ** The constraints of the schema, as a check on a store *)

Fixpoint ids_unique (ids : list varchar) : bool :=
  match ids with
  | [] => true
  | x :: rest => negb (existsb (String.eqb x) rest) && ids_unique rest
  end.

Definition db_constraints_ok (db : DB) : bool :=
  ids_unique (map User.id db.(users))
  && ids_unique (map User.email db.(users))
  && forallb (fun u => enum_ok userRoleEnum (User.role u)) db.(users)
  && ids_unique (map School.id db.(schools))
  && forallb (fun s => fk_ok User.id db.(users) (School.proprietorId s)
                       && fk_ok User.id db.(users) (School.principalId s))
       db.(schools)
  && ids_unique (map AcademicSession.id db.(academicSessions))
  && forallb (fun a => fk_ok School.id db.(schools)
                         (AcademicSession.schoolId a))
       db.(academicSessions)
  && ids_unique (map Class.id db.(classes))
  && forallb (fun c => fk_ok School.id db.(schools) (Class.schoolId c)
                       && fk_ok User.id db.(users) (Class.classTeacherId c))
       db.(classes)
  && ids_unique (map Subject.id db.(subjects))
  && forallb (fun s => fk_ok School.id db.(schools) (Subject.schoolId s))
       db.(subjects)
  && ids_unique (map Student.id db.(students))
  && ids_unique (map Student.studentId db.(students))
  && forallb (fun s => fk_ok User.id db.(users) (Student.userId s)
                       && fk_ok Class.id db.(classes) (Student.classId s)
                       && fk_ok School.id db.(schools) (Student.schoolId s)
                       && fk_ok User.id db.(users) (Student.parentId s))
       db.(students)
  && ids_unique (map Teacher.id db.(teachers))
  && ids_unique (map Teacher.teacherId db.(teachers))
  && forallb (fun t => fk_ok User.id db.(users) (Teacher.userId t)
                       && fk_ok School.id db.(schools) (Teacher.schoolId t))
       db.(teachers)
  && ids_unique (map Grade.id db.(grades))
  && forallb (fun g => enum_ok termEnum (Grade.term g)
                       && opt_enum_ok gradeStatusEnum (Grade.status g)
                       && fk_ok Student.id db.(students) (Grade.studentId g)
                       && fk_ok Subject.id db.(subjects) (Grade.subjectId g)
                       && fk_ok Teacher.id db.(teachers) (Grade.teacherId g)
                       && fk_ok AcademicSession.id db.(academicSessions)
                            (Grade.academicSessionId g))
       db.(grades)
  && ids_unique (map Attendance.id db.(attendance))
  && forallb (fun a => enum_ok attendanceStatusEnum (Attendance.status a)
                       && fk_ok Student.id db.(students)
                            (Attendance.studentId a)
                       && fk_ok Class.id db.(classes) (Attendance.classId a)
                       && fk_ok User.id db.(users) (Attendance.recordedBy a))
       db.(attendance)
  && ids_unique (map Assignment.id db.(assignments))
  && forallb (fun a => fk_ok Subject.id db.(subjects)
                         (Assignment.subjectId a)
                       && fk_ok Class.id db.(classes) (Assignment.classId a)
                       && fk_ok Teacher.id db.(teachers)
                            (Assignment.teacherId a))
       db.(assignments)
  && ids_unique (map Message.id db.(messages))
  && forallb (fun m => fk_ok User.id db.(users) (Message.senderId m)
                       && fk_ok User.id db.(users) (Message.recipientId m))
       db.(messages)
  && ids_unique (map FeePayment.id db.(feePayments))
  && forallb (fun p => opt_enum_ok feeStatusEnum (FeePayment.status p)
                       && fk_ok Student.id db.(students)
                            (FeePayment.studentId p))
       db.(feePayments)
  && ids_unique (map Announcement.id db.(announcements))
  && forallb (fun a => opt_enum_ok userRoleEnum (Announcement.targetRole a)
                       && fk_ok User.id db.(users) (Announcement.authorId a)
                       && fk_ok School.id db.(schools)
                            (Announcement.schoolId a))
       db.(announcements)
  && ids_unique (map ReportCard.id db.(reportCards))
  && forallb (fun r => enum_ok termEnum (ReportCard.term r)
                       && fk_ok Student.id db.(students)
                            (ReportCard.studentId r)
                       && fk_ok AcademicSession.id db.(academicSessions)
                            (ReportCard.academicSessionId r))
       db.(reportCards).

(** ** What the specification asks of the aggregation and of the
       announcement read *)

(** The published grades of a student for a term and a session. *)
Definition published_grades (db : DB) (studentId : varchar) (term : string)
    (academicSessionId : varchar) : list Grade.t :=
  filter (fun g => sql_eq (Grade.studentId g) studentId
                   && String.eqb (Grade.term g) term
                   && sql_eq (Grade.academicSessionId g) academicSessionId
                   && sql_eq (Grade.status g) "published")
         db.(grades).

Definition sum_decimals (l : list (option decimal)) : decimal :=
  fold_right (fun v acc => match v with Some x => x + acc | None => acc end)
             0 l.

(** The totals the specification states: the sum of [score], the sum of
    [maxScore], and [totalScore / totalPossible * 100], zero when there
    is nothing to divide by. *)
Definition spec_totalScore (gs : list Grade.t) : decimal :=
  sum_decimals (map Grade.score gs).

Definition spec_totalPossible (gs : list Grade.t) : decimal :=
  sum_decimals (map Grade.maxScore gs).

Definition spec_average (gs : list Grade.t) : decimal :=
  if spec_totalPossible gs =? 0 then 0
  else spec_totalScore gs * 10000 / spec_totalPossible gs.

(** An announcement is visible to a role when it is active, of the
    school, and targets that role or none. *)
Definition spec_visible (schoolId : varchar) (role : string)
    (a : Announcement.t) : bool :=
  sql_eq (Announcement.schoolId a) schoolId
  && sql_eq_bool (Announcement.isActive a) true
  && match Announcement.targetRole a with
     | None => true
     | Some r => String.eqb r role
     end.

(** ** A sample store *)

Module Sample.

Definition t0 : timestamp := 1700000000000.

Definition proprietor : User.t :=
  User.mk "u-prop" "prop@school.ng" "h1" (Some "Ngozi") (Some "Eze") None
          "proprietor" (Some true) (Some t0) (Some t0).
Definition principal : User.t :=
  User.mk "u-princ" "princ@school.ng" "h2" None None None
          "principal" (Some true) (Some t0) (Some t0).
Definition teacherUser : User.t :=
  User.mk "u-teach" "teach@school.ng" "h3" None None None
          "teacher" (Some true) (Some t0) (Some t0).
Definition studentUser : User.t :=
  User.mk "u-stud" "ada@student.com" "h4" (Some "Ada") (Some "Okafor") None
          "student" (Some true) (Some t0) (Some t0).
(** Registered, not linked to a profile yet. *)
Definition newStudent : User.t :=
  User.mk "u-new" "new@student.com" "h5" None None None
          "student" (Some true) (Some t0) (Some t0).
Definition newTeacher : User.t :=
  User.mk "u-tnew" "new@teacher.com" "h6" None None None
          "teacher" (Some true) (Some t0) (Some t0).

Definition schoolX : School.t :=
  School.mk "X" "School X" None None None (Some "u-prop") (Some "u-princ")
            (Some t0) (Some t0).
Definition schoolY : School.t :=
  School.mk "Y" "School Y" None None None None None (Some t0) (Some t0).

Definition session1 : AcademicSession.t :=
  AcademicSession.mk "SESSION1" "2023/2024" t0 (t0 + 1000) (Some "X")
                     (Some true) (Some t0).

Definition class1 : Class.t :=
  Class.mk "C1" "JSS 1A" "Junior Secondary" (Some "X") (Some "u-teach")
           (Some 40) (Some t0).

Definition math : Subject.t :=
  Subject.mk "Math" "Mathematics" "MTH" None (Some "X") (Some t0).
Definition chemistry : Subject.t :=
  Subject.mk "Chem" "Chemistry" "CHM" None (Some "X") (Some t0).

Definition studentS : Student.t :=
  Student.mk "S" (Some "u-stud") "STU001" (Some "C1") (Some "X") None None
             None (Some t0).

Definition teacher1 : Teacher.t :=
  Teacher.mk "T1" (Some "u-teach") "TCH001" (Some "X") None None None
             (Some t0).
(** The proprietor of X also teaches at Y. *)
Definition teacher2 : Teacher.t :=
  Teacher.mk "T2" (Some "u-prop") "TCH002" (Some "Y") None None None
             (Some t0).

Definition gradeMath : Grade.t :=
  Grade.mk "g1" (Some "S") (Some "Math") (Some "T1") (Some "SESSION1")
           "first" "test1" (Some 8500) (Some 10000) (Some "published")
           (Some t0) (Some (t0 + 10)).
Definition gradeChemistry : Grade.t :=
  Grade.mk "g2" (Some "S") (Some "Chem") (Some "T1") (Some "SESSION1")
           "first" "exam" (Some 9200) (Some 10000) (Some "published")
           (Some t0) (Some (t0 + 20)).
Definition gradeSecondTerm : Grade.t :=
  Grade.mk "g3" (Some "S") (Some "Math") (Some "T1") (Some "SESSION1")
           "second" "test1" (Some 7000) (Some 10000) (Some "draft")
           None (Some (t0 + 30)).

Definition forTeachers : Announcement.t :=
  Announcement.mk "a1" "Staff meeting" "Friday" (Some "u-princ") (Some "X")
                  (Some "teacher") (Some "normal") (Some true)
                  (Some (t0 + 1)).
Definition forEveryone : Announcement.t :=
  Announcement.mk "a2" "Resumption" "Monday" (Some "u-princ") (Some "X")
                  None (Some "normal") (Some true) (Some (t0 + 2)).

Definition db : DB :=
  mkDB [proprietor; principal; teacherUser; studentUser; newStudent;
        newTeacher]
       [schoolX; schoolY] [session1] [class1] [math; chemistry] [studentS]
       [teacher1; teacher2]
       [gradeMath; gradeChemistry; gradeSecondTerm]
       [] [] [] []
       [forTeachers; forEveryone] [].

Definition fresh1 : Fresh := mkFresh "rc-1" (t0 + 100).
Definition fresh2 : Fresh := mkFresh "rc-2" (t0 + 200).

(** A caller as the local strategy delivers it: the row of [users],
    without [claims]. *)
Definition caller (u : User.t) : ReqUser.t :=
  ReqUser.mk (User.id u) (User.email u) (User.role u) None.

(** A body for [POST /api/attendance] as the client sends it. *)
Definition excusedBody : InsertAttendance.t :=
  InsertAttendance.mk (Some "S") (Some "C1") (DateString "2024-01-15")
                      (Some "excused") None None.

(** The same attendance with the date as a [Date]. *)
Definition presentToday : InsertAttendance.t :=
  InsertAttendance.mk (Some "S") (Some "C1") (DateObject (t0 + 50))
                      (Some "present") None (Some "u-teach").

End Sample.

(** ** Vocabulary of the statements *)

(** No school stands in relation [rel] to the identity. *)
Definition unrelated (rel : DB -> varchar -> School.t -> Prop) (db : DB)
    (u : varchar) : Prop :=
  forall s, ~ rel db u s.

(** The order a comparison of [orderBy] stands for. *)
Definition precedes (A : Type) (before : A -> A -> bool) (a b : A) : Prop :=
  before a b = true.

(** Newest first on a nullable timestamp, NULL before every value. *)
Definition newest_first (A : Type) (key : A -> option timestamp)
    (rows : list A) : Prop :=
  StronglySorted (precedes (desc ts_leb key)) rows.

(** [a] is no older than [b]; a row without a timestamp counts as the
    newest (PostgreSQL puts NULL first under DESC). *)
Definition newer_or_same (a b : option timestamp) : Prop :=
  match a, b with
  | None, _ => True
  | Some _, None => False
  | Some x, Some y => y <= x
  end.

(** Every row is no older than the rows behind it. *)
Definition newest_first_by (A : Type) (key : A -> option timestamp)
    (rows : list A) : Prop :=
  StronglySorted (fun a b => newer_or_same (key a) (key b)) rows.

(** The report cards of one (student, term, session). *)
Definition report_cards_for (db : DB) (studentId : varchar) (term : string)
    (academicSessionId : varchar) : list ReportCard.t :=
  filter (fun r => sql_eq (ReportCard.studentId r) studentId
                   && String.eqb (ReportCard.term r) term
                   && sql_eq (ReportCard.academicSessionId r)
                        academicSessionId)
         db.(reportCards).

(** ** Proof steps *)

(** Unfolds a storage write down to its checks and splits on each. *)
Ltac split_checks :=
  unfold require, bind;
  repeat match goal with
         | |- context [if ?c then _ else _] => destruct c
         | |- context [match ?p with Resolved _ => _ | Rejected _ => _ end] =>
           destruct p
         end.

(** * The rest of the storage and of the routes *)

(** ** User operations *)

Definition getUserByEmail (db : DB) (email : varchar) : option User.t :=
  first_row (filter (fun u => String.eqb (User.email u) email) db.(users)).

(** [InsertUser]: [insertUserSchema] omits [id], [createdAt] and
    [updatedAt]. *)
Module InsertUser.
Record t := mk {
  email : varchar;
  password : varchar;
  firstName : option varchar;
  lastName : option varchar;
  profileImageUrl : option varchar;
  role : string;
  isActive : Defaulted bool }.
End InsertUser.

Definition set_users (db : DB) (rows : list User.t) : DB :=
  mkDB rows db.(schools) db.(academicSessions) db.(classes) db.(subjects)
       db.(students) db.(teachers) db.(grades) db.(attendance)
       db.(assignments) db.(messages) db.(feePayments) db.(announcements)
       db.(reportCards).

(** [DatabaseStorage.createUser]; [email] is [unique()]. *)
Definition createUser (db : DB) (fr : Fresh) (userData : InsertUser.t)
    : Promise (DB * User.t) :=
  await _ <- require (enum_ok userRoleEnum (InsertUser.role userData))
               (PgError "invalid input value for enum user_role") ;;
  await _ <- require (pk_free User.id db.(users) fr.(gen_random_uuid))
               (PgError "duplicate key value") ;;
  await _ <- require (pk_free User.email db.(users)
                        (InsertUser.email userData))
               (PgError "duplicate key value violates unique constraint") ;;
  let user :=
    User.mk fr.(gen_random_uuid) (InsertUser.email userData)
      (InsertUser.password userData) (InsertUser.firstName userData)
      (InsertUser.lastName userData) (InsertUser.profileImageUrl userData)
      (InsertUser.role userData)
      (column_value (InsertUser.isActive userData) true)
      (Some fr.(now)) (Some fr.(now)) in
  Resolved (set_users db (db.(users) ++ [user]), user).

(** ** Student operations *)

Definition getStudentsByClass (db : DB) (classId : varchar)
    : list Student.t :=
  orderBy (asc String.leb Student.studentId)
    (filter (fun s => sql_eq (Student.classId s) classId) db.(students)).

Module InsertStudent.
Record t := mk {
  userId : option varchar;
  studentId : varchar;
  classId : option varchar;
  schoolId : option varchar;
  dateOfBirth : option timestamp;
  admissionDate : option timestamp;
  parentId : option varchar }.
End InsertStudent.

Definition set_students (db : DB) (rows : list Student.t) : DB :=
  mkDB db.(users) db.(schools) db.(academicSessions) db.(classes)
       db.(subjects) rows db.(teachers) db.(grades) db.(attendance)
       db.(assignments) db.(messages) db.(feePayments) db.(announcements)
       db.(reportCards).

(** [DatabaseStorage.createStudent]; the school-specific [studentId] is
    [unique()], [userId] is not. *)
Definition createStudent (db : DB) (fr : Fresh) (student : InsertStudent.t)
    : Promise (DB * Student.t) :=
  await _ <- require (pk_free Student.id db.(students) fr.(gen_random_uuid))
               (PgError "duplicate key value") ;;
  await _ <- require (pk_free Student.studentId db.(students)
                        (InsertStudent.studentId student))
               (PgError "duplicate key value violates unique constraint") ;;
  await _ <- require
               (fk_ok User.id db.(users) (InsertStudent.userId student)
                && fk_ok Class.id db.(classes) (InsertStudent.classId student)
                && fk_ok School.id db.(schools)
                     (InsertStudent.schoolId student)
                && fk_ok User.id db.(users) (InsertStudent.parentId student))
               (PgError "violates foreign key constraint") ;;
  let newStudent :=
    Student.mk fr.(gen_random_uuid) (InsertStudent.userId student)
      (InsertStudent.studentId student) (InsertStudent.classId student)
      (InsertStudent.schoolId student) (InsertStudent.dateOfBirth student)
      (InsertStudent.admissionDate student) (InsertStudent.parentId student)
      (Some fr.(now)) in
  Resolved (set_students db (db.(students) ++ [newStudent]), newStudent).

(** ** Class and session operations *)

Definition getClassById (db : DB) (id : varchar) : option Class.t :=
  first_row (filter (fun c => String.eqb (Class.id c) id) db.(classes)).

Definition getActiveAcademicSession (db : DB) (schoolId : varchar)
    : option AcademicSession.t :=
  first_row
    (filter (fun a => sql_eq (AcademicSession.schoolId a) schoolId
                      && sql_eq_bool (AcademicSession.isActive a) true)
            db.(academicSessions)).

(** ** Grades of a class *)

(** [DatabaseStorage.getGradesByClass]: the selected columns are those
    of the grade. *)
Definition getGradesByClass (db : DB) (classId subjectId : varchar)
    (term : string) : Promise (list Grade.t) :=
  await _ <- require (enum_ok termEnum term)
               (PgError "invalid input value for enum term") ;;
  Resolved
    (map fst
       (orderBy (asc String.leb (fun p => Student.studentId (snd p)))
          (filter (fun p => sql_eq (Student.classId (snd p)) classId
                            && sql_eq (Grade.subjectId (fst p)) subjectId
                            && String.eqb (Grade.term (fst p)) term)
             (innerJoin db.(grades) db.(students)
                (fun g st => sql_eq (Grade.studentId g) (Student.id st)))))).

(** ** Attendance of a class *)

Definition getAttendanceByClass (db : DB) (classId : varchar)
    (date : timestamp) : list Attendance.t :=
  orderBy (asc (null_largest_leb String.leb) Attendance.studentId)
    (filter (fun a => sql_eq (Attendance.classId a) classId
                      && Z.eqb (Attendance.date a) date)
            db.(attendance)).

(** ** Assignment operations *)

Definition getAssignmentsByClass (db : DB) (classId : varchar)
    : list Assignment.t :=
  orderBy (desc ts_leb Assignment.dueDate)
    (filter (fun a => sql_eq (Assignment.classId a) classId)
            db.(assignments)).

(** The assignment object at run time: the route hands over the request
    body, where [title] may be missing and a date is a string. *)
Module InsertAssignment.
Record t := mk {
  title : option varchar;
  description : option string;
  subjectId : option varchar;
  classId : option varchar;
  teacherId : option varchar;
  dueDate : JsDate;
  maxScore : option decimal }.
End InsertAssignment.

Definition set_assignments (db : DB) (rows : list Assignment.t) : DB :=
  mkDB db.(users) db.(schools) db.(academicSessions) db.(classes)
       db.(subjects) db.(students) db.(teachers) db.(grades)
       db.(attendance) rows db.(messages) db.(feePayments)
       db.(announcements) db.(reportCards).

(** The driver value of a nullable timestamp column:
    [value.toISOString()] needs a [Date]. *)
Definition timestamp_value (d : JsDate) : Promise (option timestamp) :=
  match d with
  | DateMissing => Resolved None
  | DateObject ms => Resolved (Some ms)
  | DateString _ =>
    Rejected (TypeError "value.toISOString is not a function")
  end.

(** [DatabaseStorage.createAssignment] *)
Definition createAssignment (db : DB) (fr : Fresh)
    (assignment : InsertAssignment.t) : Promise (DB * Assignment.t) :=
  await dueDate <- timestamp_value (InsertAssignment.dueDate assignment) ;;
  match InsertAssignment.title assignment with
  | None => Rejected (PgError "violates not-null constraint")
  | Some title =>
    await _ <- require (decimal_fits 5 (InsertAssignment.maxScore assignment))
                 (PgError "numeric field overflow") ;;
    await _ <- require (pk_free Assignment.id db.(assignments)
                          fr.(gen_random_uuid))
                 (PgError "duplicate key value") ;;
    await _ <- require
                 (fk_ok Subject.id db.(subjects)
                    (InsertAssignment.subjectId assignment)
                  && fk_ok Class.id db.(classes)
                       (InsertAssignment.classId assignment)
                  && fk_ok Teacher.id db.(teachers)
                       (InsertAssignment.teacherId assignment))
                 (PgError "violates foreign key constraint") ;;
    let newAssignment :=
      Assignment.mk fr.(gen_random_uuid) title
        (InsertAssignment.description assignment)
        (InsertAssignment.subjectId assignment)
        (InsertAssignment.classId assignment)
        (InsertAssignment.teacherId assignment)
        dueDate (InsertAssignment.maxScore assignment) (Some fr.(now)) in
    Resolved (set_assignments db (db.(assignments) ++ [newAssignment]),
              newAssignment)
  end.

(** ** Message operations *)

(** [DatabaseStorage.getConversation] *)
Definition getConversation (db : DB) (senderId recipientId : varchar)
    : list Message.t :=
  orderBy (asc ts_leb Message.createdAt)
    (filter (fun m => sql_eq (Message.senderId m) senderId
                      && sql_eq (Message.recipientId m) recipientId)
            db.(messages)).

Module InsertMessage.
Record t := mk {
  senderId : option varchar;
  recipientId : option varchar;
  subject : option varchar;
  content : string;
  isRead : Defaulted bool }.
End InsertMessage.

Definition set_messages (db : DB) (rows : list Message.t) : DB :=
  mkDB db.(users) db.(schools) db.(academicSessions) db.(classes)
       db.(subjects) db.(students) db.(teachers) db.(grades)
       db.(attendance) db.(assignments) rows db.(feePayments)
       db.(announcements) db.(reportCards).

(** [DatabaseStorage.createMessage] *)
Definition createMessage (db : DB) (fr : Fresh) (message : InsertMessage.t)
    : Promise (DB * Message.t) :=
  await _ <- require (pk_free Message.id db.(messages) fr.(gen_random_uuid))
               (PgError "duplicate key value") ;;
  await _ <- require
               (fk_ok User.id db.(users) (InsertMessage.senderId message)
                && fk_ok User.id db.(users)
                     (InsertMessage.recipientId message))
               (PgError "violates foreign key constraint") ;;
  let newMessage :=
    Message.mk fr.(gen_random_uuid) (InsertMessage.senderId message)
      (InsertMessage.recipientId message) (InsertMessage.subject message)
      (InsertMessage.content message)
      (column_value (InsertMessage.isRead message) false)
      (Some fr.(now)) in
  Resolved (set_messages db (db.(messages) ++ [newMessage]), newMessage).

Definition mark_read (id : varchar) (m : Message.t) : Message.t :=
  if String.eqb (Message.id m) id then
    Message.mk (Message.id m) (Message.senderId m) (Message.recipientId m)
      (Message.subject m) (Message.content m) (Some true)
      (Message.createdAt m)
  else m.

(** [DatabaseStorage.markMessageAsRead] *)
Definition markMessageAsRead (db : DB) (id : varchar) : DB :=
  set_messages db
    (update_where (fun m => String.eqb (Message.id m) id) (mark_read id)
       db.(messages)).

(** ** Further routes *)

(** [res.status(status).json(data)] on the way out, or
    [res.status(status).json({ message })]. *)
Inductive Answer (A : Type) :=
| Sent (code : Z) (data : A)
| Failed (code : Z) (message : string).

Arguments Failed {A} code message.

Definition answer_code (A : Type) (a : Answer A) : Z :=
  match a with
  | Sent code _ => code
  | Failed code _ => code
  end.

(** [GET /api/messages] *)
Definition get_messages (db : DB) (user : ReqUser.t)
    : Answer (list Message.t) :=
  Sent 200 (getMessagesByUser db (ReqUser.id user)).

(** [GET /api/assignments]; [classId] and [studentId] are the query
    parameters. *)
Definition get_assignments (db : DB) (user : ReqUser.t)
    (classId studentId : option string) : Answer (list Assignment.t) :=
  match if_truthy classId with
  | Some cid => Sent 200 (getAssignmentsByClass db cid)
  | None =>
    match if_truthy studentId with
    | Some sid => Sent 200 (getAssignmentsByStudent db sid)
    | None => Sent 200 []
    end
  end.

(** [POST /api/assignments]: the body is spread as it came and
    [teacherId] set to the id of the caller. *)
Definition post_assignments (db : DB) (fr : Fresh) (user : ReqUser.t)
    (assignmentData : InsertAssignment.t) : DB * Answer Assignment.t :=
  if negb (String.eqb (ReqUser.role user) "teacher") then
    (db, Failed 403 "Only teachers can create assignments")
  else
    match createAssignment db fr
            (InsertAssignment.mk
               (InsertAssignment.title assignmentData)
               (InsertAssignment.description assignmentData)
               (InsertAssignment.subjectId assignmentData)
               (InsertAssignment.classId assignmentData)
               (Some (ReqUser.id user))
               (InsertAssignment.dueDate assignmentData)
               (InsertAssignment.maxScore assignmentData)) with
    | Resolved (db', assignment) => (db', Sent 201 assignment)
    | Rejected _ => (db, Failed 500 "Failed to create assignment")
    end.

(** [GET /api/classes] *)
Definition get_classes (db : DB) (user : ReqUser.t)
    : Answer (list Class.t) :=
  match ReqUser.claims user with
  | None => Failed 500 "Failed to fetch classes"
  | Some c =>
    match getSchoolByUser db c.(sub) with
    | None => Failed 404 "School not found"
    | Some school => Sent 200 (getClassesBySchool db (School.id school))
    end
  end.

(** [GET /api/subjects] *)
Definition get_subjects (db : DB) (user : ReqUser.t)
    : Answer (list Subject.t) :=
  match ReqUser.claims user with
  | None => Failed 500 "Failed to fetch subjects"
  | Some c =>
    match getSchoolByUser db c.(sub) with
    | None => Failed 404 "School not found"
    | Some school => Sent 200 (getSubjectsBySchool db (School.id school))
    end
  end.

Section DateRoutes.

(** [new Date(s)]: [None] for an invalid date, which the driver cannot
    turn into a value. *)
Variable Date_parse : string -> option timestamp.

(** [GET /api/attendance]; [studentId], [classId] and [date] are the
    query parameters. *)
Definition get_attendance (db : DB) (user : ReqUser.t)
    (studentId classId date : option string)
    : Answer (list Attendance.t) :=
  match if_truthy studentId with
  | Some sid => Sent 200 (getAttendanceByStudent db sid None None)
  | None =>
    match if_truthy classId, if_truthy date with
    | Some cid, Some d =>
      match Date_parse d with
      | Some ms => Sent 200 (getAttendanceByClass db cid ms)
      | None => Failed 500 "Failed to fetch attendance"
      end
    | _, _ => Sent 200 []
    end
  end.

End DateRoutes.

Section MessageRoute.

(** [insertMessageSchema.parse({ ...req.body, senderId: user.id })] *)
Variable Body : Type.
Variable insertMessageSchema_parse :
  Body -> varchar -> Promise InsertMessage.t.

(** [POST /api/messages] *)
Definition post_messages (db : DB) (fr : Fresh) (user : ReqUser.t)
    (body : Body) : DB * Answer Message.t :=
  match (await messageData <-
           insertMessageSchema_parse body (ReqUser.id user) ;;
         createMessage db fr messageData) with
  | Resolved (db', message) => (db', Sent 201 message)
  | Rejected _ => (db, Failed 500 "Failed to send message")
  end.

End MessageRoute.

(** ** The client: attendance tracker and timetable
       ([AttendanceTracker], [ClassTimetable]) *)

Module AttendanceStats.
Record t := mk {
  total : nat;
  present : nat;
  absent : nat;
  late : nat;
  excused : nat }.
End AttendanceStats.

(** [attendance.filter(a => a.status === label).length] *)
Definition count_status (label : string) (rows : list Attendance.t) : nat :=
  List.length (filter (fun a => String.eqb (Attendance.status a) label) rows).

(** [getAttendanceStats] *)
Definition getAttendanceStats (attendance : list Attendance.t)
    : AttendanceStats.t :=
  AttendanceStats.mk (List.length attendance)
    (count_status "present" attendance)
    (count_status "absent" attendance)
    (count_status "late" attendance)
    (count_status "excused" attendance).

(** [ToInt32]: the value wrapped into the signed 32-bit range. *)
Definition to_int32 (x : Z) : Z :=
  (x + 2 ^ 31) mod 2 ^ 32 - 2 ^ 31.

(** One step of the hash of [getSubjectColor]:
    [a = ((a << 5) - a) + b.charCodeAt(0); return a & a]. *)
Definition hash_step (a : Z) (charCode : Z) : Z :=
  to_int32 (to_int32 (to_int32 a * 32) - a + charCode).

(** [subject.split('').reduce(step, 0)], on the UTF-16 code units of
    [subject]. *)
Definition subject_hash (codeUnits : list Z) : Z :=
  fold_left hash_step codeUnits 0.

Definition subject_colors : list string :=
  ["bg-blue-100 text-blue-800"; "bg-green-100 text-green-800";
   "bg-purple-100 text-purple-800"; "bg-orange-100 text-orange-800";
   "bg-pink-100 text-pink-800"; "bg-cyan-100 text-cyan-800";
   "bg-yellow-100 text-yellow-800"; "bg-red-100 text-red-800"].

(** [getSubjectColor]: [colors[Math.abs(hash) % colors.length]], with
    the remainder of JavaScript, which takes the sign of the dividend;
    [None] is [undefined]. *)
Definition getSubjectColor (codeUnits : list Z) : option string :=
  let index := Z.rem (Z.abs (subject_hash codeUnits))
                     (Z.of_nat (List.length subject_colors)) in
  if index <? 0 then None else nth_error subject_colors (Z.to_nat index).

(** The code units of a string of one-byte characters. *)
Fixpoint code_units (s : string) : list Z :=
  match s with
  | EmptyString => []
  | String c s' => Z.of_nat (Ascii.nat_of_ascii c) :: code_units s'
  end.

Module TimetableEntry.
Record t := mk {
  id : string;
  classId : string;
  subjectId : string;
  teacherId : string;
  dayOfWeek : Z;
  startTime : string;
  endTime : string;
  academicSessionId : string;
  isActive : bool;
  createdAt : string }.
End TimetableEntry.

(** [s.split(sep)] for a separator of one character. *)
Fixpoint split_on (sep : Ascii.ascii) (s : string) : list string :=
  match s with
  | EmptyString => [EmptyString]
  | String c s' =>
    if Ascii.eqb c sep then EmptyString :: split_on sep s'
    else match split_on sep s' with
         | [] => [String c EmptyString]
         | part :: parts => String c part :: parts
         end
  end.

(** The character [-] (code 45). *)
Definition dash : Ascii.ascii := Eval cbv in Ascii.ascii_of_nat 45.

(** The template [`${entry.startTime}-${entry.endTime}`]. *)
Definition time_slot (entry : TimetableEntry.t) : string :=
  String.append (TimetableEntry.startTime entry)
    (String dash (TimetableEntry.endTime entry)).

(** [new Set] filled in order, then [Array.from]: the first occurrence
    of each value, in order of arrival. *)
Fixpoint set_from (values : list string) (seen : list string)
    : list string :=
  match values with
  | [] => []
  | v :: rest =>
    if includes seen v then set_from rest seen
    else v :: set_from rest (v :: seen)
  end.

(** [getTimeSlots]: the distinct slots, sorted as strings. *)
Definition getTimeSlots (timetable : list TimetableEntry.t) : list string :=
  orderBy String.leb (set_from (map time_slot timetable) []).

(** [getEntryForDayAndTime]: [const [startTime, endTime] =
    timeSlot.split('-')], then [timetable.find]. *)
Definition getEntryForDayAndTime (timetable : list TimetableEntry.t)
    (dayOfWeek : Z) (timeSlot : string) : option TimetableEntry.t :=
  match split_on dash timeSlot with
  | startTime :: endTime :: _ =>
    find (fun entry => Z.eqb (TimetableEntry.dayOfWeek entry) dayOfWeek
                       && String.eqb (TimetableEntry.startTime entry)
                            startTime
                       && String.eqb (TimetableEntry.endTime entry)
                            endTime)
         timetable
  | _ => None
  end.

(** ** More sample values *)

Module Sample2.

Definition chemistrySecondTerm : InsertGrade.t :=
  InsertGrade.mk (Some "S") (Some "Chem") (Some "T1") (Some "SESSION1")
                 "second" "exam" (Some 6400) (Some 10000) Omitted None.

End Sample2.

(** Whether a string holds the character. *)
Fixpoint has_char (c : Ascii.ascii) (s : string) : bool :=
  match s with
  | EmptyString => false
  | String c' s' => Ascii.eqb c' c || has_char c s'
  end.

Module Sample3.

(** A second profile for the identity of student S. *)
Definition secondProfile : InsertStudent.t :=
  InsertStudent.mk (Some "u-stud") "STU002" (Some "C1") (Some "X") None None
                   None.

Definition monday : Attendance.t :=
  Attendance.mk "att-1" (Some "S") (Some "C1") (Sample.t0 + 50) "present"
                None (Some "u-teach") (Some (Sample.t0 + 60)).
Definition tuesday : Attendance.t :=
  Attendance.mk "att-2" (Some "S") (Some "C1") (Sample.t0 + 90) "late"
                None (Some "u-teach") (Some (Sample.t0 + 95)).

(** The sample store with two attendance rows in the table. *)
Definition withAttendance : DB :=
  set_attendance Sample.db [monday; tuesday].

Definition markAbsent : PartialAttendance.t :=
  PartialAttendance.mk None None None (Some "absent") None None.

Definition homework : InsertAssignment.t :=
  InsertAssignment.mk (Some "Homework 1") (Some "Exercises 1 to 5")
                      (Some "Math") (Some "C1") None
                      (DateString "2024-02-01") (Some 10000).

Definition lesson1 : TimetableEntry.t :=
  TimetableEntry.mk "tt-1" "C1" "Math" "T1" 1 "09:00" "10:00" "SESSION1"
                    true "2024-01-01".
Definition lesson2 : TimetableEntry.t :=
  TimetableEntry.mk "tt-2" "C1" "Chem" "T1" 2 "08:00" "09:00" "SESSION1"
                    true "2024-01-01".
Definition lesson3 : TimetableEntry.t :=
  TimetableEntry.mk "tt-3" "C1" "Math" "T1" 3 "09:00" "10:00" "SESSION1"
                    true "2024-01-01".

End Sample3.

(** ** Proof steps for the constraints *)

(** Splits the conjunctions among the boolean hypotheses. *)
Ltac split_ands :=
  repeat match goal with
         | H : _ && _ = true |- _ =>
           apply andb_true_iff in H; destruct H
         end.

(** Walks through the checks of a write that resolved, keeping each. *)
Ltac open_checks H :=
  repeat (match type of H with
          | context [if ?c then _ else _] =>
            let E := fresh "E" in destruct c eqn:E; [|discriminate H]
          | context [match ?p with Resolved _ => _ | Rejected _ => _ end] =>
            let E := fresh "E" in destruct p eqn:E; [|discriminate H]
          | context [match ?o with Some _ => _ | None => _ end] =>
            let E := fresh "E" in destruct o eqn:E; [|discriminate H]
          end; cbv beta iota in H).

(** Unfolds the constraints of the store before and after. *)
Ltac open_store db :=
  unfold db_constraints_ok in *; destruct db;
  cbn [users schools academicSessions classes subjects students teachers
       grades attendance assignments messages feePayments announcements
       reportCards set_grades set_announcements set_reportCards
       set_attendance set_users set_students set_assignments set_messages]
    in *;
  split_ands.

Module Sample4.

Definition note : Message.t :=
  Message.mk "m-1" (Some "u-teach") (Some "u-stud") (Some "Homework")
             "Please hand in exercise 3." (Some false)
             (Some (Sample.t0 + 70)).

(** The sample store with one message, from the teacher to student S. *)
Definition withMessage : DB := set_messages Sample.db [note].

Definition noteRead : Message.t := mark_read "m-1" note.

End Sample4.

Module Sample5.

Definition sportsDay : InsertAnnouncement.t :=
  InsertAnnouncement.mk "Sports day" "Saturday" (Some "u-princ") (Some "X")
                        None Omitted Omitted.

(** The same announcement with [isActive: null]. *)
Definition sportsDayNull : InsertAnnouncement.t :=
  InsertAnnouncement.mk "Sports day" "Saturday" (Some "u-princ") (Some "X")
                        None Omitted (Given None).

(** A grade given with [status: null]. *)
Definition chemistryNullStatus : InsertGrade.t :=
  InsertGrade.mk (Some "S") (Some "Chem") (Some "T1") (Some "SESSION1")
                 "second" "exam" (Some 6400) (Some 10000) (Given None) None.

End Sample5.

Module Sample6.

(** A second message to student S, sent at the same instant as
    [Sample4.note]. *)
Definition reminder : Message.t :=
  Message.mk "m-2" (Some "u-teach") (Some "u-stud") (Some "Reminder")
             "Bring your textbook." (Some false) (Some (Sample.t0 + 70)).

Definition twoMessages : DB :=
  set_messages Sample.db [Sample4.note; reminder].


End Sample6.

Module Sample7.

(** A second student of class C1. *)
Definition studentB : Student.t :=
  Student.mk "S2" None "STU002" (Some "C1") (Some "X") None None None
             (Some Sample.t0).

Definition cardFirst : ReportCard.t :=
  ReportCard.mk "r1" (Some "S") (Some "SESSION1") "first" (Some 17700)
                (Some 20000) (Some 8850) (Some 1) (Some 2) None None None
                (Some true) (Some (Sample.t0 + 40)).
Definition cardOther : ReportCard.t :=
  ReportCard.mk "r3" (Some "S2") (Some "SESSION1") "first" (Some 15000)
                (Some 20000) (Some 7500) (Some 2) (Some 2) None None None
                (Some true) (Some (Sample.t0 + 60)).
Definition cardSecond : ReportCard.t :=
  ReportCard.mk "r2" (Some "S") (Some "SESSION1") "second" (Some 16000)
                (Some 20000) (Some 8000) (Some 1) (Some 2) None None None
                (Some true) (Some (Sample.t0 + 80)).

(** The sample store with two students and report cards of both. *)
Definition withReportCards : DB :=
  set_reportCards (set_students Sample.db [Sample.studentS; studentB])
                  [cardFirst; cardOther; cardSecond].

End Sample7.

(** * Properties *)

(** ** Query primitives *)

Lemma sql_eq_true (col : option varchar) (v : varchar) :
  sql_eq col v = true <-> col = Some v.
Proof.
  destruct col as [x|]; simpl.
  - rewrite String.eqb_eq. split; [intros ->; reflexivity | congruence].
  - split; discriminate.
Qed.

Lemma first_row_filter_some (A : Type) (p : A -> bool) (l : list A) (x : A) :
  first_row (filter p l) = Some x -> In x l /\ p x = true.
Proof.
  intros H.
  assert (Hin : In x (filter p l)).
  { destruct (filter p l) as [|y ys]; simpl in H; [discriminate|].
    injection H as ->. now left. }
  now apply filter_In in Hin.
Qed.

Lemma first_row_filter_none (A : Type) (p : A -> bool) (l : list A) :
  first_row (filter p l) = None <-> forall x, In x l -> p x = false.
Proof.
  split.
  - intros H x Hx. destruct (p x) eqn:Hp; [|reflexivity].
    assert (Hin : In x (filter p l)) by (apply filter_In; auto).
    destruct (filter p l); [contradiction | discriminate].
  - intros H. destruct (filter p l) as [|y ys] eqn:Hf; [reflexivity|].
    assert (Hy : In y (filter p l)) by (rewrite Hf; now left).
    apply filter_In in Hy. destruct Hy as [Hy Hp].
    rewrite (H y Hy) in Hp. discriminate.
Qed.

Lemma first_row_some_of_in (A : Type) (p : A -> bool) (l : list A) (x : A) :
  In x l -> p x = true -> exists y, first_row (filter p l) = Some y.
Proof.
  intros Hx Hp. destruct (first_row (filter p l)) as [y|] eqn:E.
  - now exists y.
  - rewrite first_row_filter_none in E. rewrite (E x Hx) in Hp. discriminate.
Qed.

Lemma in_innerJoin (A B : Type) (l : list A) (r : list B)
    (on : A -> B -> bool) (a : A) (b : B) :
  In (a, b) (innerJoin l r on) <-> In a l /\ In b r /\ on a b = true.
Proof.
  unfold innerJoin. rewrite in_flat_map. split.
  - intros [a' [Ha Hin]]. apply in_map_iff in Hin.
    destruct Hin as [b' [Heq Hb]]. injection Heq as -> ->.
    apply filter_In in Hb. tauto.
  - intros [Ha [Hb Hon]]. exists a. split; [assumption|].
    apply in_map_iff. exists b. split; [reflexivity|].
    apply filter_In. auto.
Qed.

(** ** [update_where] keeps the rows, up to their order *)

Lemma update_where_perm (A : Type) (hit : A -> bool) (set : A -> A)
    (rows : list A) :
  Permutation (update_where hit set rows)
              (map (fun a => if hit a then set a else a) rows).
Proof.
  unfold update_where. induction rows as [|a rows IH]; simpl.
  - constructor.
  - destruct (hit a); simpl.
    + eapply Permutation_trans;
        [apply Permutation_sym, Permutation_middle | now apply perm_skip].
    + now apply perm_skip.
Qed.

Lemma update_where_length (A : Type) (hit : A -> bool) (set : A -> A)
    (rows : list A) :
  List.length (update_where hit set rows) = List.length rows.
Proof.
  rewrite (Permutation_length (update_where_perm hit set rows)).
  apply List.length_map.
Qed.

Lemma update_where_none (A : Type) (hit : A -> bool) (set : A -> A)
    (rows : list A) :
  (forall a, In a rows -> hit a = false) -> update_where hit set rows = rows.
Proof.
  intros H. unfold update_where.
  induction rows as [|a rows IH]; simpl; [reflexivity|].
  rewrite (H a (or_introl eq_refl)). simpl. f_equal.
  apply IH. intros b Hb. apply H. now right.
Qed.

Lemma in_update_where (A : Type) (hit : A -> bool) (set : A -> A)
    (rows : list A) (x : A) :
  In x (update_where hit set rows) <->
  (In x rows /\ hit x = false)
  \/ exists a, In a rows /\ hit a = true /\ set a = x.
Proof.
  unfold update_where. rewrite in_app_iff, filter_In, in_map_iff.
  rewrite negb_true_iff. split.
  - intros [H | [a [Hs Ha]]]; [now left|].
    apply filter_In in Ha. right. exists a. tauto.
  - intros [H | [a [Ha [Hh Hs]]]]; [now left|].
    right. exists a. split; [assumption|]. apply filter_In. tauto.
Qed.

Lemma filter_perm (A : Type) (p : A -> bool) (l l' : list A) :
  Permutation l l' -> Permutation (filter p l) (filter p l').
Proof.
  induction 1 as [|x l l' _ IH|x y l|l l' l'' _ IH1 _ IH2]; simpl.
  - constructor.
  - destruct (p x); [now apply perm_skip | exact IH].
  - destruct (p x), (p y);
      try apply perm_swap; apply Permutation_refl.
  - eapply Permutation_trans; eassumption.
Qed.

Lemma update_where_keys (A B : Type) (key : A -> B) (hit : A -> bool)
    (set : A -> A) (rows : list A) :
  (forall a, key (set a) = key a) ->
  Permutation (map key (update_where hit set rows)) (map key rows).
Proof.
  intros Hkey.
  eapply Permutation_trans;
    [apply Permutation_map, update_where_perm|].
  rewrite map_map. erewrite map_ext; [apply Permutation_refl|].
  intros a. cbv beta. destruct (hit a); [apply Hkey | reflexivity].
Qed.

Lemma update_where_untouched (A : Type) (hit : A -> bool) (set : A -> A)
    (rows : list A) :
  (forall a, hit (set a) = hit a) ->
  filter (fun a => negb (hit a)) (update_where hit set rows)
  = filter (fun a => negb (hit a)) rows.
Proof.
  intros Hhit. unfold update_where. rewrite filter_app.
  assert (H1 : forall l,
             filter (fun a => negb (hit a))
               (filter (fun a => negb (hit a)) l)
             = filter (fun a => negb (hit a)) l).
  { induction l as [|a l IH]; simpl; [reflexivity|].
    destruct (hit a) eqn:E; simpl; [exact IH|].
    rewrite E. simpl. now rewrite IH. }
  assert (H2 : forall l,
             filter (fun a => negb (hit a)) (map set (filter hit l)) = []).
  { induction l as [|a l IH]; simpl; [reflexivity|].
    destruct (hit a) eqn:E; simpl; [|exact IH].
    rewrite Hhit, E. simpl. exact IH. }
  now rewrite H1, H2, app_nil_r.
Qed.

Lemma forallb_update_where (A : Type) (p hit : A -> bool) (set : A -> A)
    (rows : list A) :
  forallb p rows = true ->
  (forall a, In a rows -> hit a = true -> p (set a) = true) ->
  forallb p (update_where hit set rows) = true.
Proof.
  intros Hp Hset. rewrite forallb_forall in *. intros x Hx.
  apply in_update_where in Hx.
  destruct Hx as [[Hx _] | [a [Ha [Hh <-]]]]; [now apply Hp | now apply Hset].
Qed.

Lemma first_row_in (A : Type) (l : list A) (x : A) :
  first_row l = Some x -> In x l.
Proof.
  destruct l as [|y l]; simpl; [discriminate|].
  intros H. injection H as ->. now left.
Qed.

(** ** [orderBy] sorts and keeps the rows *)

Section OrderBy.

Variable A : Type.
Variable before : A -> A -> bool.
Hypothesis before_total : forall a b, before a b = false -> before b a = true.
Hypothesis before_trans :
  forall a b c, before a b = true -> before b c = true -> before a c = true.

Lemma insert_by_perm (x : A) (l : list A) :
  Permutation (insert_by before x l) (x :: l).
Proof.
  induction l as [|y l IH]; simpl.
  - apply Permutation_refl.
  - destruct (before x y).
    + apply Permutation_refl.
    + eapply Permutation_trans; [apply perm_skip, IH | apply perm_swap].
Qed.

Lemma orderBy_perm (l : list A) : Permutation (orderBy before l) l.
Proof.
  induction l as [|x l IH]; simpl.
  - apply perm_nil.
  - eapply Permutation_trans; [apply insert_by_perm | now apply perm_skip].
Qed.

Lemma insert_by_HdRel (x y : A) (l : list A) :
  precedes before y x -> HdRel (precedes before) y l ->
  HdRel (precedes before) y (insert_by before x l).
Proof.
  intros Hyx Hhd. destruct l as [|z l]; simpl.
  - now constructor.
  - destruct (before x z); constructor; try assumption.
    now inversion Hhd.
Qed.

Lemma insert_by_sorted (x : A) (l : list A) :
  Sorted (precedes before) l -> Sorted (precedes before) (insert_by before x l).
Proof.
  induction 1 as [|y l Hs IH Hhd]; simpl.
  - repeat constructor.
  - destruct (before x y) eqn:Hxy.
    + constructor; [now constructor | now constructor].
    + constructor; [exact IH|].
      apply insert_by_HdRel; [now apply before_total | exact Hhd].
Qed.

Lemma orderBy_sorted (l : list A) :
  StronglySorted (precedes before) (orderBy before l).
Proof.
  apply Sorted_StronglySorted.
  - intros a b c. apply before_trans.
  - induction l as [|x l IH]; simpl; [constructor | now apply insert_by_sorted].
Qed.

Lemma in_orderBy (l : list A) (x : A) : In x (orderBy before l) <-> In x l.
Proof.
  split; apply Permutation_in;
    [apply orderBy_perm | apply Permutation_sym, orderBy_perm].
Qed.

End OrderBy.

Lemma ts_leb_total (a b : option timestamp) :
  ts_leb a b = false -> ts_leb b a = true.
Proof.
  destruct a as [x|], b as [y|]; simpl; try reflexivity; try discriminate.
  intros H. apply Z.leb_gt in H. apply Z.leb_le. lia.
Qed.

Lemma ts_leb_trans (a b c : option timestamp) :
  ts_leb a b = true -> ts_leb b c = true -> ts_leb a c = true.
Proof.
  destruct a as [x|], b as [y|], c as [z|]; simpl;
    try reflexivity; try discriminate.
  rewrite !Z.leb_le. lia.
Qed.

(** Under [desc] on a timestamp, a row with a later timestamp comes
    first. *)
Lemma ts_leb_some (x y : timestamp) :
  ts_leb (Some x) (Some y) = true <-> x <= y.
Proof. simpl. apply Z.leb_le. Qed.

Lemma orderBy_desc_ts_sorted (A : Type) (key : A -> option timestamp)
    (l : list A) :
  newest_first key (orderBy (desc ts_leb key) l).
Proof.
  apply orderBy_sorted; unfold desc.
  - intros a b. apply ts_leb_total.
  - intros a b c Hab Hbc. exact (ts_leb_trans _ _ _ Hbc Hab).
Qed.

Lemma newer_or_same_desc (A : Type) (key : A -> option timestamp) (a b : A) :
  precedes (desc ts_leb key) a b -> newer_or_same (key a) (key b).
Proof.
  unfold precedes, desc, ts_leb, null_largest_leb, newer_or_same.
  destruct (key a), (key b); try easy. apply Z.leb_le.
Qed.

Lemma StronglySorted_weaken (A : Type) (R S : A -> A -> Prop) (l : list A) :
  (forall a b, R a b -> S a b) -> StronglySorted R l -> StronglySorted S l.
Proof.
  intros H. induction 1 as [|x l Hs IH Hall]; constructor; [exact IH|].
  eapply Forall_impl; [|exact Hall]. intros b. apply H.
Qed.

Lemma orderBy_desc_newest_first_by (A : Type) (key : A -> option timestamp)
    (l : list A) :
  newest_first_by key (orderBy (desc ts_leb key) l).
Proof.
  eapply StronglySorted_weaken; [|apply orderBy_desc_ts_sorted].
  apply newer_or_same_desc.
Qed.

(** ** The school of an identity *)

Lemma teacher_row_related (db : DB) (u : varchar)
    (p : Teacher.t * School.t) :
  In p (innerJoin db.(teachers) db.(schools)
          (fun t s => sql_eq (Teacher.schoolId t) (School.id s))) ->
  sql_eq (Teacher.userId (fst p)) u = true ->
  teacher_of db u (snd p).
Proof.
  destruct p as [t s]. rewrite in_innerJoin, !sql_eq_true. simpl.
  intros [Ht [Hs Hon]] Hu. split; [assumption|]. now exists t.
Qed.

Lemma student_row_related (db : DB) (u : varchar)
    (p : Student.t * School.t) :
  In p (innerJoin db.(students) db.(schools)
          (fun st s => sql_eq (Student.schoolId st) (School.id s))) ->
  sql_eq (Student.userId (fst p)) u = true ->
  student_of db u (snd p).
Proof.
  destruct p as [st s]. rewrite in_innerJoin, !sql_eq_true. simpl.
  intros [Ht [Hs Hon]] Hu. split; [assumption|]. now exists st.
Qed.

Lemma no_proprietor_row (db : DB) (u : varchar) :
  first_row (filter (fun s => sql_eq (School.proprietorId s) u)
                    db.(schools)) = None <->
  unrelated proprietor_of db u.
Proof.
  rewrite first_row_filter_none. unfold unrelated, proprietor_of. split.
  - intros H s [Hs Hp]. apply sql_eq_true in Hp.
    rewrite (H s Hs) in Hp. discriminate.
  - intros H s Hs. destruct (sql_eq (School.proprietorId s) u) eqn:E;
      [|reflexivity].
    exfalso. apply (H s). split; [assumption | now apply sql_eq_true].
Qed.

Lemma no_principal_row (db : DB) (u : varchar) :
  first_row (filter (fun s => sql_eq (School.principalId s) u)
                    db.(schools)) = None <->
  unrelated principal_of db u.
Proof.
  rewrite first_row_filter_none. unfold unrelated, principal_of. split.
  - intros H s [Hs Hp]. apply sql_eq_true in Hp.
    rewrite (H s Hs) in Hp. discriminate.
  - intros H s Hs. destruct (sql_eq (School.principalId s) u) eqn:E;
      [|reflexivity].
    exfalso. apply (H s). split; [assumption | now apply sql_eq_true].
Qed.

Lemma no_teacher_row (db : DB) (u : varchar) :
  first_row
    (filter (fun ts => sql_eq (Teacher.userId (fst ts)) u)
       (innerJoin db.(teachers) db.(schools)
          (fun t s => sql_eq (Teacher.schoolId t) (School.id s)))) = None <->
  unrelated teacher_of db u.
Proof.
  rewrite first_row_filter_none. unfold unrelated, teacher_of. split.
  - intros H s [Hs [t [Ht [Hu Hsc]]]].
    specialize (H (t, s)). simpl in H.
    rewrite (proj2 (sql_eq_true _ _) Hu) in H.
    assert (true = false); [|discriminate].
    apply H. apply in_innerJoin. repeat split; try assumption.
    now apply sql_eq_true.
  - intros H [t s] Hin.
    destruct (sql_eq (Teacher.userId (fst (t, s))) u) eqn:E; [|reflexivity].
    exfalso. apply (H s). exact (teacher_row_related db u (t, s) Hin E).
Qed.

Lemma no_student_row (db : DB) (u : varchar) :
  first_row
    (filter (fun ss => sql_eq (Student.userId (fst ss)) u)
       (innerJoin db.(students) db.(schools)
          (fun st s => sql_eq (Student.schoolId st) (School.id s)))) = None <->
  unrelated student_of db u.
Proof.
  rewrite first_row_filter_none. unfold unrelated, student_of. split.
  - intros H s [Hs [st [Ht [Hu Hsc]]]].
    specialize (H (st, s)). simpl in H.
    rewrite (proj2 (sql_eq_true _ _) Hu) in H.
    assert (true = false); [|discriminate].
    apply H. apply in_innerJoin. repeat split; try assumption.
    now apply sql_eq_true.
  - intros H [st s] Hin.
    destruct (sql_eq (Student.userId (fst (st, s))) u) eqn:E; [|reflexivity].
    exfalso. apply (H s). exact (student_row_related db u (st, s) Hin E).
Qed.

(** C3. [getSchoolByUser] looks for a school the identity is proprietor
    of, then principal of, then a teacher of, then a student of, and
    returns the first one found: a result comes from the first of the
    four relations that is not empty; the result is [None] (a value, not
    an error) exactly when no relation holds; and an identity that is
    proprietor of one school and teacher at another gets a school it is
    proprietor of. *)
Theorem getSchoolByUser_precedence (db : DB) (u : varchar) :
  (forall s, getSchoolByUser db u = Some s ->
     proprietor_of db u s
     \/ (unrelated proprietor_of db u /\ principal_of db u s)
     \/ (unrelated proprietor_of db u /\ unrelated principal_of db u
         /\ teacher_of db u s)
     \/ (unrelated proprietor_of db u /\ unrelated principal_of db u
         /\ unrelated teacher_of db u /\ student_of db u s))
  /\ (getSchoolByUser db u = None <->
      unrelated proprietor_of db u /\ unrelated principal_of db u
      /\ unrelated teacher_of db u /\ unrelated student_of db u)
  /\ (forall s t, proprietor_of db u s -> teacher_of db u t ->
      exists s', getSchoolByUser db u = Some s' /\ proprietor_of db u s').
Proof.
  unfold getSchoolByUser.
  destruct (first_row (filter (fun s => sql_eq (School.proprietorId s) u)
                              db.(schools))) as [s1|] eqn:E1.
  { apply first_row_filter_some in E1. destruct E1 as [Hin Hp].
    apply sql_eq_true in Hp.
    assert (H1 : proprietor_of db u s1) by (split; assumption).
    split; [|split].
    - intros s Hs. injection Hs as <-. now left.
    - split; [discriminate|]. intros [Hno _]. exfalso. exact (Hno s1 H1).
    - intros _ _ _ _. now exists s1. }
  apply no_proprietor_row in E1.
  destruct (first_row (filter (fun s => sql_eq (School.principalId s) u)
                              db.(schools))) as [s2|] eqn:E2.
  { apply first_row_filter_some in E2. destruct E2 as [Hin Hp].
    apply sql_eq_true in Hp.
    assert (H2 : principal_of db u s2) by (split; assumption).
    split; [|split].
    - intros s Hs. injection Hs as <-. right. left. now split.
    - split; [discriminate|]. intros [_ [Hno _]]. exfalso. exact (Hno s2 H2).
    - intros s t Hs _. exfalso. exact (E1 s Hs). }
  apply no_principal_row in E2.
  match goal with
  | |- context [first_row ?q] =>
    destruct (first_row q) as [p3|] eqn:E3
  end.
  { apply first_row_filter_some in E3. destruct E3 as [Hin Hp].
    pose proof (teacher_row_related db u p3 Hin Hp) as H3.
    split; [|split].
    - intros s Hs. injection Hs as <-. right. right. left. auto.
    - split; [discriminate|]. intros [_ [_ [Hno _]]]. exfalso.
      exact (Hno _ H3).
    - intros s t Hs _. exfalso. exact (E1 s Hs). }
  apply no_teacher_row in E3.
  match goal with
  | |- context [first_row ?q] =>
    destruct (first_row q) as [p4|] eqn:E4
  end.
  { apply first_row_filter_some in E4. destruct E4 as [Hin Hp].
    pose proof (student_row_related db u p4 Hin Hp) as H4.
    split; [|split].
    - intros s Hs. injection Hs as <-. right. right. right. auto.
    - split; [discriminate|]. intros [_ [_ [_ Hno]]]. exfalso.
      exact (Hno _ H4).
    - intros s t Hs _. exfalso. exact (E1 s Hs). }
  apply no_student_row in E4.
  split; [|split].
  - discriminate.
  - split; auto.
  - intros s t Hs _. exfalso. exact (E1 s Hs).
Qed.

Lemma getSchoolByUser_precedence_witness :
  proprietor_of Sample.db "u-prop" Sample.schoolX
  /\ teacher_of Sample.db "u-prop" Sample.schoolY
  /\ exists s', getSchoolByUser Sample.db "u-prop" = Some s'
                /\ proprietor_of Sample.db "u-prop" s'.
Proof.
  assert (Hp : proprietor_of Sample.db "u-prop" Sample.schoolX).
  { split; [simpl; auto | reflexivity]. }
  assert (Ht : teacher_of Sample.db "u-prop" Sample.schoolY).
  { split; [simpl; auto|]. exists Sample.teacher2. simpl. auto. }
  split; [exact Hp|]. split; [exact Ht|].
  exact (proj2 (proj2 (getSchoolByUser_precedence Sample.db "u-prop"))
               _ _ Hp Ht).
Defined.

(** ** Grade reads *)

Lemma truthy_enum_label (labels : list string) (t : string) :
  In t labels -> ~ In "" labels -> if_truthy (Some t) = Some t.
Proof.
  intros Hin Hne. unfold if_truthy, truthy.
  destruct (String.eqb t "") eqn:E; [|reflexivity].
  apply String.eqb_eq in E. subst t. contradiction.
Qed.

Lemma enum_ok_in (labels : list string) (v : string) :
  enum_ok labels v = true <-> In v labels.
Proof.
  unfold enum_ok. rewrite existsb_exists. split.
  - intros [x [Hx He]]. apply String.eqb_eq in He. now subst x.
  - intros H. exists v. split; [assumption | apply String.eqb_refl].
Qed.

(** Counterexample to C8 as it is worded: a term that is supplied does
    not always restrict the read to that term.  For the term "fourth"
    the read of student S returns nothing, it is rejected; for the empty
    string it returns the grades of all terms, none of which has the
    empty term. *)
Lemma getGradesByStudent_supplied_term_not_restricting :
  (forall rows,
     getGradesByStudent Sample.db "S" (Some "fourth") <> Resolved rows)
  /\ getGradesByStudent Sample.db "S" (Some "")
     = Resolved [Sample.gradeSecondTerm; Sample.gradeChemistry;
                 Sample.gradeMath]
  /\ filter (fun g => sql_eq (Grade.studentId g) "S"
                      && String.eqb (Grade.term g) "")
            Sample.db.(grades) = [].
Proof.
  split; [intros rows; discriminate|]. split; reflexivity.
Qed.

(** C8, amended.  For every student: when the term is omitted or is the
    empty string, [getGradesByStudent] resolves to that student's grades
    of all terms; when it is one of first, second, third, to that
    student's grades of that term; in both cases exactly those rows,
    each as often as the table holds it, every row no older by
    [createdAt] than the rows behind it; and for any other string the
    database refuses the query and the read is rejected. *)
Theorem getGradesByStudent_every_term (db : DB) (studentId : varchar) :
  (forall term, term = None \/ term = Some "" ->
     exists rows,
       getGradesByStudent db studentId term = Resolved rows
       /\ Permutation rows
            (filter (fun g => sql_eq (Grade.studentId g) studentId)
                    db.(grades))
       /\ (forall g, In g rows <->
             In g db.(grades) /\ Grade.studentId g = Some studentId)
       /\ newest_first_by Grade.createdAt rows)
  /\ (forall term, In term termEnum ->
      exists rows,
        getGradesByStudent db studentId (Some term) = Resolved rows
        /\ Permutation rows
             (filter (fun g => sql_eq (Grade.studentId g) studentId
                               && String.eqb (Grade.term g) term)
                     db.(grades))
        /\ (forall g, In g rows <->
              In g db.(grades) /\ Grade.studentId g = Some studentId
              /\ Grade.term g = term)
        /\ newest_first_by Grade.createdAt rows)
  /\ (forall term, term <> "" -> ~ In term termEnum ->
      getGradesByStudent db studentId (Some term)
      = Rejected (PgError "invalid input value for enum term")).
Proof.
  split; [|split].
  - intros term Hterm.
    assert (Hall : getGradesByStudent db studentId term
                   = getGradesByStudent db studentId None)
      by (destruct Hterm as [-> | ->]; reflexivity).
    rewrite Hall.
    eexists. split; [reflexivity|]. split; [apply orderBy_perm|]. split.
    + intros g. rewrite in_orderBy, filter_In, sql_eq_true. tauto.
    + apply orderBy_desc_newest_first_by.
  - intros term Hterm. unfold getGradesByStudent.
    rewrite (truthy_enum_label termEnum term Hterm).
    2:{ simpl. intros [H|[H|[H|[]]]]; discriminate. }
    rewrite (proj2 (enum_ok_in termEnum term) Hterm). simpl.
    eexists. split; [reflexivity|]. split; [apply orderBy_perm|]. split.
    + intros g.
      rewrite in_orderBy, filter_In, andb_true_iff, sql_eq_true,
        String.eqb_eq.
      tauto.
    + apply orderBy_desc_newest_first_by.
  - intros term Hne Hout.
    assert (E : enum_ok termEnum term = false).
    { destruct (enum_ok termEnum term) eqn:E; [|reflexivity].
      apply enum_ok_in in E. contradiction. }
    unfold getGradesByStudent, if_truthy, truthy.
    apply String.eqb_neq in Hne. rewrite Hne. cbn [negb].
    unfold require, bind. now rewrite E.
Qed.

Lemma getGradesByStudent_every_term_witness :
  (exists rows,
     getGradesByStudent Sample.db "S" (Some "") = Resolved rows
     /\ (forall g, In g rows <->
           In g Sample.db.(grades) /\ Grade.studentId g = Some "S")
     /\ newest_first_by Grade.createdAt rows)
  /\ (exists rows,
        getGradesByStudent Sample.db "S" (Some "first") = Resolved rows
        /\ (forall g, In g rows <->
              In g Sample.db.(grades) /\ Grade.studentId g = Some "S"
              /\ Grade.term g = "first")
        /\ newest_first_by Grade.createdAt rows)
  /\ getGradesByStudent Sample.db "S" (Some "fourth")
     = Rejected (PgError "invalid input value for enum term").
Proof.
  destruct (getGradesByStudent_every_term Sample.db "S") as [H1 [H2 H3]].
  split; [|split].
  - destruct (H1 (Some "") (or_intror eq_refl)) as [rows [Hr [_ [Hin Hs]]]].
    exists rows. auto.
  - assert (Hterm : In "first" termEnum) by (simpl; auto).
    destruct (H2 "first" Hterm) as [rows [Hr [_ [Hin Hs]]]].
    exists rows. auto.
  - apply H3; [discriminate|].
    simpl. intros [H|[H|[H|[]]]]; discriminate H.
Defined.

Example getGradesByStudent_sample_first :
  getGradesByStudent Sample.db "S" (Some "first")
  = Resolved [Sample.gradeChemistry; Sample.gradeMath].
Proof. reflexivity. Qed.

Example getGradesByStudent_sample_all :
  getGradesByStudent Sample.db "S" None
  = Resolved [Sample.gradeSecondTerm; Sample.gradeChemistry;
              Sample.gradeMath].
Proof. reflexivity. Qed.

(** An empty term string is falsy, so it reads all terms; a string that
    is no label of the enum is refused by the database. *)
Remark getGradesByStudent_empty_term (db : DB) (studentId : varchar) :
  getGradesByStudent db studentId (Some "")
  = getGradesByStudent db studentId None.
Proof. reflexivity. Qed.

Remark getGradesByStudent_unknown_term (db : DB) (studentId : varchar) :
  getGradesByStudent db studentId (Some "fourth")
  = Rejected (PgError "invalid input value for enum term").
Proof. reflexivity. Qed.

(** ** The dashboard *)



(** The teacher whose profile is missing, on the sample store. *)
Example get_dashboard_new_teacher :
  get_dashboard Sample.db (Sample.caller Sample.newTeacher)
  = ([CallGetUser "u-tnew"; CallGetSchoolByUser "u-tnew";
      CallGetTeacherByUserId "u-tnew"],
     mkResponse 200 (JDashboard (Dashboard.base Sample.newTeacher None))).
Proof. reflexivity. Qed.

(** With a profile the sections are fetched. *)
Example get_dashboard_linked_student :
  fst (get_dashboard Sample.db (Sample.caller Sample.studentUser))
  = [CallGetUser "u-stud"; CallGetSchoolByUser "u-stud";
     CallGetStudentByUserId "u-stud";
     CallGetGradesByStudent "S" (Some "first");
     CallGetAttendanceByStudent "S"; CallGetAssignmentsByStudent "S";
     CallGetMessagesByUser "u-stud"; CallGetFeePaymentsByStudent "S"].
Proof. reflexivity. Qed.

(** ** Report cards of the caller *)



(** A caller of another role is answered from the query. *)
Example get_report_cards_teacher_uses_query :
  get_report_cards Sample.db (Sample.caller Sample.teacherUser) None
  = mkResponse 400 (JMessage "Student ID required")
  /\ get_report_cards Sample.db (Sample.caller Sample.teacherUser) (Some "S")
     = mkResponse 200 (JReportCards [])
  /\ get_report_cards Sample7.withReportCards
       (Sample.caller Sample.teacherUser) (Some "S2")
     = mkResponse 200 (JReportCards [Sample7.cardOther]).
Proof. repeat split. Qed.

(** ** Attendance writes *)

Lemma createAttendance_rejects (db : DB) (fr : Fresh)
    (a : InsertAttendance.t) :
  createAttendance db fr a
  = Rejected (TypeError "Cannot read properties of undefined").
Proof. reflexivity. Qed.

Lemma post_attendance_store (db : DB) (fr : Fresh) (user : ReqUser.t)
    (body : InsertAttendance.t) :
  fst (post_attendance db fr user body) = db.
Proof.
  unfold post_attendance. rewrite createAttendance_rejects.
  destruct (negb _); reflexivity.
Qed.

Lemma post_attendance_status (db : DB) (fr : Fresh) (user : ReqUser.t)
    (body : InsertAttendance.t) :
  status (snd (post_attendance db fr user body))
  = if includes ["teacher"; "principal"] (ReqUser.role user) then 500
    else 403.
Proof.
  unfold post_attendance. rewrite createAttendance_rejects.
  destruct (includes _ _); reflexivity.
Qed.

(** No write of the storage adds or removes an attendance row. *)
Lemma apply_write_attendance_length (db : DB) (w : Write) :
  List.length (apply_write db w).(attendance) = List.length db.(attendance).
Proof.
  destruct w as [fr g | fr a | fr s t a | fr a | id p | db']; simpl.
  - unfold createGrade. split_checks; reflexivity.
  - unfold createAnnouncement. split_checks; reflexivity.
  - unfold generateReportCard. split_checks; reflexivity.
  - reflexivity.
  - unfold updateAttendance. split_checks; simpl; try reflexivity.
    apply update_where_length.
  - reflexivity.
Qed.

Lemma reachable_attendance_empty (db : DB) :
  reachable db -> db.(attendance) = [].
Proof.
  induction 1 as [|db w Hreach IH].
  - reflexivity.
  - apply length_zero_iff_nil. rewrite apply_write_attendance_length, IH.
    reflexivity.
Qed.


(** [createAttendance] never reaches the table.  The table itself has
    no unique constraint on (student, date): an insert that named it
    would store both rows. *)
Remark attendance_table_accepts_duplicates :
  exists db1 r1 db2 r2,
    db_insert_attendance (TableObject "attendance") Sample.db Sample.fresh1
      Sample.presentToday = Resolved (db1, r1)
    /\ db_insert_attendance (TableObject "attendance") db1 Sample.fresh2
         Sample.presentToday = Resolved (db2, r2)
    /\ db2.(attendance) = [r1; r2]
    /\ Attendance.studentId r1 = Attendance.studentId r2
    /\ Attendance.date r1 = Attendance.date r2
    /\ r1 <> r2.
Proof.
  do 4 eexists. repeat split; try reflexivity. discriminate.
Qed.

(** ** Role checks of the write routes *)

Section RoleChecks.

Variable Body : Type.
Variable parseGrade : Body -> Promise InsertGrade.t.
Variable parseAnnouncement :
  Body -> varchar -> varchar -> Promise InsertAnnouncement.t.

Lemma post_grades_forbidden (db : DB) (fr : Fresh) (user : ReqUser.t)
    (body : Body) :
  ReqUser.role user <> "teacher" ->
  post_grades parseGrade db fr user body
  = (db, mkResponse 403 (JMessage "Only teachers can record grades")).
Proof.
  intros H. unfold post_grades.
  destruct (String.eqb (ReqUser.role user) "teacher") eqn:E; simpl.
  - apply String.eqb_eq in E. contradiction.
  - reflexivity.
Qed.

Lemma post_attendance_forbidden (db : DB) (fr : Fresh) (user : ReqUser.t)
    (body : InsertAttendance.t) :
  ReqUser.role user <> "teacher" -> ReqUser.role user <> "principal" ->
  post_attendance db fr user body
  = (db, mkResponse 403 (JMessage "Unauthorized")).
Proof.
  intros Ht Hp. unfold post_attendance, includes. simpl.
  destruct (String.eqb (ReqUser.role user) "teacher") eqn:E1;
    [apply String.eqb_eq in E1; contradiction|].
  destruct (String.eqb (ReqUser.role user) "principal") eqn:E2;
    [apply String.eqb_eq in E2; contradiction|].
  reflexivity.
Qed.

(** With [claims] on the request the role of the stored identity
    decides, and a mismatch is answered 403. *)
Lemma post_announcements_forbidden (db : DB) (fr : Fresh) (user : ReqUser.t)
    (body : Body) (c : Claims) :
  ReqUser.claims user = Some c ->
  (forall u, getUser db c.(sub) = Some u ->
             User.role u <> "principal" /\ User.role u <> "proprietor") ->
  post_announcements parseAnnouncement db fr user body
  = (db, mkResponse 403
           (JMessage "Only principals and proprietors can create announcements")).
Proof.
  intros Hc Hrole. unfold post_announcements. rewrite Hc.
  destruct (getUser db c.(sub)) as [u|]; [|reflexivity].
  destruct (Hrole u eq_refl) as [H1 H2]. unfold includes. simpl.
  destruct (String.eqb (User.role u) "principal") eqn:E1;
    [apply String.eqb_eq in E1; contradiction|].
  destruct (String.eqb (User.role u) "proprietor") eqn:E2;
    [apply String.eqb_eq in E2; contradiction|].
  reflexivity.
Qed.

(** Without [claims] reading [claims.sub] throws, whatever the role,
    and the handler answers 500; the store is not written. *)
Lemma post_announcements_no_claims (db : DB) (fr : Fresh) (user : ReqUser.t)
    (body : Body) :
  ReqUser.claims user = None ->
  post_announcements parseAnnouncement db fr user body
  = (db, mkResponse 500 (JMessage "Failed to create announcement")).
Proof. intros H. unfold post_announcements. now rewrite H. Qed.

End RoleChecks.

(** C5. A student as the local strategy delivers the caller (the row of
    [users], no [claims]) posts an announcement: the store is left as it
    was, and the answer is 500, not 403.  The two sibling routes answer
    the same caller 403. *)
Theorem post_announcements_student_500 (Body : Type)
    (parseGrade : Body -> Promise InsertGrade.t)
    (parseAnnouncement :
       Body -> varchar -> varchar -> Promise InsertAnnouncement.t)
    (body : Body) :
  post_announcements parseAnnouncement Sample.db Sample.fresh1
    (Sample.caller Sample.studentUser) body
  = (Sample.db, mkResponse 500 (JMessage "Failed to create announcement"))
  /\ post_grades parseGrade Sample.db Sample.fresh1
       (Sample.caller Sample.studentUser) body
     = (Sample.db, mkResponse 403 (JMessage "Only teachers can record grades"))
  /\ post_attendance Sample.db Sample.fresh1
       (Sample.caller Sample.studentUser) Sample.excusedBody
     = (Sample.db, mkResponse 403 (JMessage "Unauthorized")).
Proof. repeat split. Qed.

(** ** Report card generation *)

(** Whatever the grades, a generated report card carries the constants
    of the basic implementation. *)
Lemma generateReportCard_fields (db db' : DB) (fr : Fresh)
    (studentId : varchar) (term : string) (academicSessionId : varchar)
    (rc : ReportCard.t) :
  generateReportCard db fr studentId term academicSessionId
  = Resolved (db', rc) ->
  rc = ReportCard.mk fr.(gen_random_uuid) (Some studentId)
         (Some academicSessionId) term (Some 0) (Some 0) (Some 0) (Some 0)
         (Some 0) None None None (Some false) (Some fr.(now))
  /\ db' = set_reportCards db (db.(reportCards) ++ [rc]).
Proof.
  unfold generateReportCard. split_checks; try discriminate.
  intros H. injection H as <- <-. split; reflexivity.
Qed.

Lemma generateReportCard_resolves (db : DB) (fr : Fresh)
    (studentId : varchar) (term : string) (academicSessionId : varchar) :
  In term termEnum ->
  pk_free ReportCard.id db.(reportCards) fr.(gen_random_uuid) = true ->
  fk_ok Student.id db.(students) (Some studentId) = true ->
  fk_ok AcademicSession.id db.(academicSessions) (Some academicSessionId)
  = true ->
  exists db' rc,
    generateReportCard db fr studentId term academicSessionId
    = Resolved (db', rc).
Proof.
  intros Hterm Hpk Hst Hse. unfold generateReportCard.
  rewrite (proj2 (enum_ok_in termEnum term) Hterm), Hpk, Hst, Hse. simpl.
  eauto.
Qed.

(** C1. On the store of the scenario, with the published grades 85/100
    and 92/100 of student S for term first, [generateReportCard] resolves
    to a report card whose totalScore, totalPossible and average are all
    0 (and whose position and classSize are 0, not null), where the sums
    the specification states are 177, 200 and 88.50. *)
Theorem generateReportCard_scenario_totals :
  exists db' rc,
    generateReportCard Sample.db Sample.fresh1 "S" "first" "SESSION1"
    = Resolved (db', rc)
    /\ ReportCard.totalScore rc = Some 0
    /\ ReportCard.totalPossible rc = Some 0
    /\ ReportCard.average rc = Some 0
    /\ ReportCard.position rc = Some 0
    /\ ReportCard.classSize rc = Some 0
    /\ published_grades Sample.db "S" "first" "SESSION1"
       = [Sample.gradeMath; Sample.gradeChemistry]
    /\ spec_totalScore (published_grades Sample.db "S" "first" "SESSION1")
       = 17700
    /\ spec_totalPossible (published_grades Sample.db "S" "first" "SESSION1")
       = 20000
    /\ spec_average (published_grades Sample.db "S" "first" "SESSION1")
       = 8850.
Proof. do 2 eexists. repeat split. Qed.

Example sample_db_constraints : db_constraints_ok Sample.db = true.
Proof. reflexivity. Qed.

(** C2. Two calls of [generateReportCard] for student S, term first and
    session SESSION1 on the sample store, the grades the same before
    and after, both resolve.  The store had no report card for that
    student, term and session, has one after the first call and two
    after the second: the second call has overwritten nothing, the row
    of the first is still there, and the two rows differ, in [id] and
    in [generatedAt]. *)
Theorem generateReportCard_twice_two_rows :
  exists db1 rc1 db2 rc2,
    generateReportCard Sample.db Sample.fresh1 "S" "first" "SESSION1"
    = Resolved (db1, rc1)
    /\ generateReportCard db1 Sample.fresh2 "S" "first" "SESSION1"
       = Resolved (db2, rc2)
    /\ db1.(grades) = Sample.db.(grades)
    /\ db2.(grades) = Sample.db.(grades)
    /\ report_cards_for Sample.db "S" "first" "SESSION1" = []
    /\ report_cards_for db1 "S" "first" "SESSION1" = [rc1]
    /\ report_cards_for db2 "S" "first" "SESSION1" = [rc1; rc2]
    /\ ReportCard.id rc1 <> ReportCard.id rc2
    /\ ReportCard.generatedAt rc1 <> ReportCard.generatedAt rc2.
Proof.
  do 4 eexists. repeat split; try reflexivity; discriminate.
Qed.

Lemma pk_free_app (A : Type) (id : A -> varchar) (rows : list A) (r : A)
    (k : varchar) :
  pk_free id (rows ++ [r]) k = true <->
  pk_free id rows k = true /\ id r <> k.
Proof.
  unfold pk_free. rewrite existsb_app. simpl. rewrite orb_false_r.
  rewrite negb_orb, andb_true_iff, !negb_true_iff.
  split; intros [H1 H2]; (split; [assumption|]).
  - intros E. apply String.eqb_eq in E. congruence.
  - destruct (String.eqb (id r) k) eqn:E; [|reflexivity].
    apply String.eqb_eq in E. contradiction.
Qed.

(** The same on every store: for a student and a session that exist, a
    term of the enum and two fresh, distinct keys drawn by the database,
    two calls for the same (student, term, session) both resolve and
    each appends a row of its own, the grades untouched. *)
Lemma generateReportCard_appends (db : DB) (fr1 fr2 : Fresh)
    (studentId : varchar) (term : string) (academicSessionId : varchar) :
  In term termEnum ->
  fk_ok Student.id db.(students) (Some studentId) = true ->
  fk_ok AcademicSession.id db.(academicSessions) (Some academicSessionId)
  = true ->
  pk_free ReportCard.id db.(reportCards) fr1.(gen_random_uuid) = true ->
  pk_free ReportCard.id db.(reportCards) fr2.(gen_random_uuid) = true ->
  fr1.(gen_random_uuid) <> fr2.(gen_random_uuid) ->
  exists db1 rc1 db2 rc2,
    generateReportCard db fr1 studentId term academicSessionId
    = Resolved (db1, rc1)
    /\ generateReportCard db1 fr2 studentId term academicSessionId
       = Resolved (db2, rc2)
    /\ db2.(reportCards) = db.(reportCards) ++ [rc1; rc2]
    /\ db2.(grades) = db.(grades)
    /\ ReportCard.id rc1 <> ReportCard.id rc2
    /\ report_cards_for db2 studentId term academicSessionId
       = report_cards_for db studentId term academicSessionId ++ [rc1; rc2].
Proof.
  intros Hterm Hst Hse Hpk1 Hpk2 Hne.
  destruct (generateReportCard_resolves db fr1 studentId academicSessionId
              Hterm Hpk1 Hst Hse) as [db1 [rc1 H1]].
  destruct (generateReportCard_fields _ _ _ _ _ H1) as [Hrc1 Hdb1].
  assert (Hpk2' : pk_free ReportCard.id db1.(reportCards)
                    fr2.(gen_random_uuid) = true).
  { rewrite Hdb1. simpl. apply pk_free_app. split; [assumption|].
    rewrite Hrc1. simpl. assumption. }
  assert (Hst' : fk_ok Student.id db1.(students) (Some studentId) = true)
    by (rewrite Hdb1; exact Hst).
  assert (Hse' : fk_ok AcademicSession.id db1.(academicSessions)
                   (Some academicSessionId) = true)
    by (rewrite Hdb1; exact Hse).
  destruct (generateReportCard_resolves db1 fr2 studentId academicSessionId
              Hterm Hpk2' Hst' Hse') as [db2 [rc2 H2]].
  destruct (generateReportCard_fields _ _ _ _ _ H2) as [Hrc2 Hdb2].
  exists db1, rc1, db2, rc2.
  assert (Hrows : db2.(reportCards) = db.(reportCards) ++ [rc1; rc2]).
  { rewrite Hdb2, Hdb1. simpl. now rewrite <- app_assoc. }
  split; [exact H1|]. split; [exact H2|]. split; [exact Hrows|].
  split; [rewrite Hdb2, Hdb1; reflexivity|].
  split; [rewrite Hrc1, Hrc2; exact Hne|].
  unfold report_cards_for. rewrite Hrows, filter_app. f_equal.
  rewrite Hrc1, Hrc2. simpl.
  rewrite !String.eqb_refl. reflexivity.
Qed.

(** ** Announcement reads *)

Lemma sql_eq_bool_true (col : option bool) :
  sql_eq_bool col true = true <-> col = Some true.
Proof.
  destruct col as [[|]|]; simpl; split; congruence.
Qed.

(** What the read with a role returns: the active announcements of the
    school whose [targetRole] is that role, newest first.  A row whose
    [targetRole] is NULL fails the equality and is left out. *)
Lemma getAnnouncementsBySchool_role_rows (db : DB) (schoolId : varchar)
    (role : string) :
  In role userRoleEnum ->
  exists rows,
    getAnnouncementsBySchool db schoolId (Some role) = Resolved rows
    /\ (forall a, In a rows <->
          In a db.(announcements)
          /\ Announcement.schoolId a = Some schoolId
          /\ Announcement.targetRole a = Some role
          /\ Announcement.isActive a = Some true)
    /\ newest_first Announcement.createdAt rows.
Proof.
  intros Hrole. unfold getAnnouncementsBySchool.
  rewrite (truthy_enum_label userRoleEnum role Hrole).
  2:{ simpl. intros [H|[H|[H|[H|[H|[]]]]]]; discriminate. }
  rewrite (proj2 (enum_ok_in userRoleEnum role) Hrole). simpl.
  eexists. split; [reflexivity|]. split.
  - intros a.
    rewrite in_orderBy, filter_In, !andb_true_iff, !sql_eq_true,
      sql_eq_bool_true.
    tauto.
  - apply orderBy_desc_ts_sorted.
Qed.

(** C4. On the sample store the read for school X and role student
    resolves to no row at all: the announcement for teachers is left
    out, and so is the active one without a target role, which the
    schema documents as meant for all roles and which is the one row
    visible to a student. *)
Theorem getAnnouncementsBySchool_student_misses_untargeted :
  getAnnouncementsBySchool Sample.db "X" (Some "student") = Resolved []
  /\ In Sample.forEveryone Sample.db.(announcements)
  /\ Announcement.schoolId Sample.forEveryone = Some "X"
  /\ Announcement.targetRole Sample.forEveryone = None
  /\ Announcement.isActive Sample.forEveryone = Some true
  /\ filter (spec_visible "X" "student") Sample.db.(announcements)
     = [Sample.forEveryone].
Proof. repeat split. simpl. auto. Qed.

(** Without a role the read returns both, newest first. *)
Example getAnnouncementsBySchool_no_role :
  getAnnouncementsBySchool Sample.db "X" None
  = Resolved [Sample.forEveryone; Sample.forTeachers].
Proof. reflexivity. Qed.

(** ** The attendance status *)

Lemma attendanceStatusEnum_labels (x : string) :
  In x attendanceStatusEnum <-> x = "present" \/ x = "absent" \/ x = "late".
Proof.
  unfold attendanceStatusEnum. simpl. intuition congruence.
Qed.

(** The insert into the table, had it been reached, refuses a status
    outside the enum. *)
Lemma insert_attendance_row_excused (db : DB) (fr : Fresh)
    (v : InsertAttendance.t) :
  InsertAttendance.status v = Some "excused" ->
  exists e, insert_attendance_row db fr v = Rejected e.
Proof.
  intros H. unfold insert_attendance_row. rewrite H.
  destruct (InsertAttendance.date v); simpl; eauto.
Qed.

(** C9. The enum of the status column has the three labels present,
    absent and late; "excused", which the client offers, is not one of
    them.  A teacher who submits an attendance with status "excused" is
    answered 500 and nothing is stored. *)
Theorem attendance_status_excused_refused :
  ~ In "excused" attendanceStatusEnum
  /\ enum_ok attendanceStatusEnum "excused" = false
  /\ post_attendance Sample.db Sample.fresh1
       (Sample.caller Sample.teacherUser) Sample.excusedBody
     = (Sample.db, mkResponse 500 (JMessage "Failed to create attendance"))
  /\ forall db fr user body,
       (fst (post_attendance db fr user body)).(attendance) = db.(attendance).
Proof.
  split; [|split; [|split]].
  - rewrite attendanceStatusEnum_labels. intros [H|[H|H]]; discriminate.
  - reflexivity.
  - reflexivity.
  - intros db fr user body. now rewrite post_attendance_store.
Qed.

(** A well-formed submission of an enum status fares no better. *)
Example post_attendance_present :
  post_attendance Sample.db Sample.fresh1 (Sample.caller Sample.teacherUser)
    Sample.presentToday
  = (Sample.db, mkResponse 500 (JMessage "Failed to create attendance")).
Proof. reflexivity. Qed.

(** * The rest of the storage and of the routes *)

(** ** More on the query primitives *)

Lemma first_row_filter_app (A : Type) (p : A -> bool) (l : list A) (x : A) :
  first_row (filter p (l ++ [x]))
  = match first_row (filter p l) with
    | Some y => Some y
    | None => if p x then Some x else None
    end.
Proof.
  rewrite filter_app. simpl.
  destruct (filter p l) as [|y ys]; simpl.
  - destruct (p x); reflexivity.
  - reflexivity.
Qed.

Lemma filter_none (A : Type) (p : A -> bool) (l : list A) :
  (forall x, In x l -> p x = false) -> filter p l = [].
Proof.
  intros H. induction l as [|y l IH]; simpl; [reflexivity|].
  rewrite (H y (or_introl eq_refl)). apply IH. intros x Hx. apply H. now right.
Qed.


Lemma insert_by_map (A : Type) (before : A -> A -> bool) (f : A -> A)
    (x : A) (l : list A) :
  (forall a b, before (f a) (f b) = before a b) ->
  insert_by before (f x) (map f l) = map f (insert_by before x l).
Proof.
  intros H. induction l as [|y l IH]; simpl; [reflexivity|].
  rewrite H. destruct (before x y); simpl; [reflexivity|]. now rewrite IH.
Qed.

(** An update that leaves the sort key alone commutes with [orderBy]. *)
Lemma orderBy_map (A : Type) (before : A -> A -> bool) (f : A -> A)
    (l : list A) :
  (forall a b, before (f a) (f b) = before a b) ->
  orderBy before (map f l) = map f (orderBy before l).
Proof.
  intros H. unfold orderBy. induction l as [|y l IH]; simpl; [reflexivity|].
  rewrite IH. now apply insert_by_map.
Qed.

Lemma filter_map_commute (A : Type) (p : A -> bool) (f : A -> A)
    (l : list A) :
  (forall a, p (f a) = p a) ->
  filter p (map f l) = map f (filter p l).
Proof.
  intros H. induction l as [|y l IH]; simpl; [reflexivity|].
  rewrite H. destruct (p y); simpl; now rewrite IH.
Qed.

(** *** The order of strings *)

Lemma ascii_compare_N (a b : Ascii.ascii) :
  Ascii.compare a b = N.compare (Ascii.N_of_ascii a) (Ascii.N_of_ascii b).
Proof. reflexivity. Qed.

Lemma string_compare_trans (c : comparison) (s1 s2 s3 : string) :
  String.compare s1 s2 = c -> String.compare s2 s3 = c ->
  String.compare s1 s3 = c.
Proof.
  revert s2 s3. induction s1 as [|a1 s1 IH]; intros [|a2 s2] [|a3 s3];
    simpl; try congruence.
  rewrite !ascii_compare_N.
  destruct (N.compare_spec (Ascii.N_of_ascii a1) (Ascii.N_of_ascii a2))
    as [E12|L12|G12];
  destruct (N.compare_spec (Ascii.N_of_ascii a2) (Ascii.N_of_ascii a3))
    as [E23|L23|G23]; intros H1 H2; subst; try congruence.
  - rewrite E12, E23, N.compare_refl. eapply IH; eauto.
  - rewrite E12. now apply N.compare_lt_iff in L23 as ->.
  - rewrite E12. apply N.compare_gt_iff in G23. now rewrite G23.
  - rewrite <- E23. now apply N.compare_lt_iff in L12 as ->.
  - assert (H : (Ascii.N_of_ascii a1 < Ascii.N_of_ascii a3)%N) by lia.
    now apply N.compare_lt_iff in H as ->.
  - rewrite <- E23. apply N.compare_gt_iff in G12. now rewrite G12.
  - assert (H : (Ascii.N_of_ascii a3 < Ascii.N_of_ascii a1)%N) by lia.
    apply N.compare_gt_iff in H. now rewrite H.
Qed.

Lemma string_leb_trans (s1 s2 s3 : string) :
  String.leb s1 s2 = true -> String.leb s2 s3 = true ->
  String.leb s1 s3 = true.
Proof.
  unfold String.leb.
  destruct (String.compare s1 s2) eqn:E12; try discriminate;
    destruct (String.compare s2 s3) eqn:E23; try discriminate; intros _ _.
  - now rewrite (string_compare_trans _ _ _ E12 E23).
  - apply String.compare_eq_iff in E12. subst. now rewrite E23.
  - apply String.compare_eq_iff in E23. subst. now rewrite E12.
  - now rewrite (string_compare_trans _ _ _ E12 E23).
Qed.

Lemma string_leb_total (s1 s2 : string) :
  String.leb s1 s2 = false -> String.leb s2 s1 = true.
Proof.
  intros H. destruct (String.leb_total s1 s2) as [E|E]; congruence.
Qed.

Lemma null_largest_leb_total (A : Type) (leb : A -> A -> bool) :
  (forall a b, leb a b = false -> leb b a = true) ->
  forall a b, null_largest_leb leb a b = false ->
              null_largest_leb leb b a = true.
Proof.
  intros H [x|] [y|]; simpl; try reflexivity; try discriminate. apply H.
Qed.

Lemma null_largest_leb_trans (A : Type) (leb : A -> A -> bool) :
  (forall a b c, leb a b = true -> leb b c = true -> leb a c = true) ->
  forall a b c, null_largest_leb leb a b = true ->
                null_largest_leb leb b c = true ->
                null_largest_leb leb a c = true.
Proof.
  intros H [x|] [y|] [z|]; simpl; try reflexivity; try discriminate.
  apply H.
Qed.

Lemma orderBy_asc_sorted (A K : Type) (leb : K -> K -> bool) (key : A -> K)
    (l : list A) :
  (forall a b, leb a b = false -> leb b a = true) ->
  (forall a b c, leb a b = true -> leb b c = true -> leb a c = true) ->
  StronglySorted (precedes (asc leb key)) (orderBy (asc leb key) l).
Proof.
  intros Htot Htrans. apply orderBy_sorted; unfold asc.
  - intros a b. apply Htot.
  - intros a b c. apply Htrans.
Qed.

(** ** Attendance reads *)

Lemma Z_leb_total (a b : Z) : Z.leb a b = false -> Z.leb b a = true.
Proof. intros H. apply Z.leb_gt in H. apply Z.leb_le. lia. Qed.

Lemma Z_leb_trans (a b c : Z) :
  Z.leb a b = true -> Z.leb b c = true -> Z.leb a c = true.
Proof. rewrite !Z.leb_le. lia. Qed.

(** X1. [getAttendanceByStudent] takes a start and an end date and does
    not use them: with or without a range it returns every attendance
    row of the student, each once per row of the table, latest date
    first. *)
Theorem getAttendanceByStudent_ignores_range (db : DB) (studentId : varchar)
    (startDate endDate : option timestamp) :
  getAttendanceByStudent db studentId startDate endDate
  = getAttendanceByStudent db studentId None None
  /\ Permutation (getAttendanceByStudent db studentId startDate endDate)
       (filter (fun a => sql_eq (Attendance.studentId a) studentId)
               db.(attendance))
  /\ (forall a, In a (getAttendanceByStudent db studentId startDate endDate)
        <-> In a db.(attendance) /\ Attendance.studentId a = Some studentId)
  /\ StronglySorted
       (fun a b => Attendance.date b <= Attendance.date a)
       (getAttendanceByStudent db studentId startDate endDate).
Proof.
  assert (E : getAttendanceByStudent db studentId startDate endDate
              = getAttendanceByStudent db studentId None None).
  { unfold getAttendanceByStudent.
    destruct startDate, endDate; reflexivity. }
  rewrite E. unfold getAttendanceByStudent.
  split; [reflexivity|]. split; [apply orderBy_perm|]. split.
  - intros a. rewrite in_orderBy, filter_In, sql_eq_true. tauto.
  - eapply StronglySorted_weaken.
    2:{ apply orderBy_sorted; unfold desc.
        - intros a b. apply Z_leb_total.
        - intros a b c Hab Hbc. exact (Z_leb_trans _ _ _ Hbc Hab). }
    intros a b H. unfold precedes, desc in H. now apply Z.leb_le.
Qed.

(** X2. [getAttendanceByClass] returns the attendance rows of the class
    whose date is exactly the given instant, ordered by the student key
    of the row ascending, rows without a student last. *)
Theorem getAttendanceByClass_rows (db : DB) (classId : varchar)
    (date : timestamp) :
  Permutation (getAttendanceByClass db classId date)
    (filter (fun a => sql_eq (Attendance.classId a) classId
                      && Z.eqb (Attendance.date a) date)
            db.(attendance))
  /\ (forall a, In a (getAttendanceByClass db classId date)
        <-> In a db.(attendance) /\ Attendance.classId a = Some classId
            /\ Attendance.date a = date)
  /\ StronglySorted
       (precedes (asc (null_largest_leb String.leb) Attendance.studentId))
       (getAttendanceByClass db classId date).
Proof.
  unfold getAttendanceByClass. split; [apply orderBy_perm|]. split.
  - intros a.
    rewrite in_orderBy, filter_In, andb_true_iff, sql_eq_true, Z.eqb_eq.
    tauto.
  - apply orderBy_asc_sorted.
    + apply null_largest_leb_total. exact string_leb_total.
    + apply null_largest_leb_trans. exact string_leb_trans.
Qed.

(** X3. [GET /api/attendance] never looks at the caller: whoever asks,
    a non-empty [studentId] is answered 200 with the whole attendance
    history of that student, [classId] and [date] being ignored; without
    [studentId], and without both [classId] and [date], the answer is
    200 with an empty list. *)
Theorem get_attendance_any_caller (Date_parse : string -> option timestamp)
    (db : DB) (user : ReqUser.t) (classId date : option string) :
  (forall sid, sid <> "" ->
     get_attendance Date_parse db user (Some sid) classId date
     = Sent 200 (getAttendanceByStudent db sid None None))
  /\ (if_truthy classId = None \/ if_truthy date = None ->
      get_attendance Date_parse db user None classId date = Sent 200 []
      /\ get_attendance Date_parse db user (Some "") classId date
         = Sent 200 [])
  /\ (forall cid d, cid <> "" -> d <> "" ->
      get_attendance Date_parse db user None (Some cid) (Some d)
      = match Date_parse d with
        | Some instant => Sent 200 (getAttendanceByClass db cid instant)
        | None => Failed 500 "Failed to fetch attendance"
        end).
Proof.
  split; [|split].
  - intros sid Hsid. unfold get_attendance, if_truthy, truthy.
    destruct (String.eqb sid "") eqn:E; [|reflexivity].
    apply String.eqb_eq in E. contradiction.
  - intros H. unfold get_attendance. simpl.
    destruct H as [-> | ->]; [|destruct (if_truthy classId)];
      split; reflexivity.
  - intros cid d Hc Hd. unfold get_attendance, if_truthy, truthy. simpl.
    destruct (String.eqb cid "") eqn:Ec;
      [apply String.eqb_eq in Ec; contradiction|].
    destruct (String.eqb d "") eqn:Ed;
      [apply String.eqb_eq in Ed; contradiction|].
    reflexivity.
Qed.

Lemma get_attendance_any_caller_witness :
  get_attendance (fun _ => None) Sample.db (Sample.caller Sample.newStudent)
    (Some "S") None (Some "2024-01-15")
  = Sent 200 (getAttendanceByStudent Sample.db "S" None None)
  /\ get_attendance (fun _ => None) Sample.db
       (Sample.caller Sample.newStudent) None (Some "C1") None
     = Sent 200 [].
Proof.
  destruct (get_attendance_any_caller (fun _ => None) Sample.db
              (Sample.caller Sample.newStudent) None (Some "2024-01-15"))
    as [H1 _].
  destruct (get_attendance_any_caller (fun _ => None) Sample.db
              (Sample.caller Sample.newStudent) (Some "C1") None)
    as [_ [H2 _]].
  split.
  - apply H1. discriminate.
  - apply H2. right. reflexivity.
Defined.

(** ** Assignments and grades through the join with [students] *)

(** X4. [getAssignmentsByStudent] returns the assignments whose class is
    the class of the student with that key, latest due date first: an
    assignment or a student without a class never matches, and for a
    key that no student has the result is empty. *)
Theorem getAssignmentsByStudent_rows (db : DB) (studentId : varchar) :
  (forall a, In a (getAssignmentsByStudent db studentId) <->
     In a db.(assignments)
     /\ exists st c, In st db.(students) /\ Student.id st = studentId
                     /\ Student.classId st = Some c
                     /\ Assignment.classId a = Some c)
  /\ newest_first Assignment.dueDate (getAssignmentsByStudent db studentId)
  /\ ((forall st, In st db.(students) ->
         Student.id st = studentId -> Student.classId st = None) ->
      getAssignmentsByStudent db studentId = []).
Proof.
  assert (Hin : forall a, In a (getAssignmentsByStudent db studentId) <->
     In a db.(assignments)
     /\ exists st c, In st db.(students) /\ Student.id st = studentId
                     /\ Student.classId st = Some c
                     /\ Assignment.classId a = Some c).
  { intros a. unfold getAssignmentsByStudent.
    rewrite in_orderBy, in_map_iff. split.
    - intros [[a' st] [Hfst Hp]]. simpl in Hfst. subst a'.
      apply filter_In in Hp. destruct Hp as [Hj Hc].
      apply in_innerJoin in Hj. destruct Hj as [Ha [Hst Hid]].
      simpl in Hc. apply String.eqb_eq in Hid.
      unfold sql_eq_cols in Hc.
      destruct (Assignment.classId a) as [c1|] eqn:E1; [|discriminate].
      destruct (Student.classId st) as [c2|] eqn:E2; [|discriminate].
      apply String.eqb_eq in Hc. subst c2.
      split; [assumption|]. exists st, c1. auto.
    - intros [Ha [st [c [Hst [Hid [Hsc Hac]]]]]].
      exists (a, st). split; [reflexivity|].
      apply filter_In. split.
      + apply in_innerJoin. repeat split; try assumption.
        now apply String.eqb_eq.
      + simpl. unfold sql_eq_cols. rewrite Hac, Hsc. apply String.eqb_refl. }
  split; [exact Hin|]. split.
  - apply orderBy_desc_ts_sorted.
  - intros Hnone.
    destruct (getAssignmentsByStudent db studentId) as [|a l] eqn:E;
      [reflexivity|].
    assert (Ha : In a (a :: l)) by now left.
    apply Hin in Ha. destruct Ha as [_ [st [c [Hst [Hid [Hsc _]]]]]].
    rewrite (Hnone st Hst Hid) in Hsc. discriminate.
Qed.

Lemma getAssignmentsByStudent_rows_witness :
  getAssignmentsByStudent Sample.db "nobody" = [].
Proof.
  apply (getAssignmentsByStudent_rows Sample.db "nobody").
  intros st [<-|[]]. discriminate.
Defined.

(** X5. For a term of the enum, [getGradesByClass] resolves to the
    grades of that subject and term whose student is in the class, in
    the order of the school-specific student code; a grade without a
    student, or of a student of another class, is not among them.  For
    any other term string the database refuses the query. *)
Theorem getGradesByClass_rows (db : DB) (classId subjectId : varchar)
    (term : string) :
  (In term termEnum ->
   exists pairs,
     getGradesByClass db classId subjectId term = Resolved (map fst pairs)
     /\ (forall g st, In (g, st) pairs <->
           In g db.(grades) /\ In st db.(students)
           /\ Grade.studentId g = Some (Student.id st)
           /\ Student.classId st = Some classId
           /\ Grade.subjectId g = Some subjectId
           /\ Grade.term g = term)
     /\ StronglySorted
          (precedes (asc String.leb (fun p => Student.studentId (snd p))))
          pairs)
  /\ (~ In term termEnum ->
      exists e, getGradesByClass db classId subjectId term = Rejected e).
Proof.
  split.
  - intros Hterm. unfold getGradesByClass.
    rewrite (proj2 (enum_ok_in termEnum term) Hterm). simpl.
    eexists. split; [reflexivity|]. split.
    + intros g st.
      rewrite in_orderBy, filter_In, in_innerJoin, !andb_true_iff,
        !sql_eq_true, String.eqb_eq.
      simpl. tauto.
    + apply orderBy_asc_sorted;
        [exact string_leb_total | exact string_leb_trans].
  - intros Hterm. unfold getGradesByClass.
    destruct (enum_ok termEnum term) eqn:E.
    + apply enum_ok_in in E. contradiction.
    + simpl. eauto.
Qed.

Lemma getGradesByClass_rows_witness :
  getGradesByClass Sample.db "C1" "Math" "first"
  = Resolved [Sample.gradeMath]
  /\ exists e, getGradesByClass Sample.db "C1" "Math" "1st" = Rejected e.
Proof.
  split; [reflexivity|].
  apply (getGradesByClass_rows Sample.db "C1" "Math" "1st").
  simpl. intros [H|[H|[H|[]]]]; discriminate.
Defined.

(** ** What a successful insert stores *)

Lemma createGrade_fields (db db' : DB) (fr : Fresh) (grade : InsertGrade.t)
    (r : Grade.t) :
  createGrade db fr grade = Resolved (db', r) ->
  In (InsertGrade.term grade) termEnum
  /\ r = Grade.mk fr.(gen_random_uuid)
           (InsertGrade.studentId grade) (InsertGrade.subjectId grade)
           (InsertGrade.teacherId grade)
           (InsertGrade.academicSessionId grade)
           (InsertGrade.term grade) (InsertGrade.assessmentType grade)
           (InsertGrade.score grade) (InsertGrade.maxScore grade)
           (column_value (InsertGrade.status grade) "draft")
           (InsertGrade.gradedAt grade) (Some fr.(now))
  /\ db' = set_grades db (db.(grades) ++ [r]).
Proof.
  unfold createGrade, require, bind.
  destruct (enum_ok termEnum (InsertGrade.term grade)) eqn:E;
    simpl; [|discriminate].
  apply enum_ok_in in E.
  repeat match goal with
         | |- context [if ?c then _ else _] => destruct c
         end; try discriminate.
  intros H. injection H as <- <-. auto.
Qed.

Lemma createAnnouncement_fields (db db' : DB) (fr : Fresh)
    (a : InsertAnnouncement.t) (r : Announcement.t) :
  createAnnouncement db fr a = Resolved (db', r) ->
  r = Announcement.mk fr.(gen_random_uuid)
        (InsertAnnouncement.title a) (InsertAnnouncement.content a)
        (InsertAnnouncement.authorId a) (InsertAnnouncement.schoolId a)
        (InsertAnnouncement.targetRole a)
        (column_value (InsertAnnouncement.priority a) "normal")
        (column_value (InsertAnnouncement.isActive a) true)
        (Some fr.(now))
  /\ db' = set_announcements db (db.(announcements) ++ [r]).
Proof.
  unfold createAnnouncement. split_checks; try discriminate.
  intros H. injection H as <- <-. auto.
Qed.

Lemma createMessage_fields (db db' : DB) (fr : Fresh) (m : InsertMessage.t)
    (r : Message.t) :
  createMessage db fr m = Resolved (db', r) ->
  r = Message.mk fr.(gen_random_uuid) (InsertMessage.senderId m)
        (InsertMessage.recipientId m) (InsertMessage.subject m)
        (InsertMessage.content m)
        (column_value (InsertMessage.isRead m) false) (Some fr.(now))
  /\ db' = set_messages db (db.(messages) ++ [r]).
Proof.
  unfold createMessage. split_checks; try discriminate.
  intros H. injection H as <- <-. auto.
Qed.

Lemma createAssignment_fields (db db' : DB) (fr : Fresh)
    (a : InsertAssignment.t) (r : Assignment.t) :
  createAssignment db fr a = Resolved (db', r) ->
  fk_ok Teacher.id db.(teachers) (InsertAssignment.teacherId a) = true
  /\ Assignment.teacherId r = InsertAssignment.teacherId a
  /\ db' = set_assignments db (db.(assignments) ++ [r]).
Proof.
  unfold createAssignment, require, bind.
  destruct (timestamp_value (InsertAssignment.dueDate a)); [|discriminate].
  destruct (InsertAssignment.title a); [|discriminate].
  destruct (decimal_fits 5 (InsertAssignment.maxScore a)); [|discriminate].
  destruct (pk_free _ _ _); [|discriminate].
  destruct (fk_ok Subject.id _ _); simpl; [|discriminate].
  destruct (fk_ok Class.id _ _); simpl; [|discriminate].
  destruct (fk_ok Teacher.id _ _); simpl; [|discriminate].
  intros H. injection H as <- <-. auto.
Qed.

(** ** Grades: insert, then read *)

(** X6. After [createGrade] has resolved for a grade of student [sid],
    the new row carries the key and the instant the database drew; its
    status is "draft" when the field was left out and the given value,
    null included, when it was given; the read of that student for the
    term of the grade returns the new row together with the rows it
    returned before; and no read for another student changes. *)
Theorem createGrade_then_read (db db' : DB) (fr : Fresh)
    (grade : InsertGrade.t) (r : Grade.t) (sid : varchar) :
  createGrade db fr grade = Resolved (db', r) ->
  InsertGrade.studentId grade = Some sid ->
  Grade.id r = fr.(gen_random_uuid)
  /\ Grade.createdAt r = Some fr.(now)
  /\ match InsertGrade.status grade with
     | Omitted => Grade.status r = Some "draft"
     | Given v => Grade.status r = v
     end
  /\ (exists before after,
        getGradesByStudent db sid (Some (InsertGrade.term grade))
        = Resolved before
        /\ getGradesByStudent db' sid (Some (InsertGrade.term grade))
           = Resolved after
        /\ Permutation after (r :: before)
        /\ newest_first Grade.createdAt after)
  /\ (forall other term, other <> sid ->
        getGradesByStudent db' other term = getGradesByStudent db other term).
Proof.
  intros Hc Hsid.
  destruct (createGrade_fields _ _ _ Hc) as [Hterm [Hr Hdb]].
  split; [rewrite Hr; reflexivity|].
  split; [rewrite Hr; reflexivity|].
  split.
  { rewrite Hr. simpl.
    destruct (InsertGrade.status grade); reflexivity. }
  split.
  - unfold getGradesByStudent.
    rewrite (truthy_enum_label termEnum _ Hterm).
    2:{ simpl. intros [H|[H|[H|[]]]]; discriminate. }
    rewrite (proj2 (enum_ok_in termEnum _) Hterm). simpl.
    do 2 eexists. split; [reflexivity|]. split; [reflexivity|]. split.
    + rewrite Hdb. simpl. rewrite filter_app. simpl.
      assert (Hkeep : sql_eq (Grade.studentId r) sid
                      && String.eqb (Grade.term r) (InsertGrade.term grade)
                      = true).
      { rewrite Hr. simpl. rewrite Hsid. simpl.
        now rewrite !String.eqb_refl. }
      rewrite Hkeep.
      eapply Permutation_trans; [apply orderBy_perm|].
      eapply Permutation_trans;
        [apply Permutation_sym, Permutation_cons_append|].
      apply perm_skip, Permutation_sym, orderBy_perm.
    + apply orderBy_desc_ts_sorted.
  - intros other term Hother.
    assert (Hdrop : sql_eq (Grade.studentId r) other = false).
    { rewrite Hr. simpl. rewrite Hsid. simpl.
      destruct (String.eqb sid other) eqn:E; [|reflexivity].
      apply String.eqb_eq in E. congruence. }
    unfold getGradesByStudent. rewrite Hdb.
    destruct (if_truthy term) as [t|]; simpl;
      rewrite filter_app; simpl; rewrite Hdrop; simpl;
      now rewrite app_nil_r.
Qed.

Lemma createGrade_then_read_witness :
  (exists db' r,
     createGrade Sample.db Sample.fresh1 Sample2.chemistrySecondTerm
     = Resolved (db', r)
     /\ Grade.status r = Some "draft"
     /\ getGradesByStudent db' "S" (Some "second")
        = Resolved [r; Sample.gradeSecondTerm])
  /\ (exists db' r,
        createGrade Sample.db Sample.fresh1 Sample5.chemistryNullStatus
        = Resolved (db', r)
        /\ Grade.status r = None).
Proof.
  split.
  - do 2 eexists. split; [reflexivity|].
    split.
    + exact (proj1 (proj2 (proj2
        (@createGrade_then_read Sample.db _ Sample.fresh1
           Sample2.chemistrySecondTerm _ "S" eq_refl eq_refl)))).
    + reflexivity.
  - do 2 eexists. split; [reflexivity|].
    exact (proj1 (proj2 (proj2
      (@createGrade_then_read Sample.db _ Sample.fresh1
         Sample5.chemistryNullStatus _ "S" eq_refl eq_refl)))).
Defined.

(** ** The write routes write one row or nothing *)

Section WriteRoutes.

Variable Body : Type.
Variable parseGrade : Body -> Promise InsertGrade.t.
Variable parseAnnouncement :
  Body -> varchar -> varchar -> Promise InsertAnnouncement.t.
Variable parseMessage : Body -> varchar -> Promise InsertMessage.t.

Lemma post_grades_outcome (db : DB) (fr : Fresh) (user : ReqUser.t)
    (body : Body) :
  (exists g,
     post_grades parseGrade db fr user body
     = (set_grades db (db.(grades) ++ [g]), mkResponse 201 (JGrade g)))
  \/ (fst (post_grades parseGrade db fr user body) = db
      /\ status (snd (post_grades parseGrade db fr user body)) <> 201).
Proof.
  unfold post_grades.
  destruct (negb _); [right; split; [reflexivity | discriminate]|].
  destruct (parseGrade body) as [g|e]; simpl;
    [|right; split; [reflexivity | discriminate]].
  destruct (createGrade db fr g) as [[db' r]|e] eqn:E;
    [|right; split; [reflexivity | discriminate]].
  destruct (createGrade_fields _ _ _ E) as [_ [_ ->]].
  left. now exists r.
Qed.

Lemma post_announcements_outcome (db : DB) (fr : Fresh) (user : ReqUser.t)
    (body : Body) :
  (exists a,
     post_announcements parseAnnouncement db fr user body
     = (set_announcements db (db.(announcements) ++ [a]),
        mkResponse 201 (JAnnouncement a)))
  \/ (fst (post_announcements parseAnnouncement db fr user body) = db
      /\ status (snd (post_announcements parseAnnouncement db fr user body))
         <> 201).
Proof.
  unfold post_announcements.
  destruct (ReqUser.claims user) as [c|];
    [|right; split; [reflexivity | discriminate]].
  destruct (getUser db (sub c)) as [u|];
    [|right; split; [reflexivity | discriminate]].
  destruct (negb _); [right; split; [reflexivity | discriminate]|].
  destruct (getSchoolByUser db (sub c)) as [s|];
    [|right; split; [reflexivity | discriminate]].
  destruct (parseAnnouncement body (sub c) (School.id s)) as [a|e]; simpl;
    [|right; split; [reflexivity | discriminate]].
  destruct (createAnnouncement db fr a) as [[db' r]|e] eqn:E;
    [|right; split; [reflexivity | discriminate]].
  destruct (createAnnouncement_fields _ _ _ E) as [_ ->].
  left. now exists r.
Qed.

Lemma post_messages_outcome (db : DB) (fr : Fresh) (user : ReqUser.t)
    (body : Body) :
  (exists m,
     post_messages parseMessage db fr user body
     = (set_messages db (db.(messages) ++ [m]), Sent 201 m))
  \/ (fst (post_messages parseMessage db fr user body) = db
      /\ answer_code (snd (post_messages parseMessage db fr user body))
         <> 201).
Proof.
  unfold post_messages.
  destruct (parseMessage body (ReqUser.id user)) as [m|e]; simpl;
    [|right; split; [reflexivity | discriminate]].
  destruct (createMessage db fr m) as [[db' r]|e] eqn:E;
    [|right; split; [reflexivity | discriminate]].
  destruct (createMessage_fields _ _ _ E) as [_ ->].
  left. now exists r.
Qed.

Lemma post_assignments_outcome (db : DB) (fr : Fresh) (user : ReqUser.t)
    (body : InsertAssignment.t) :
  (exists a,
     post_assignments db fr user body
     = (set_assignments db (db.(assignments) ++ [a]), Sent 201 a))
  \/ (fst (post_assignments db fr user body) = db
      /\ answer_code (snd (post_assignments db fr user body)) <> 201).
Proof.
  unfold post_assignments.
  destruct (negb _); [right; split; [reflexivity | discriminate]|].
  match goal with
  | |- context [createAssignment db fr ?v] =>
    destruct (createAssignment db fr v) as [[db' r]|e] eqn:E
  end; [|right; split; [reflexivity | discriminate]].
  destruct (createAssignment_fields _ _ _ E) as [_ [_ ->]].
  left. now exists r.
Qed.

(** X7. The routes that create a grade, an announcement, a message or
    an assignment either answer 201 with the new row, and the store is
    the old one with exactly that row appended to its table, or answer
    something else and leave the store as it was. *)
Theorem write_routes_one_row_or_nothing (db : DB) (fr : Fresh)
    (user : ReqUser.t) (body : Body) (assignment : InsertAssignment.t) :
  ((exists g,
      post_grades parseGrade db fr user body
      = (set_grades db (db.(grades) ++ [g]), mkResponse 201 (JGrade g)))
   \/ (fst (post_grades parseGrade db fr user body) = db
       /\ status (snd (post_grades parseGrade db fr user body)) <> 201))
  /\ ((exists a,
         post_announcements parseAnnouncement db fr user body
         = (set_announcements db (db.(announcements) ++ [a]),
            mkResponse 201 (JAnnouncement a)))
      \/ (fst (post_announcements parseAnnouncement db fr user body) = db
          /\ status (snd (post_announcements parseAnnouncement db fr user
                            body)) <> 201))
  /\ ((exists m,
         post_messages parseMessage db fr user body
         = (set_messages db (db.(messages) ++ [m]), Sent 201 m))
      \/ (fst (post_messages parseMessage db fr user body) = db
          /\ answer_code (snd (post_messages parseMessage db fr user body))
             <> 201))
  /\ ((exists a,
         post_assignments db fr user assignment
         = (set_assignments db (db.(assignments) ++ [a]), Sent 201 a))
      \/ (fst (post_assignments db fr user assignment) = db
          /\ answer_code (snd (post_assignments db fr user assignment))
             <> 201)).
Proof.
  split; [apply post_grades_outcome|].
  split; [apply post_announcements_outcome|].
  split; [apply post_messages_outcome | apply post_assignments_outcome].
Qed.

End WriteRoutes.

(** ** Announcements: insert, then read *)

(** X8. After [createAnnouncement] has resolved for an announcement of
    school [schoolId], the read of that school without a role lists the
    new row exactly when [isActive] was left out (the column default is
    true) or given as true, and not when it was given as false or as
    null; the read with a role lists it exactly when, in addition, its
    target role is that role. *)
Theorem createAnnouncement_then_read (db db' : DB) (fr : Fresh)
    (a : InsertAnnouncement.t) (r : Announcement.t) (schoolId : varchar) :
  createAnnouncement db fr a = Resolved (db', r) ->
  InsertAnnouncement.schoolId a = Some schoolId ->
  (exists rows,
     getAnnouncementsBySchool db' schoolId None = Resolved rows
     /\ (In r rows <->
         InsertAnnouncement.isActive a = Omitted
         \/ InsertAnnouncement.isActive a = Given (Some true)))
  /\ (forall role, In role userRoleEnum ->
      exists rows,
        getAnnouncementsBySchool db' schoolId (Some role) = Resolved rows
        /\ (In r rows <->
            (InsertAnnouncement.isActive a = Omitted
             \/ InsertAnnouncement.isActive a = Given (Some true))
            /\ InsertAnnouncement.targetRole a = Some role)).
Proof.
  intros Hc Hschool.
  destruct (createAnnouncement_fields _ _ _ Hc) as [Hr Hdb].
  assert (Hlast : In r db'.(announcements)).
  { rewrite Hdb. simpl. apply in_or_app. right. now left. }
  assert (Hs : Announcement.schoolId r = Some schoolId)
    by (rewrite Hr; exact Hschool).
  assert (Hact : Announcement.isActive r = Some true <->
                 InsertAnnouncement.isActive a = Omitted
                 \/ InsertAnnouncement.isActive a = Given (Some true)).
  { rewrite Hr. simpl.
    destruct (InsertAnnouncement.isActive a) as [|[[|]|]]; simpl; split;
      try (intros [H|H]); try discriminate; auto. }
  assert (Ht : Announcement.targetRole r = InsertAnnouncement.targetRole a)
    by (rewrite Hr; reflexivity).
  split.
  - eexists. split; [reflexivity|].
    rewrite in_orderBy, filter_In, andb_true_iff, sql_eq_true,
      sql_eq_bool_true.
    tauto.
  - intros role Hrole.
    destruct (getAnnouncementsBySchool_role_rows db' schoolId Hrole)
      as [rows [Hrows [Hin _]]].
    exists rows. split; [exact Hrows|].
    rewrite Hin, Ht. tauto.
Qed.

Lemma createAnnouncement_then_read_witness :
  (exists db' r rows,
     createAnnouncement Sample.db Sample.fresh1 Sample5.sportsDay
     = Resolved (db', r)
     /\ getAnnouncementsBySchool db' "X" None = Resolved rows
     /\ In r rows)
  /\ (exists db' r rows,
        createAnnouncement Sample.db Sample.fresh1 Sample5.sportsDayNull
        = Resolved (db', r)
        /\ getAnnouncementsBySchool db' "X" None = Resolved rows
        /\ ~ In r rows).
Proof.
  split.
  - destruct (createAnnouncement Sample.db Sample.fresh1 Sample5.sportsDay)
      as [[db' r]|e] eqn:E; [|discriminate E].
    destruct (@createAnnouncement_then_read Sample.db db' Sample.fresh1
                Sample5.sportsDay r "X" E eq_refl) as [[rows [H1 H2]] _].
    exists db', r, rows. split; [reflexivity|]. split; [exact H1|].
    apply H2. now left.
  - destruct (createAnnouncement Sample.db Sample.fresh1
                Sample5.sportsDayNull) as [[db' r]|e] eqn:E;
      [|discriminate E].
    destruct (@createAnnouncement_then_read Sample.db db' Sample.fresh1
                Sample5.sportsDayNull r "X" E eq_refl)
      as [[rows [H1 H2]] _].
    exists db', r, rows. split; [reflexivity|]. split; [exact H1|].
    intros Hin. apply H2 in Hin. destruct Hin as [H|H]; discriminate H.
Defined.

(** ** Report cards: generate, then list *)



(** ** The dashboard, role by role *)

Arguments orderBy : simpl never.

(** X10. [GET /api/dashboard] answers 404 exactly when the identity of
    the caller is not in [users] and 200 in every other case: none of
    the reads it makes can fail. *)
Theorem get_dashboard_status (db : DB) (user : ReqUser.t) :
  status (snd (get_dashboard db user))
  = match getUser db (ReqUser.id user) with
    | None => 404
    | Some _ => 200
    end.
Proof.
  unfold get_dashboard.
  destruct (getUser db (ReqUser.id user)) as [u|]; [|reflexivity].
  destruct (String.eqb (User.role u) "student").
  { destruct (getStudentByUserId db (ReqUser.id user)); reflexivity. }
  destruct (String.eqb (User.role u) "teacher").
  { destruct (getTeacherByUserId db (ReqUser.id user)),
      (getSchoolByUser db (ReqUser.id user)); reflexivity. }
  destruct (String.eqb (User.role u) "principal"
            || String.eqb (User.role u) "proprietor"); [|reflexivity].
  destruct (getSchoolByUser db (ReqUser.id user)); reflexivity.
Qed.

(** X11. For a student with a profile the dashboard carries the
    profile and the grades of the first term of that student, draft or
    published alike and of no other term, newest first, and the
    messages addressed to the caller; it carries none of the sections of
    the staff. *)
Theorem get_dashboard_student_sections (db : DB) (user : ReqUser.t)
    (u : User.t) (st : Student.t) :
  getUser db (ReqUser.id user) = Some u ->
  User.role u = "student" ->
  getStudentByUserId db (ReqUser.id user) = Some st ->
  exists d gs ms,
    snd (get_dashboard db user) = mkResponse 200 (JDashboard d)
    /\ Dashboard.user d = u
    /\ Dashboard.school d = getSchoolByUser db (ReqUser.id user)
    /\ Dashboard.student d = Some st
    /\ Dashboard.grades d = Some gs
    /\ (forall g, In g gs <->
          In g db.(grades) /\ Grade.studentId g = Some (Student.id st)
          /\ Grade.term g = "first")
    /\ newest_first Grade.createdAt gs
    /\ Dashboard.messages d = Some ms
    /\ (forall m, In m ms <->
          In m db.(messages)
          /\ Message.recipientId m = Some (ReqUser.id user))
    /\ Dashboard.teacher d = None /\ Dashboard.classes d = None
    /\ Dashboard.teachers d = None /\ Dashboard.announcements d = None.
Proof.
  intros Hu Hrole Hst. unfold get_dashboard. rewrite Hu, Hrole. simpl.
  rewrite Hst. simpl.
  do 3 eexists. split; [reflexivity|]. simpl.
  do 4 (split; [reflexivity|]).
  split.
  { intros g.
    rewrite in_orderBy, filter_In, andb_true_iff, sql_eq_true, String.eqb_eq.
    tauto. }
  split; [apply orderBy_desc_ts_sorted|].
  split; [reflexivity|].
  split.
  { intros m. unfold getMessagesByUser.
    rewrite in_orderBy, filter_In, sql_eq_true. tauto. }
  repeat split.
Qed.

Lemma get_dashboard_student_sections_witness :
  exists d,
    snd (get_dashboard Sample.db (Sample.caller Sample.studentUser))
    = mkResponse 200 (JDashboard d)
    /\ Dashboard.grades d = Some [Sample.gradeChemistry; Sample.gradeMath].
Proof.
  destruct (@get_dashboard_student_sections Sample.db
              (Sample.caller Sample.studentUser) Sample.studentUser
              Sample.studentS eq_refl eq_refl eq_refl)
    as [d [gs [ms [Hd _]]]].
  exists d. split; [exact Hd|].
  simpl in Hd. injection Hd as <-. reflexivity.
Defined.



(** X13. A principal or proprietor whose school is resolved gets the
    classes, teachers and subjects of that school and its active
    announcements whatever their target role, newest first; inactive
    announcements and those of other schools are left out. *)
Theorem get_dashboard_admin_sections (db : DB) (user : ReqUser.t)
    (u : User.t) (school : School.t) :
  getUser db (ReqUser.id user) = Some u ->
  User.role u = "principal" \/ User.role u = "proprietor" ->
  getSchoolByUser db (ReqUser.id user) = Some school ->
  exists d anns,
    snd (get_dashboard db user) = mkResponse 200 (JDashboard d)
    /\ Dashboard.school d = Some school
    /\ Dashboard.announcements d = Some anns
    /\ (forall a, In a anns <->
          In a db.(announcements)
          /\ Announcement.schoolId a = Some (School.id school)
          /\ Announcement.isActive a = Some true)
    /\ newest_first Announcement.createdAt anns
    /\ Dashboard.classes d = Some (getClassesBySchool db (School.id school))
    /\ Dashboard.teachers d
       = Some (getTeachersBySchool db (School.id school))
    /\ Dashboard.subjects d
       = Some (getSubjectsBySchool db (School.id school))
    /\ Dashboard.student d = None /\ Dashboard.grades d = None.
Proof.
  intros Hu Hrole Hschool. unfold get_dashboard. rewrite Hu, Hschool.
  destruct Hrole as [-> | ->]; simpl;
    (do 2 eexists; split; [reflexivity|]; simpl;
     do 2 (split; [reflexivity|]);
     split;
     [ intros a;
       rewrite in_orderBy, filter_In, andb_true_iff, sql_eq_true,
         sql_eq_bool_true; tauto
     | split; [apply orderBy_desc_ts_sorted | repeat split] ]).
Qed.

Lemma get_dashboard_admin_sections_witness :
  exists d,
    snd (get_dashboard Sample.db (Sample.caller Sample.principal))
    = mkResponse 200 (JDashboard d)
    /\ Dashboard.announcements d
       = Some [Sample.forEveryone; Sample.forTeachers].
Proof.
  destruct (@get_dashboard_admin_sections Sample.db
              (Sample.caller Sample.principal) Sample.principal
              Sample.schoolX eq_refl (or_introl eq_refl) eq_refl)
    as [d [anns [Hd _]]].
  exists d. split; [exact Hd|].
  simpl in Hd. injection Hd as <-. reflexivity.
Defined.

(** ** Users and profiles: insert, then look up *)

Lemma createUser_fields (db db' : DB) (fr : Fresh) (d : InsertUser.t)
    (u : User.t) :
  createUser db fr d = Resolved (db', u) ->
  pk_free User.id db.(users) fr.(gen_random_uuid) = true
  /\ pk_free User.email db.(users) (InsertUser.email d) = true
  /\ u = User.mk fr.(gen_random_uuid) (InsertUser.email d)
           (InsertUser.password d) (InsertUser.firstName d)
           (InsertUser.lastName d) (InsertUser.profileImageUrl d)
           (InsertUser.role d) (column_value (InsertUser.isActive d) true)
           (Some fr.(now)) (Some fr.(now))
  /\ db' = set_users db (db.(users) ++ [u]).
Proof.
  unfold createUser, require, bind.
  destruct (enum_ok userRoleEnum (InsertUser.role d)); [|discriminate].
  destruct (pk_free User.id _ _) eqn:E1; [|discriminate].
  destruct (pk_free User.email _ _) eqn:E2; [|discriminate].
  intros H. injection H as <- <-. auto.
Qed.

Lemma pk_free_no_row (A : Type) (id : A -> varchar) (rows : list A)
    (k : varchar) :
  pk_free id rows k = true ->
  first_row (filter (fun r => String.eqb (id r) k) rows) = None.
Proof.
  unfold pk_free. rewrite negb_true_iff. intros H.
  apply first_row_filter_none. intros x Hx.
  destruct (String.eqb (id x) k) eqn:E; [|reflexivity].
  assert (Hex : existsb (fun r => String.eqb (id r) k) rows = true)
    by (apply existsb_exists; eauto).
  congruence.
Qed.

Lemma pk_taken (A : Type) (id : A -> varchar) (rows : list A) (r : A) :
  In r rows -> pk_free id rows (id r) = false.
Proof.
  intros H. unfold pk_free. apply negb_false_iff, existsb_exists.
  exists r. split; [assumption | apply String.eqb_refl].
Qed.

(** X14. After [createUser] has resolved, the new identity is the one
    found under its email and under its key, the email was not in use
    before, and the lookups under any other email or key answer as
    before; an email that is in use is refused. *)
Theorem createUser_then_lookup (db : DB) (fr : Fresh) (d : InsertUser.t) :
  (forall db' u, createUser db fr d = Resolved (db', u) ->
     getUserByEmail db' (InsertUser.email d) = Some u
     /\ getUser db' (User.id u) = Some u
     /\ getUserByEmail db (InsertUser.email d) = None
     /\ (forall e, e <> InsertUser.email d ->
           getUserByEmail db' e = getUserByEmail db e)
     /\ (forall k, k <> User.id u -> getUser db' k = getUser db k))
  /\ (forall v, In v db.(users) -> User.email v = InsertUser.email d ->
      exists e, createUser db fr d = Rejected e).
Proof.
  split.
  - intros db' u Hc.
    destruct (createUser_fields _ _ _ Hc) as [Hid [Hemail [Hu Hdb]]].
    assert (Eid : User.id u = fr.(gen_random_uuid)) by (rewrite Hu; reflexivity).
    assert (Eem : User.email u = InsertUser.email d)
      by (rewrite Hu; reflexivity).
    unfold getUserByEmail, getUser. rewrite Hdb. simpl.
    rewrite !first_row_filter_app.
    split; [|split; [|split; [|split]]].
    + rewrite (pk_free_no_row _ _ _ Hemail), Eem.
      now rewrite String.eqb_refl.
    + rewrite Eid, (pk_free_no_row _ _ _ Hid).
      now rewrite String.eqb_refl.
    + apply (pk_free_no_row _ _ _ Hemail).
    + intros e He. rewrite first_row_filter_app, Eem.
      destruct (String.eqb (InsertUser.email d) e) eqn:E.
      * apply String.eqb_eq in E. congruence.
      * now destruct (first_row _).
    + intros k Hk. rewrite first_row_filter_app.
      destruct (String.eqb (User.id u) k) eqn:E.
      * apply String.eqb_eq in E. congruence.
      * now destruct (first_row _).
  - intros v Hv Hemail. unfold createUser, require, bind.
    destruct (enum_ok userRoleEnum (InsertUser.role d)); [|eauto].
    destruct (pk_free User.id _ _); [|eauto].
    rewrite <- Hemail, (pk_taken User.email _ _ Hv). eauto.
Qed.

Lemma createUser_then_lookup_witness :
  exists e,
    createUser Sample.db Sample.fresh1
      (InsertUser.mk "ada@student.com" "h" None None None "parent" Omitted)
    = Rejected e.
Proof.
  apply (proj2 (createUser_then_lookup Sample.db Sample.fresh1
                  (InsertUser.mk "ada@student.com" "h" None None None
                                 "parent" Omitted))
               Sample.studentUser).
  - simpl. auto.
  - reflexivity.
Defined.

Lemma createStudent_fields (db db' : DB) (fr : Fresh) (s : InsertStudent.t)
    (st : Student.t) :
  createStudent db fr s = Resolved (db', st) ->
  Student.userId st = InsertStudent.userId s
  /\ db' = set_students db (db.(students) ++ [st]).
Proof.
  unfold createStudent. split_checks; try discriminate.
  intros H. injection H as <- <-. auto.
Qed.

(** X15. [students.userId] is not unique and [getStudentByUserId] takes
    the first row: after [createStudent] has resolved for an identity,
    the profile found for that identity is the one it had before, if it
    had one, and the new one otherwise; the profiles found for other
    identities do not change. *)
Theorem createStudent_first_profile_wins (db db' : DB) (fr : Fresh)
    (s : InsertStudent.t) (st : Student.t) (u : varchar) :
  createStudent db fr s = Resolved (db', st) ->
  InsertStudent.userId s = Some u ->
  getStudentByUserId db' u
  = match getStudentByUserId db u with
    | Some old => Some old
    | None => Some st
    end
  /\ (forall other, other <> u ->
        getStudentByUserId db' other = getStudentByUserId db other).
Proof.
  intros Hc Hu. destruct (createStudent_fields _ _ _ Hc) as [Hst Hdb].
  unfold getStudentByUserId. rewrite Hdb. simpl. split.
  - rewrite first_row_filter_app, Hst, Hu. simpl.
    now rewrite String.eqb_refl.
  - intros other Hother. rewrite first_row_filter_app, Hst, Hu. simpl.
    destruct (String.eqb u other) eqn:E.
    + apply String.eqb_eq in E. congruence.
    + now destruct (first_row _).
Qed.

Lemma createStudent_first_profile_wins_witness :
  exists db' st,
    createStudent Sample.db Sample.fresh1 Sample3.secondProfile
    = Resolved (db', st)
    /\ In st db'.(students)
    /\ getStudentByUserId db' "u-stud" = Some Sample.studentS.
Proof.
  destruct (createStudent Sample.db Sample.fresh1 Sample3.secondProfile)
    as [[db' st]|e] eqn:E; [|discriminate E].
  destruct (@createStudent_first_profile_wins Sample.db db' Sample.fresh1
              Sample3.secondProfile st "u-stud" E eq_refl) as [H _].
  exists db', st. split; [reflexivity|]. split; [|exact H].
  injection E as <- <-. simpl. auto.
Defined.

(** ** Updating an attendance row *)

Lemma set_attendance_same (db : DB) : set_attendance db db.(attendance) = db.
Proof. now destruct db. Qed.

Lemma updateAttendance_rows (db db' : DB) (id : varchar)
    (p : PartialAttendance.t) (r : option Attendance.t) :
  updateAttendance db id p = Resolved (db', r) ->
  db' = set_attendance db
          (update_where (fun a => String.eqb (Attendance.id a) id)
             (apply_partial p) db.(attendance))
  /\ r = first_row
           (map (apply_partial p)
              (filter (fun a => String.eqb (Attendance.id a) id)
                 db.(attendance))).
Proof.
  unfold updateAttendance, require, bind. intros H.
  open_checks H. injection H as <- <-. auto.
Qed.

(** X16. A resolved [updateAttendance] neither adds nor removes a row:
    the table holds as many rows as before, with the same keys and
    [createdAt] values, in an order that may have changed; the rows with
    another key are the ones that were there; every row with the key is
    there with the given fields set; the result, when there is one, is a
    row of the table with the key; and when no row has the key, the
    store is unchanged and the result is [undefined]. *)
Theorem updateAttendance_keeps_rows (db db' : DB) (id : varchar)
    (p : PartialAttendance.t) (r : option Attendance.t) :
  updateAttendance db id p = Resolved (db', r) ->
  List.length db'.(attendance) = List.length db.(attendance)
  /\ Permutation
       (map (fun a => (Attendance.id a, Attendance.createdAt a))
            db'.(attendance))
       (map (fun a => (Attendance.id a, Attendance.createdAt a))
            db.(attendance))
  /\ Permutation
       (filter (fun a => negb (String.eqb (Attendance.id a) id))
               db'.(attendance))
       (filter (fun a => negb (String.eqb (Attendance.id a) id))
               db.(attendance))
  /\ (forall a, In a db.(attendance) -> Attendance.id a = id ->
      In (apply_partial p a) db'.(attendance))
  /\ (forall x, r = Some x ->
      Attendance.id x = id /\ In x db'.(attendance))
  /\ ((forall a, In a db.(attendance) -> Attendance.id a <> id) ->
      db' = db /\ r = None).
Proof.
  intros Hu. destruct (updateAttendance_rows _ _ _ Hu) as [Hdb Hr].
  assert (Hatt : db'.(attendance)
                 = update_where (fun a => String.eqb (Attendance.id a) id)
                     (apply_partial p) db.(attendance))
    by (rewrite Hdb; now destruct db).
  rewrite Hatt. split; [|split; [|split; [|split; [|split]]]].
  - apply update_where_length.
  - apply update_where_keys. intros a. reflexivity.
  - rewrite update_where_untouched; [apply Permutation_refl|].
    intros a. reflexivity.
  - intros a Ha Hid. apply in_update_where. right. exists a.
    split; [exact Ha|]. split; [|reflexivity].
    now apply String.eqb_eq.
  - intros x Hx. rewrite Hx in Hr. symmetry in Hr.
    apply first_row_in, in_map_iff in Hr.
    destruct Hr as [a [Hset Ha]]. apply filter_In in Ha.
    destruct Ha as [Ha Hhit]. split.
    + rewrite <- Hset. simpl. now apply String.eqb_eq.
    + apply in_update_where. right. exists a. auto.
  - intros Hno.
    assert (Hmiss : forall a, In a db.(attendance) ->
                      String.eqb (Attendance.id a) id = false).
    { intros a Ha. apply String.eqb_neq. now apply Hno. }
    split.
    + rewrite Hdb, (update_where_none _ _ _ Hmiss).
      apply set_attendance_same.
    + rewrite Hr.
      rewrite (proj2 (first_row_filter_none _ _) Hmiss) || idtac.
      destruct (filter _ _) as [|a l] eqn:E; [reflexivity|].
      assert (Hin : In a (filter (fun a => String.eqb (Attendance.id a) id)
                            db.(attendance)))
        by (rewrite E; now left).
      apply filter_In in Hin. destruct Hin as [Ha Hhit].
      rewrite (Hmiss a Ha) in Hhit. discriminate Hhit.
Qed.

Lemma updateAttendance_keeps_rows_witness :
  exists db' r,
    updateAttendance Sample3.withAttendance "att-1" Sample3.markAbsent
    = Resolved (db', r)
    /\ List.length db'.(attendance) = 2%nat
    /\ Permutation
         (map (fun a => (Attendance.id a, Attendance.createdAt a))
              db'.(attendance))
         [("att-1", Some (Sample.t0 + 60)); ("att-2", Some (Sample.t0 + 95))]
    /\ In (apply_partial Sample3.markAbsent Sample3.monday) db'.(attendance)
    /\ option_map Attendance.status r = Some "absent".
Proof.
  destruct (updateAttendance Sample3.withAttendance "att-1"
              Sample3.markAbsent) as [[db' r]|e] eqn:E; [|discriminate E].
  destruct (@updateAttendance_keeps_rows Sample3.withAttendance db' "att-1"
              Sample3.markAbsent r E) as [Hlen [Hkeys [_ [Hset _]]]].
  exists db', r. split; [reflexivity|]. split; [exact Hlen|].
  split; [exact Hkeys|]. split.
  - apply (Hset Sample3.monday); [simpl; auto | reflexivity].
  - injection E as <- <-. reflexivity.
Defined.

(** ** Messages *)

Lemma mark_read_twice (id : varchar) (m : Message.t) :
  mark_read id (mark_read id m) = mark_read id m.
Proof.
  unfold mark_read.
  destruct (String.eqb (Message.id m) id) eqn:E; simpl; now rewrite E.
Qed.

(** X17. Marking a message as read changes neither which messages a
    user finds in the inbox nor that they come newest first: the inbox
    afterwards holds the messages of the inbox before, in some order,
    with the flag of the message with that key set and nothing else
    changed; every message with the key is flagged as read; a message
    with another key stays as it is; and marking again leaves the same
    messages. *)
Theorem markMessageAsRead_inbox (db : DB) (id userId : varchar) :
  Permutation (getMessagesByUser (markMessageAsRead db id) userId)
              (map (mark_read id) (getMessagesByUser db userId))
  /\ newest_first Message.createdAt
       (getMessagesByUser (markMessageAsRead db id) userId)
  /\ (forall m, In m (markMessageAsRead db id).(messages) ->
        Message.id m = id -> Message.isRead m = Some true)
  /\ (forall m, Message.id m <> id ->
        (In m (markMessageAsRead db id).(messages) <-> In m db.(messages)))
  /\ Permutation (markMessageAsRead (markMessageAsRead db id) id).(messages)
                 (markMessageAsRead db id).(messages).
Proof.
  assert (Hmsgs : forall d, (markMessageAsRead d id).(messages)
                    = update_where (fun m => String.eqb (Message.id m) id)
                        (mark_read id) d.(messages))
    by (intros d; now destruct d).
  assert (Hperm : forall d,
             Permutation (markMessageAsRead d id).(messages)
                         (map (mark_read id) d.(messages))).
  { intros d. rewrite Hmsgs.
    eapply Permutation_trans; [apply update_where_perm|].
    erewrite map_ext; [apply Permutation_refl|].
    intros m. cbv beta. unfold mark_read.
    now destruct (String.eqb (Message.id m) id). }
  assert (Hrecipient : forall m,
             sql_eq (Message.recipientId (mark_read id m)) userId
             = sql_eq (Message.recipientId m) userId).
  { intros m. unfold mark_read.
    now destruct (String.eqb (Message.id m) id). }
  split; [|split; [|split; [|split]]].
  - unfold getMessagesByUser.
    eapply Permutation_trans; [apply orderBy_perm|].
    eapply Permutation_trans;
      [|apply Permutation_map, Permutation_sym, orderBy_perm].
    rewrite <- (filter_map_commute _ _ _ Hrecipient).
    apply filter_perm, Hperm.
  - apply orderBy_desc_ts_sorted.
  - rewrite Hmsgs. intros m Hm Hid. apply in_update_where in Hm.
    destruct Hm as [[_ Hmiss] | [m0 [_ [Hhit <-]]]].
    + apply String.eqb_neq in Hmiss. contradiction.
    + unfold mark_read. now rewrite Hhit.
  - rewrite Hmsgs. intros m Hid. rewrite in_update_where. split.
    + intros [[Hm _] | [m0 [_ [Hhit Hset]]]]; [exact Hm|].
      exfalso. apply Hid. rewrite <- Hset. unfold mark_read.
      rewrite Hhit. simpl. now apply String.eqb_eq.
    + intros Hm. left. split; [exact Hm|]. now apply String.eqb_neq.
  - eapply Permutation_trans; [apply Hperm|].
    eapply Permutation_trans; [apply Permutation_map, Hperm|].
    rewrite map_map.
    erewrite map_ext; [apply Permutation_sym, Hperm|].
    intros m. apply mark_read_twice.
Qed.

(** X18. [GET /api/messages] answers with the messages addressed to the
    caller, newest first, and [getConversation] returns the messages of
    one direction only, oldest first: what one identity sent the other,
    never the replies. *)
Theorem messages_inbox_and_conversation (db : DB) (user : ReqUser.t)
    (senderId recipientId : varchar) :
  (exists rows,
     get_messages db user = Sent 200 rows
     /\ (forall m, In m rows <->
           In m db.(messages)
           /\ Message.recipientId m = Some (ReqUser.id user))
     /\ newest_first Message.createdAt rows)
  /\ (forall m, In m (getConversation db senderId recipientId) <->
        In m db.(messages) /\ Message.senderId m = Some senderId
        /\ Message.recipientId m = Some recipientId)
  /\ StronglySorted (precedes (asc ts_leb Message.createdAt))
       (getConversation db senderId recipientId)
  /\ (senderId <> recipientId ->
      forall m, In m (getConversation db senderId recipientId) ->
                ~ In m (getConversation db recipientId senderId)).
Proof.
  assert (Hin : forall s r m, In m (getConversation db s r) <->
            In m db.(messages) /\ Message.senderId m = Some s
            /\ Message.recipientId m = Some r).
  { intros s r m. unfold getConversation.
    rewrite in_orderBy, filter_In, andb_true_iff, !sql_eq_true. tauto. }
  split; [|split; [|split]].
  - eexists. split; [reflexivity|]. split.
    + intros m. unfold getMessagesByUser.
      rewrite in_orderBy, filter_In, sql_eq_true. tauto.
    + apply orderBy_desc_ts_sorted.
  - apply Hin.
  - apply orderBy_asc_sorted; [exact ts_leb_total | exact ts_leb_trans].
  - intros Hne m H1 H2. apply Hin in H1. apply Hin in H2.
    destruct H1 as [_ [H1 _]]. destruct H2 as [_ [H2 _]]. congruence.
Qed.

(** ** Creating an assignment through the route *)

Lemma fk_ok_some (A : Type) (id : A -> varchar) (rows : list A)
    (k : varchar) :
  fk_ok id rows (Some k) = true <-> exists r, In r rows /\ id r = k.
Proof.
  simpl. rewrite existsb_exists. split; intros [r [Hr He]]; exists r;
    (split; [assumption|]); now apply String.eqb_eq.
Qed.

(** X19. [POST /api/assignments] stores the id of the caller, a key of
    [users], in [teacherId], which references [teachers]: it answers
    201 only to a caller of role teacher whose user id is also the key
    of a row of [teachers], and only for a body whose [dueDate] is not a
    string.  For every other request the store is left unchanged. *)
Theorem post_assignments_created_only_if (db : DB) (fr : Fresh)
    (user : ReqUser.t) (body : InsertAssignment.t) :
  (answer_code (snd (post_assignments db fr user body)) = 201 ->
   ReqUser.role user = "teacher"
   /\ (exists t, In t db.(teachers) /\ Teacher.id t = ReqUser.id user)
   /\ (forall s, InsertAssignment.dueDate body <> DateString s))
  /\ (answer_code (snd (post_assignments db fr user body)) <> 201 ->
      fst (post_assignments db fr user body) = db).
Proof.
  split.
  - unfold post_assignments.
    destruct (String.eqb (ReqUser.role user) "teacher") eqn:Er; simpl;
      [|discriminate].
    apply String.eqb_eq in Er.
    match goal with
    | |- context [createAssignment db fr ?v] =>
      destruct (createAssignment db fr v) as [[db' r]|e] eqn:E
    end; simpl; [|discriminate].
    intros _. split; [exact Er|].
    destruct (createAssignment_fields _ _ _ E) as [Hfk _]. simpl in Hfk.
    split.
    + apply (proj1 (fk_ok_some Teacher.id db.(teachers) (ReqUser.id user))).
      exact Hfk.
    + intros s Hs. unfold createAssignment in E. simpl in E.
      rewrite Hs in E. discriminate.
  - destruct (post_assignments_outcome db fr user body) as [[a Ha]|[H _]].
    + rewrite Ha. simpl. congruence.
    + intros _. exact H.
Qed.

Lemma post_assignments_created_only_if_witness :
  post_assignments Sample.db Sample.fresh1 (Sample.caller Sample.teacherUser)
    Sample3.homework
  = (Sample.db, Failed 500 "Failed to create assignment")
  /\ fst (post_assignments Sample.db Sample.fresh1
            (Sample.caller Sample.teacherUser) Sample3.homework)
     = Sample.db.
Proof.
  split; [reflexivity|].
  apply (proj2 (post_assignments_created_only_if Sample.db Sample.fresh1
                  (Sample.caller Sample.teacherUser) Sample3.homework)).
  discriminate.
Defined.

(** ** Classes and subjects of the caller's school *)

(** X20. [GET /api/classes] and [GET /api/subjects] answer 200 only
    when the caller's school is resolved, and then with exactly the
    classes, respectively subjects, of that school: no row of another
    school is sent. *)
Theorem classes_and_subjects_of_own_school (db : DB) (user : ReqUser.t) :
  (forall rows, get_classes db user = Sent 200 rows ->
     exists c school,
       ReqUser.claims user = Some c
       /\ getSchoolByUser db c.(sub) = Some school
       /\ forall x, In x rows <->
            In x db.(classes)
            /\ Class.schoolId x = Some (School.id school))
  /\ (forall rows, get_subjects db user = Sent 200 rows ->
      exists c school,
        ReqUser.claims user = Some c
        /\ getSchoolByUser db c.(sub) = Some school
        /\ forall x, In x rows <->
             In x db.(subjects)
             /\ Subject.schoolId x = Some (School.id school)).
Proof.
  split; intros rows; unfold get_classes, get_subjects;
    destruct (ReqUser.claims user) as [c|]; try discriminate;
    destruct (getSchoolByUser db (sub c)) as [school|] eqn:Es;
    try discriminate;
    intros H; injection H as <-; exists c, school;
    (split; [reflexivity|]); (split; [exact Es|]); intros x.
  - unfold getClassesBySchool.
    rewrite in_orderBy, filter_In, sql_eq_true. tauto.
  - unfold getSubjectsBySchool.
    rewrite in_orderBy, filter_In, sql_eq_true. tauto.
Qed.

Lemma classes_and_subjects_of_own_school_witness :
  exists c school,
    ReqUser.claims (ReqUser.mk "u-princ" "princ@school.ng" "principal"
                      (Some (mkClaims "u-princ"))) = Some c
    /\ getSchoolByUser Sample.db c.(sub) = Some school
    /\ forall x, In x [Sample.class1] <->
         In x Sample.db.(classes)
         /\ Class.schoolId x = Some (School.id school).
Proof.
  apply (proj1 (classes_and_subjects_of_own_school Sample.db
                  (ReqUser.mk "u-princ" "princ@school.ng" "principal"
                     (Some (mkClaims "u-princ"))))).
  reflexivity.
Defined.

(** ** The client *)

Lemma count_status_split (rows : list Attendance.t) :
  Forall (fun a => In (Attendance.status a) attendanceStatusEnum) rows ->
  (List.length rows
   = count_status "present" rows + count_status "absent" rows
     + count_status "late" rows)%nat
  /\ count_status "excused" rows = 0%nat.
Proof.
  unfold count_status.
  induction 1 as [|a rows Ha _ [IH1 IH2]]; simpl; [split; reflexivity|].
  apply attendanceStatusEnum_labels in Ha.
  destruct Ha as [-> | [-> | ->]]; simpl; (split; [lia | exact IH2]).
Qed.

(** X21. On attendance rows as the store can hold them, with a status
    of the enum, the statistics of the attendance tracker count every
    row once as present, absent or late, and the count of excused is
    always zero. *)
Theorem getAttendanceStats_of_stored_rows (rows : list Attendance.t) :
  Forall (fun a => In (Attendance.status a) attendanceStatusEnum) rows ->
  (AttendanceStats.total (getAttendanceStats rows)
   = AttendanceStats.present (getAttendanceStats rows)
     + AttendanceStats.absent (getAttendanceStats rows)
     + AttendanceStats.late (getAttendanceStats rows))%nat
  /\ AttendanceStats.excused (getAttendanceStats rows) = 0%nat.
Proof. intros H. simpl. now apply count_status_split. Qed.

Lemma getAttendanceStats_of_stored_rows_witness :
  (AttendanceStats.total
     (getAttendanceStats Sample3.withAttendance.(attendance))
   = AttendanceStats.present
       (getAttendanceStats Sample3.withAttendance.(attendance))
     + AttendanceStats.absent
         (getAttendanceStats Sample3.withAttendance.(attendance))
     + AttendanceStats.late
         (getAttendanceStats Sample3.withAttendance.(attendance)))%nat
  /\ AttendanceStats.excused
       (getAttendanceStats Sample3.withAttendance.(attendance)) = 0%nat.
Proof.
  apply getAttendanceStats_of_stored_rows.
  constructor; [simpl; auto 6|].
  constructor; [simpl; auto 6 | constructor].
Defined.

Lemma to_int32_range (x : Z) : - 2 ^ 31 <= to_int32 x < 2 ^ 31.
Proof.
  unfold to_int32.
  pose proof (Z.mod_pos_bound (x + 2 ^ 31) (2 ^ 32) ltac:(lia)). lia.
Qed.

Lemma subject_hash_range (codeUnits : list Z) :
  - 2 ^ 31 <= subject_hash codeUnits < 2 ^ 31.
Proof.
  unfold subject_hash.
  assert (H : forall l a, - 2 ^ 31 <= a < 2 ^ 31 ->
                          - 2 ^ 31 <= fold_left hash_step l a < 2 ^ 31).
  { induction l as [|c l IH]; intros a Ha; simpl; [exact Ha|].
    apply IH. apply to_int32_range. }
  apply H. lia.
Qed.

(** X22. The hash of [getSubjectColor] stays within the signed 32-bit
    range whatever the subject, and the index taken from it is always
    one of the eight colours: the function never returns [undefined],
    not even for the hash -2^31, whose absolute value is not an int32. *)
Theorem getSubjectColor_defined (codeUnits : list Z) :
  - 2 ^ 31 <= subject_hash codeUnits < 2 ^ 31
  /\ exists color,
       getSubjectColor codeUnits = Some color /\ In color subject_colors.
Proof.
  split; [apply subject_hash_range|].
  unfold getSubjectColor.
  set (h := Z.abs (subject_hash codeUnits)).
  assert (Hh : 0 <= h) by apply Z.abs_nonneg.
  change (Z.of_nat (List.length subject_colors)) with 8.
  pose proof (Z.rem_bound_pos h 8 Hh ltac:(lia)) as Hi.
  destruct (Z.rem h 8 <? 0) eqn:E; [apply Z.ltb_lt in E; lia|].
  assert (Hn : (Z.to_nat (Z.rem h 8) < 8)%nat) by lia.
  destruct (Z.to_nat (Z.rem h 8)) as [|[|[|[|[|[|[|[|n]]]]]]]];
    try (eexists; split; [reflexivity | simpl; tauto]).
  lia.
Qed.

Example getSubjectColor_mathematics :
  getSubjectColor (code_units "Mathematics")
  = Some "bg-yellow-100 text-yellow-800".
Proof. reflexivity. Qed.

(** *** The timetable grid *)

Lemma ascii_eqb_refl (c : Ascii.ascii) : Ascii.eqb c c = true.
Proof. now apply Ascii.eqb_eq. Qed.

Lemma split_on_append (sep : Ascii.ascii) (a b : string) :
  has_char sep a = false ->
  split_on sep (String.append a (String sep b)) = a :: split_on sep b.
Proof.
  induction a as [|c a IH]; simpl; intros H.
  - now rewrite ascii_eqb_refl.
  - apply orb_false_iff in H. destruct H as [Hc Ha].
    rewrite Hc, (IH Ha). reflexivity.
Qed.

Lemma split_on_whole (sep : Ascii.ascii) (s : string) :
  has_char sep s = false -> split_on sep s = [s].
Proof.
  induction s as [|c s IH]; simpl; intros H; [reflexivity|].
  apply orb_false_iff in H. destruct H as [Hc Hs].
  rewrite Hc, (IH Hs). reflexivity.
Qed.

Lemma find_first_match (A : Type) (p : A -> bool) (l : list A) (x : A) :
  In x l -> p x = true ->
  exists y, find p l = Some y /\ In y l /\ p y = true.
Proof.
  intros Hx Hp. destruct (find p l) as [y|] eqn:E.
  - exists y. split; [reflexivity|]. now apply find_some in E.
  - rewrite (find_none _ _ E x Hx) in Hp. discriminate.
Qed.

(** X23. The slot label that the timetable grid builds from an entry,
    start time, a dash, end time, leads back to an entry of the same
    day and the same times when it is looked up, provided neither time
    holds a dash itself. *)
Theorem time_slot_round_trip (timetable : list TimetableEntry.t)
    (entry : TimetableEntry.t) :
  In entry timetable ->
  has_char dash (TimetableEntry.startTime entry) = false ->
  has_char dash (TimetableEntry.endTime entry) = false ->
  exists found,
    getEntryForDayAndTime timetable (TimetableEntry.dayOfWeek entry)
      (time_slot entry) = Some found
    /\ In found timetable
    /\ TimetableEntry.dayOfWeek found = TimetableEntry.dayOfWeek entry
    /\ TimetableEntry.startTime found = TimetableEntry.startTime entry
    /\ TimetableEntry.endTime found = TimetableEntry.endTime entry.
Proof.
  intros Hin Hs He. unfold getEntryForDayAndTime, time_slot.
  rewrite split_on_append by exact Hs.
  rewrite split_on_whole by exact He.
  match goal with
  | |- context [find ?p timetable] =>
    destruct (@find_first_match _ p timetable entry Hin) as [y [Hf [Hy Hp]]]
  end.
  { now rewrite Z.eqb_refl, !String.eqb_refl. }
  exists y. split; [exact Hf|]. split; [exact Hy|].
  apply andb_true_iff in Hp. destruct Hp as [Hp H3].
  apply andb_true_iff in Hp. destruct Hp as [H1 H2].
  apply Z.eqb_eq in H1. apply String.eqb_eq in H2, H3. auto.
Qed.

Lemma time_slot_round_trip_witness :
  exists found,
    getEntryForDayAndTime
      [Sample3.lesson1; Sample3.lesson2; Sample3.lesson3] 3 "09:00-10:00"
    = Some found
    /\ In found [Sample3.lesson1; Sample3.lesson2; Sample3.lesson3]
    /\ TimetableEntry.dayOfWeek found = 3
    /\ TimetableEntry.startTime found = "09:00"
    /\ TimetableEntry.endTime found = "10:00".
Proof.
  apply (@time_slot_round_trip
           [Sample3.lesson1; Sample3.lesson2; Sample3.lesson3]
           Sample3.lesson3).
  - simpl. auto.
  - reflexivity.
  - reflexivity.
Defined.

(** A time that holds a dash breaks the label: the parts after the
    second are dropped and the entry is not found under its own slot. *)
Example time_slot_with_dash_lost :
  getEntryForDayAndTime
    [TimetableEntry.mk "tt-9" "C1" "Math" "T1" 1 "9-00" "10-00" "SESSION1"
                       true "2024-01-01"]
    1 "9-00-10-00" = None.
Proof. reflexivity. Qed.

Lemma in_set_from (values seen : list string) (x : string) :
  In x (set_from values seen) <-> In x values /\ ~ In x seen.
Proof.
  revert seen. induction values as [|v rest IH]; intros seen; simpl.
  - tauto.
  - destruct (includes seen v) eqn:E.
    + apply enum_ok_in in E. rewrite IH. split.
      * tauto.
      * intros [[<- | H] Hn]; [contradiction | tauto].
    + assert (Hv : ~ In v seen).
      { intros H. apply enum_ok_in in H. unfold enum_ok in H.
        unfold includes in E. congruence. }
      simpl. rewrite IH. simpl. split.
      * intros [<- | [H Hn]]; [tauto|]. tauto.
      * intros [[<- | H] Hn]; [now left|].
        destruct (String.eqb v x) eqn:Ex.
        -- apply String.eqb_eq in Ex. now left.
        -- apply String.eqb_neq in Ex. right. tauto.
Qed.

Lemma NoDup_set_from (values seen : list string) :
  NoDup (set_from values seen).
Proof.
  revert seen. induction values as [|v rest IH]; intros seen; simpl.
  - constructor.
  - destruct (includes seen v); [apply IH|].
    constructor; [|apply IH].
    rewrite in_set_from. simpl. tauto.
Qed.

(** X24. [getTimeSlots] returns every slot label of the timetable
    exactly once, in ascending order of strings. *)
Theorem getTimeSlots_distinct_sorted (timetable : list TimetableEntry.t) :
  NoDup (getTimeSlots timetable)
  /\ (forall slot, In slot (getTimeSlots timetable) <->
        exists entry, In entry timetable /\ time_slot entry = slot)
  /\ StronglySorted (precedes String.leb) (getTimeSlots timetable).
Proof.
  unfold getTimeSlots. split; [|split].
  - eapply Permutation_NoDup;
      [apply Permutation_sym, orderBy_perm | apply NoDup_set_from].
  - intros slot. rewrite in_orderBy, in_set_from, in_map_iff. simpl.
    split.
    + intros [[e [He Hin]] _]. eauto.
    + intros [e [Hin He]]. split; [eauto | tauto].
  - apply orderBy_sorted.
    + exact string_leb_total.
    + exact string_leb_trans.
Qed.

Example getTimeSlots_sample :
  getTimeSlots [Sample3.lesson1; Sample3.lesson2; Sample3.lesson3]
  = ["08:00-09:00"; "09:00-10:00"].
Proof. reflexivity. Qed.

(** ** What the attendance reads can return *)

(** X25. In a store reached from the empty one by the writes of the
    storage, every attendance read is empty: [getAttendanceByStudent]
    and [getAttendanceByClass] return no row, the student dashboard
    carries an empty attendance section (or none), and [GET
    /api/attendance] never sends a row. *)
Theorem attendance_reads_empty (db : DB) :
  reachable db ->
  (forall sid s e, getAttendanceByStudent db sid s e = [])
  /\ (forall cid d, getAttendanceByClass db cid d = [])
  /\ (forall user d,
        snd (get_dashboard db user) = mkResponse 200 (JDashboard d) ->
        Dashboard.attendance d = Some [] \/ Dashboard.attendance d = None)
  /\ (forall Date_parse user sid cid date rows,
        get_attendance Date_parse db user sid cid date = Sent 200 rows ->
        rows = []).
Proof.
  intros Hreach. pose proof (reachable_attendance_empty Hreach) as Hempty.
  assert (H1 : forall sid s e, getAttendanceByStudent db sid s e = []).
  { intros sid s e. unfold getAttendanceByStudent. rewrite Hempty.
    destruct s, e; reflexivity. }
  assert (H2 : forall cid d, getAttendanceByClass db cid d = []).
  { intros cid d. unfold getAttendanceByClass. now rewrite Hempty. }
  split; [exact H1|]. split; [exact H2|]. split.
  - intros user d. unfold get_dashboard.
    destruct (getUser db (ReqUser.id user)) as [u|]; [|discriminate].
    destruct (String.eqb (User.role u) "student").
    { destruct (getStudentByUserId db (ReqUser.id user)) as [st|]; simpl.
      - intros H. injection H as <-. left. simpl. now rewrite Hempty.
      - intros H. injection H as <-. now right. }
    destruct (String.eqb (User.role u) "teacher").
    { destruct (getTeacherByUserId db (ReqUser.id user)),
        (getSchoolByUser db (ReqUser.id user)); simpl;
        intros H; injection H as <-; now right. }
    destruct (String.eqb (User.role u) "principal"
              || String.eqb (User.role u) "proprietor").
    + destruct (getSchoolByUser db (ReqUser.id user)); simpl;
        intros H; injection H as <-; now right.
    + simpl. intros H. injection H as <-. now right.
  - intros Date_parse user sid cid date rows. unfold get_attendance.
    destruct (if_truthy sid); [rewrite H1; now intros [= <-]|].
    destruct (if_truthy cid), (if_truthy date) as [dt|];
      try (now intros [= <-]).
    destruct (Date_parse dt); [|discriminate].
    rewrite H2. now intros [= <-].
Qed.

Lemma attendance_reads_empty_witness :
  reachable (apply_write Sample.db
               (WCreateAttendance Sample.fresh1 Sample.presentToday))
  /\ forall sid s e,
       getAttendanceByStudent
         (apply_write Sample.db
            (WCreateAttendance Sample.fresh1 Sample.presentToday))
         sid s e = [].
Proof.
  assert (H : reachable (apply_write Sample.db
                 (WCreateAttendance Sample.fresh1 Sample.presentToday))).
  { apply reachable_write.
    exact (reachable_write (WOtherTables Sample.db) reachable_empty). }
  split; [exact H|].
  exact (proj1 (attendance_reads_empty H)).
Defined.

(** ** The constraints of the schema are kept *)

Lemma ids_unique_snoc (ids : list varchar) (k : varchar) :
  ids_unique ids = true -> existsb (String.eqb k) ids = false ->
  ids_unique (ids ++ [k]) = true.
Proof.
  unfold varchar in *.
  induction ids as [|x ids IH]; simpl; [reflexivity|].
  intros H1 H2. apply andb_true_iff in H1. destruct H1 as [Hx Hu].
  apply negb_true_iff in Hx. apply orb_false_iff in H2.
  destruct H2 as [Hk Hn].
  rewrite existsb_app, Hx, (IH Hu Hn). simpl.
  rewrite String.eqb_sym, Hk. reflexivity.
Qed.

Lemma pk_free_existsb (A : Type) (id : A -> varchar) (rows : list A)
    (k : varchar) :
  pk_free id rows k = true -> existsb (String.eqb k) (map id rows) = false.
Proof.
  unfold pk_free, varchar in *. rewrite negb_true_iff. intros H.
  rewrite <- H. clear H.
  induction rows as [|r rows IH]; simpl; [reflexivity|].
  now rewrite String.eqb_sym, IH.
Qed.

Lemma existsb_eqb_in (k : varchar) (ids : list varchar) :
  existsb (String.eqb k) ids = true <-> In k ids.
Proof.
  rewrite existsb_exists. split.
  - intros [x [Hx Heq]]. apply String.eqb_eq in Heq. now subst.
  - intros H. exists k. split; [exact H | apply String.eqb_refl].
Qed.

Lemma ids_unique_NoDup (ids : list varchar) :
  ids_unique ids = true <-> NoDup ids.
Proof.
  induction ids as [|k ids IH]; simpl.
  - split; [constructor | reflexivity].
  - rewrite andb_true_iff, negb_true_iff, IH. split.
    + intros [Hk Hn]. constructor; [|exact Hn].
      intros Hin. apply existsb_eqb_in in Hin. congruence.
    + intros H. inversion H as [|? ? Hk Hn]. subst. split; [|exact Hn].
      destruct (existsb (String.eqb k) ids) eqn:E; [|reflexivity].
      apply existsb_eqb_in in E. contradiction.
Qed.

Lemma ids_unique_perm (ids ids' : list varchar) :
  Permutation ids ids' -> ids_unique ids = true -> ids_unique ids' = true.
Proof.
  intros Hp. rewrite !ids_unique_NoDup. now apply Permutation_NoDup.
Qed.

Lemma ids_unique_insert (A : Type) (id : A -> varchar) (rows : list A)
    (r : A) :
  ids_unique (map id rows) = true -> pk_free id rows (id r) = true ->
  ids_unique (map id (rows ++ [r])) = true.
Proof.
  intros Hu Hpk. rewrite map_app. simpl.
  apply ids_unique_snoc; [exact Hu | now apply pk_free_existsb].
Qed.

Lemma fk_ok_mono (A : Type) (id : A -> varchar) (rows : list A) (r : A)
    (k : option varchar) :
  fk_ok id rows k = true -> fk_ok id (rows ++ [r]) k = true.
Proof.
  destruct k as [v|]; simpl; [|reflexivity].
  intros H. now rewrite existsb_app, H.
Qed.

Lemma forallb_weaken (A : Type) (p q : A -> bool) (l : list A) :
  (forall x, p x = true -> q x = true) ->
  forallb p l = true -> forallb q l = true.
Proof.
  intros H. rewrite !forallb_forall. intros Hp x Hx. apply H, Hp, Hx.
Qed.

Lemma forallb_insert (A : Type) (p : A -> bool) (rows : list A) (r : A) :
  forallb p rows = true -> p r = true -> forallb p (rows ++ [r]) = true.
Proof.
  intros H1 H2. rewrite forallb_app, H1. simpl. now rewrite H2.
Qed.

(** Closes the conjuncts that are as before, that insert a row, or that
    refer to a table that grew. *)
Ltac close_store :=
  repeat (apply andb_true_iff; split); try assumption;
  try (apply ids_unique_insert; assumption);
  try (eapply forallb_weaken; [|eassumption];
       cbv beta; intros ? ?; split_ands;
       repeat (apply andb_true_iff; split);
       solve [assumption | apply fk_ok_mono; assumption]).

Lemma createGrade_keeps (db db' : DB) (fr : Fresh) (g : InsertGrade.t)
    (r : Grade.t) :
  db_constraints_ok db = true ->
  createGrade db fr g = Resolved (db', r) -> db_constraints_ok db' = true.
Proof.
  intros Hok Hc. unfold createGrade, require, bind in Hc.
  open_checks Hc. injection Hc as <- <-. open_store db. close_store.
  apply forallb_insert; [assumption|]. cbn.
  repeat (apply andb_true_iff; split); try assumption.
  destruct (InsertGrade.status g); assumption || reflexivity.
Qed.

Lemma createAnnouncement_keeps (db db' : DB) (fr : Fresh)
    (a : InsertAnnouncement.t) (r : Announcement.t) :
  db_constraints_ok db = true ->
  createAnnouncement db fr a = Resolved (db', r) ->
  db_constraints_ok db' = true.
Proof.
  intros Hok Hc. unfold createAnnouncement, require, bind in Hc.
  open_checks Hc. injection Hc as <- <-. open_store db. close_store.
  apply forallb_insert; [assumption|]. cbn.
  repeat (apply andb_true_iff; split); assumption.
Qed.

Lemma generateReportCard_keeps (db db' : DB) (fr : Fresh) (s : varchar)
    (t : string) (a : varchar) (r : ReportCard.t) :
  db_constraints_ok db = true ->
  generateReportCard db fr s t a = Resolved (db', r) ->
  db_constraints_ok db' = true.
Proof.
  intros Hok Hc. unfold generateReportCard, require, bind in Hc.
  open_checks Hc. injection Hc as <- <-. open_store db. close_store.
  apply forallb_insert; [assumption|]. cbn.
  repeat (apply andb_true_iff; split); assumption.
Qed.

Lemma createMessage_keeps (db db' : DB) (fr : Fresh) (m : InsertMessage.t)
    (r : Message.t) :
  db_constraints_ok db = true ->
  createMessage db fr m = Resolved (db', r) -> db_constraints_ok db' = true.
Proof.
  intros Hok Hc. unfold createMessage, require, bind in Hc.
  open_checks Hc. injection Hc as <- <-. open_store db. close_store.
  apply forallb_insert; [assumption|]. cbn.
  repeat (apply andb_true_iff; split); assumption.
Qed.

Lemma createAssignment_keeps (db db' : DB) (fr : Fresh)
    (a : InsertAssignment.t) (r : Assignment.t) :
  db_constraints_ok db = true ->
  createAssignment db fr a = Resolved (db', r) ->
  db_constraints_ok db' = true.
Proof.
  intros Hok Hc. unfold createAssignment, require, bind in Hc.
  open_checks Hc. injection Hc as <- <-. open_store db. close_store.
  apply forallb_insert; [assumption|]. cbn.
  repeat (apply andb_true_iff; split); assumption.
Qed.

Lemma createUser_keeps (db db' : DB) (fr : Fresh) (d : InsertUser.t)
    (u : User.t) :
  db_constraints_ok db = true ->
  createUser db fr d = Resolved (db', u) -> db_constraints_ok db' = true.
Proof.
  intros Hok Hc. unfold createUser, require, bind in Hc.
  open_checks Hc. injection Hc as <- <-. open_store db. close_store.
  apply forallb_insert; assumption.
Qed.

Lemma createStudent_keeps (db db' : DB) (fr : Fresh) (s : InsertStudent.t)
    (st : Student.t) :
  db_constraints_ok db = true ->
  createStudent db fr s = Resolved (db', st) -> db_constraints_ok db' = true.
Proof.
  intros Hok Hc. unfold createStudent, require, bind in Hc.
  open_checks Hc. injection Hc as <- <-. open_store db. close_store.
  apply forallb_insert; [assumption|]. cbn.
  repeat (apply andb_true_iff; split); assumption.
Qed.

Lemma markMessageAsRead_keeps (db : DB) (id : varchar) :
  db_constraints_ok db = true ->
  db_constraints_ok (markMessageAsRead db id) = true.
Proof.
  intros Hok. unfold markMessageAsRead. open_store db. close_store.
  - eapply ids_unique_perm;
      [apply Permutation_sym, update_where_keys | eassumption].
    intros m. unfold mark_read.
    now destruct (String.eqb (Message.id m) id).
  - apply forallb_update_where; [assumption|]. intros m Hm Hhit.
    match goal with
    | H : forallb _ ?l = true, Hin : In m ?l |- _ =>
      rewrite forallb_forall in H; specialize (H m Hin)
    end.
    unfold mark_read. now rewrite Hhit.
Qed.

Lemma updateAttendance_keeps (db db' : DB) (id : varchar)
    (p : PartialAttendance.t) (r : option Attendance.t) :
  db_constraints_ok db = true ->
  updateAttendance db id p = Resolved (db', r) ->
  db_constraints_ok db' = true.
Proof.
  intros Hok Hc. unfold updateAttendance, require, bind in Hc.
  open_checks Hc. injection Hc as <- <-. open_store db. close_store.
  - eapply ids_unique_perm;
      [apply Permutation_sym, update_where_keys | eassumption].
    intros a. reflexivity.
  - apply forallb_update_where; [assumption|]. intros a Ha Hhit.
    match goal with
    | H : forallb _ attendance0 = true |- _ =>
      rewrite forallb_forall in H; specialize (H a Ha)
    end.
    match goal with
    | H : forallb _ (map _ (filter _ _)) = true |- _ =>
      rewrite forallb_forall in H; specialize (H (apply_partial p a))
    end.
    assert (Hin : In (apply_partial p a)
                    (map (apply_partial p)
                       (filter (fun a1 => String.eqb (Attendance.id a1) id)
                          attendance0))).
    { apply in_map, filter_In. auto. }
    match goal with
    | H : In (apply_partial p a) _ -> _ |- _ => specialize (H Hin)
    end.
    split_ands. repeat (apply andb_true_iff; split); try assumption.
    simpl. destruct (PartialAttendance.status p); assumption.
Qed.

(** X26. A store that satisfies the constraints of the schema (unique
    keys, emails and school-specific codes, labels of the enums,
    references to existing rows) still satisfies them after any of the
    writes [createUser], [createStudent], [createGrade],
    [createAssignment], [createMessage], [createAnnouncement],
    [generateReportCard] and [updateAttendance] has resolved, and after
    [markMessageAsRead]. *)
Theorem writes_keep_constraints (db : DB) :
  db_constraints_ok db = true ->
  (forall fr d db' u,
     createUser db fr d = Resolved (db', u) -> db_constraints_ok db' = true)
  /\ (forall fr s db' st,
        createStudent db fr s = Resolved (db', st) ->
        db_constraints_ok db' = true)
  /\ (forall fr g db' r,
        createGrade db fr g = Resolved (db', r) ->
        db_constraints_ok db' = true)
  /\ (forall fr a db' r,
        createAssignment db fr a = Resolved (db', r) ->
        db_constraints_ok db' = true)
  /\ (forall fr m db' r,
        createMessage db fr m = Resolved (db', r) ->
        db_constraints_ok db' = true)
  /\ (forall fr a db' r,
        createAnnouncement db fr a = Resolved (db', r) ->
        db_constraints_ok db' = true)
  /\ (forall fr s t a db' r,
        generateReportCard db fr s t a = Resolved (db', r) ->
        db_constraints_ok db' = true)
  /\ (forall id p db' r,
        updateAttendance db id p = Resolved (db', r) ->
        db_constraints_ok db' = true)
  /\ (forall id, db_constraints_ok (markMessageAsRead db id) = true).
Proof.
  intros Hok. repeat split; intros.
  - eapply createUser_keeps; eassumption.
  - eapply createStudent_keeps; eassumption.
  - eapply createGrade_keeps; eassumption.
  - eapply createAssignment_keeps; eassumption.
  - eapply createMessage_keeps; eassumption.
  - eapply createAnnouncement_keeps; eassumption.
  - eapply generateReportCard_keeps; eassumption.
  - eapply updateAttendance_keeps; eassumption.
  - now apply markMessageAsRead_keeps.
Qed.

Lemma writes_keep_constraints_witness :
  db_constraints_ok Sample3.withAttendance = true
  /\ exists db' r,
       updateAttendance Sample3.withAttendance "att-2" Sample3.markAbsent
       = Resolved (db', r)
       /\ db_constraints_ok db' = true.
Proof.
  assert (Hok : db_constraints_ok Sample3.withAttendance = true)
    by reflexivity.
  split; [exact Hok|].
  destruct (updateAttendance Sample3.withAttendance "att-2"
              Sample3.markAbsent) as [[db' r]|e] eqn:E; [|discriminate E].
  exists db', r. split; [reflexivity|].
  destruct (@writes_keep_constraints Sample3.withAttendance Hok)
    as [_ [_ [_ [_ [_ [_ [_ [H _]]]]]]]].
  exact (H "att-2" Sample3.markAbsent db' r E).
Defined.

(** ** Instances on the sample store *)

Lemma write_routes_one_row_or_nothing_witness :
  fst (post_grades (fun _ : unit => Rejected ZodError) Sample.db
         Sample.fresh1 (Sample.caller Sample.teacherUser) tt)
  = Sample.db.
Proof.
  destruct (proj1 (@write_routes_one_row_or_nothing unit
                     (fun _ => Rejected ZodError)
                     (fun _ _ _ => Rejected ZodError)
                     (fun _ _ => Rejected ZodError)
                     Sample.db Sample.fresh1
                     (Sample.caller Sample.teacherUser) tt Sample3.homework))
    as [[g Hg] | [H _]].
  - discriminate Hg.
  - exact H.
Defined.

Lemma markMessageAsRead_inbox_witness :
  Permutation
    (getMessagesByUser (markMessageAsRead Sample6.twoMessages "m-1")
       "u-stud")
    [Sample4.noteRead; Sample6.reminder]
  /\ newest_first Message.createdAt
       (getMessagesByUser (markMessageAsRead Sample6.twoMessages "m-1")
          "u-stud")
  /\ Message.isRead Sample4.noteRead = Some true
  /\ In Sample6.reminder
       (markMessageAsRead Sample6.twoMessages "m-1").(messages).
Proof.
  assert (Hin : In Sample4.noteRead
                  (markMessageAsRead Sample6.twoMessages "m-1").(messages))
    by (simpl; auto).
  destruct (markMessageAsRead_inbox Sample6.twoMessages "m-1" "u-stud")
    as [Hinbox [Hsorted [Hread [Hother _]]]].
  split; [exact Hinbox|]. split; [exact Hsorted|]. split.
  - exact (Hread Sample4.noteRead Hin eq_refl).
  - apply Hother; [discriminate | simpl; auto].
Defined.

Lemma messages_inbox_and_conversation_witness :
  In Sample4.note (getConversation Sample4.withMessage "u-teach" "u-stud")
  /\ ~ In Sample4.note
         (getConversation Sample4.withMessage "u-stud" "u-teach").
Proof.
  assert (Hin : In Sample4.note
                  (getConversation Sample4.withMessage "u-teach" "u-stud"))
    by (simpl; auto).
  split; [exact Hin|].
  destruct (messages_inbox_and_conversation Sample4.withMessage
              (Sample.caller Sample.studentUser) "u-teach" "u-stud")
    as [_ [_ [_ H]]].
  apply H; [discriminate | exact Hin].
Defined.
